(** * Blue-Cloud to EOSC metadata mapping: a shallow embedding of [mapping.py]

    The development follows [src/mapping.py]: the field validators, the name
    splitter [get_name_from_val] and the mapping engine
    [extract_bluecloud_metadata] with its per-key handlers, the composite
    matchers, the tag filter and the mandatory-field checks.

    Modelling conventions.
    - A Python [str] is a Rocq [string]; a character is a code point below 256
      (Latin-1), and [len] is [String.length].
    - The source record [md] is a typed record: every key of the JSON
      document is present and every value is a string, so the
      [isinstance(val, str)] guards of the validators always hold and are not
      represented.
    - The function's local variables are the fields of [Locals]; the three
      locals that the source can read before any assignment
      ([maincontact_name], [publiccontact_name], [eosc_id]) are options, [None]
      standing for an unbound local.
    - [collected_messages] and the records written to [LOGGER] are part of the
      threaded state.  Messages are kept structured: one constructor per
      message text of the source, carrying the values interpolated into it;
      their rendering to text is not modelled.
    - A Python exception is an [exn] value; the engine runs in a state and
      error monad [M].  An exception ends the call, and the locals are lost
      with it. *)

From Stdlib Require Import String Ascii List Bool Arith Lia ZArith.
Import ListNotations.
Local Open Scope list_scope.
Local Open Scope string_scope.

(** ** Python string primitives used by the mapping *)

Module PyStr.

(** [str.isspace] on one code point below 256: TAB..CR, FS..US, space, NEL and
    the no-break space. *)
Definition isspace (c : ascii) : bool :=
  let n := nat_of_ascii c in
  (((9 <=? n) && (n <=? 13)) || ((28 <=? n) && (n <=? 32))
   || (n =? 133) || (n =? 160))%nat.

Fixpoint lstrip (s : string) : string :=
  match s with
  | EmptyString => EmptyString
  | String c s' => if isspace c then lstrip s' else s
  end.

(** [s.rstrip(chars)] with the stripped characters given as a predicate. *)
Fixpoint rstrip_chars (p : ascii -> bool) (s : string) : string :=
  match s with
  | EmptyString => EmptyString
  | String c s' =>
      match rstrip_chars p s' with
      | EmptyString => if p c then EmptyString else String c EmptyString
      | r => String c r
      end
  end.

Definition rstrip (s : string) : string := rstrip_chars isspace s.

(** [s.strip()] *)
Definition strip (s : string) : string := lstrip (rstrip s).

(** [c.lower()] on one code point below 256: A..Z and the Latin-1 capitals
    (all of 192..222 but the multiplication sign 215) move up by 32. *)
Definition lower_char (c : ascii) : ascii :=
  let n := nat_of_ascii c in
  if (((65 <=? n) && (n <=? 90))
      || ((192 <=? n) && (n <=? 222) && negb (n =? 215)))%nat
  then ascii_of_nat (n + 32) else c.

Fixpoint lower (s : string) : string :=
  match s with
  | EmptyString => EmptyString
  | String c s' => String (lower_char c) (lower s')
  end.

(** [s.startswith(p)] *)
Definition startswith (s p : string) : bool := String.prefix p s.

(** [sub in s] *)
Fixpoint contains (sub s : string) : bool :=
  String.prefix sub s
  || match s with
     | EmptyString => false
     | String _ s' => contains sub s'
     end.

(** [s.split(sep)] for a non-empty [sep]: a left-to-right scan for
    non-overlapping occurrences.  [skip] counts the characters of a matched
    separator that are still to be passed over, [cur] is the piece being
    read. *)
Fixpoint split_go (sep : string) (skip : nat) (cur s : string) : list string :=
  match s with
  | EmptyString => [cur]
  | String c s' =>
      match skip with
      | S k => split_go sep k cur s'
      | O =>
          if String.prefix sep s
          then cur :: split_go sep (String.length sep - 1) EmptyString s'
          else split_go sep 0 (cur ++ String c EmptyString) s'
      end
  end.

Definition split (s sep : string) : list string := split_go sep 0 EmptyString s.

(** [s.replace(old, new)] for a non-empty [old]. *)
Fixpoint replace_go (old new : string) (skip : nat) (s : string) : string :=
  match s with
  | EmptyString => EmptyString
  | String c s' =>
      match skip with
      | S k => replace_go old new k s'
      | O =>
          if String.prefix old s
          then new ++ replace_go old new (String.length old - 1) s'
          else String c (replace_go old new 0 s')
      end
  end.

Definition replace (s old new : string) : string := replace_go old new 0 s.

(** [s[0:n]] *)
Definition slice_to (n : nat) (s : string) : string := String.substring 0 n s.

Definition is_digit (c : ascii) : bool :=
  let n := nat_of_ascii c in ((48 <=? n) && (n <=? 57))%nat.

Definition digit_val (c : ascii) : Z := Z.of_nat (nat_of_ascii c - 48).

(** The digits of an [int] literal: groups of decimal digits, single
    underscores allowed between digits only.  [prev] tells whether the
    previous character was a digit. *)
Fixpoint int_digits (prev : bool) (acc : Z) (s : string) : option Z :=
  match s with
  | EmptyString => if prev then Some acc else None
  | String c s' =>
      if is_digit c then int_digits true (10 * acc + digit_val c) s'
      else if (Ascii.eqb c "_") && prev then
        match s' with
        | String d _ => if is_digit d then int_digits false acc s' else None
        | EmptyString => None
        end
      else None
  end.

(** [int(s)]: surrounding whitespace is ignored, one sign is allowed; [None]
    stands for the ValueError of a malformed literal. *)
Definition int (s : string) : option Z :=
  match strip s with
  | String "+" d => int_digits false 0 d
  | String "-" d => option_map Z.opp (int_digits false 0 d)
  | d => int_digits false 0 d
  end.

End PyStr.

(** ** Controlled vocabularies

    The tables are the dictionary and list literals of [mapping.py], entry by
    entry and in the order of the source.  Keys are pairwise distinct in each
    literal, so the first binding of a key is its only one.  Four keys of
    [FUNDING_PROGRAMS] contain a dash above code point 255 and have no
    counterpart among Latin-1 strings; they are left out (no Latin-1 input
    can look them up). *)

Definition dict : Type := list (string * string).

(** [d[k]]; [None] stands for the KeyError. *)
Fixpoint dict_get (d : dict) (k : string) : option string :=
  match d with
  | [] => None
  | (k', v) :: d' => if String.eqb k k' then Some v else dict_get d' k
  end.

(** [x in l] for a list of strings *)
Fixpoint py_in (x : string) (l : list string) : bool :=
  match l with
  | [] => false
  | y :: l' => String.eqb x y || py_in x l'
  end.

(** The one-character string of a code point. *)
Definition chr (n : nat) : string := String (ascii_of_nat n) EmptyString.

Definition ABBREVIATIONS : dict :=
  [
   ("oceanregimes_notebooks", "oceanregimes");
   ("oceanpatterns", "oceanpatterns");
   ("mei_generator", "mei_generator");
   ("carbon_data_notebooks", "carbon_notebooks");
   ("storm_severity_index_ssi_notebook_", "storm_ssi");
   ("marine_environmental_indicators_vlab", "mei_vlab");
   ("modelling_phyto_zoo_plankton_interactions", "plankton_interact");
   ("zooplankton_eovs", "zooplankton_eovs");
   ("zoo-_and_phytoplankton_essential_ocean_variable_products_vlab", "plankton_eov_vlab")
  ].

Definition ORDER_TYPES : dict :=
  [
   ("fully open access", "order_type-fully_open_access");
   ("open access", "order_type-open_access");
   ("order required", "order_type-order_required");
   ("other", "order_type-other")
  ].

Definition FUNDING_BODIES : dict :=
  [
   ("agency for environment and energy management (ademe)", "funding_body-ademe");
   ("arts and humanities research council (ahrc)", "funding_body-ahrc");
   ("academy of finland (aka)", "funding_body-aka");
   ("national authority for scientific research (ancs)", "funding_body-ancs");
   ("french national research agency (anr)", "funding_body-anr");
   ("research and development agency (apvv)", "funding_body-apvv");
   ("australian research council (arc)", "funding_body-arc");
   ("slovenian research agency (arrs)", "funding_body-arrs");
   ("alfred wegener institute for polar and marine research (awi)", "funding_body-awi");
   ("biotechnology and biological sciences research council (bbsrc)", "funding_body-bbsrc");
   ("belmont forum (bf)", "funding_body-bf");
   ("federal ministry of education and research (bmbf)", "funding_body-bmbf");
   ("la caixa foundation (caixa)", "funding_body-caixa");
   ("center for industrial technological development (cdti)", "funding_body-cdti");
   ("alternative energies and atomic energy commission (cea)", "funding_body-cea");
   ("canadian institutes of health research (cihr)", "funding_body-cihr");
   ("national university research council (cncsis) - romania", "funding_body-cncsis");
   ("national centre for space studies (cnes)", "funding_body-cnes");
   ("national council for scientific and technological development (cnpq)", "funding_body-cnpq");
   ("national research council (cnr)", "funding_body-cnr");
   ("national centre for scientific research (cnrs)", "funding_body-cnrs");
   ("croatian science foundation (csf)", "funding_body-csf");
   ("spanish national research council (csic)", "funding_body-csic");
   ("danish agency for science and higher education (dashe)", "funding_body-dashe");
   ("danish agency for science, technology and innovation (dasti)", "funding_body-dasti");
   ("the danish council for independent research (ddf)", "funding_body-ddf");
   ("danish council for independent research (dff)", "funding_body-dff");
   ("german research foundation (dfg)", "funding_body-dfg");
   ("general operational directorate for economy, employment and research (dgo6)", "funding_body-dgo6");
   ("german aerospace center (dlr)", "funding_body-dlr");
   ("danish national research foundation (dnrf)", "funding_body-dnrf");
   ("federal department of economic affairs, education and research (eaer)", "funding_body-eaer");
   ("european comission (ec)", "funding_body-ec");
   ("engineering and physical sciences research council (epsrc)", "funding_body-epsrc");
   ("european space agency (esa)", "funding_body-esa");
   ("economic and social research council (esrc)", "funding_body-esrc");
   ("estonian research council (etag)", "funding_body-etag");
   (("s" ++ chr 227 ++ "o paulo research foundation (fapesp)"), "funding_body-fapesp");
   ("foundation for science and technology (fct)", "funding_body-fct");
   ("austrian research promotion agency (ffg)", "funding_body-ffg");
   ("foundation for polish science (fnp)", "funding_body-fnp");
   ("national research fund (fnr)", "funding_body-fnr");
   ("fonds national de la recherche scientifique (fnrs)", "funding_body-fnrs");
   ("foundation for fundamental research on matter (fom)", "funding_body-fom");
   ("swedish research council for health, working life and welfare (forte)", "funding_body-forte");
   ("fritz thyssen foundation (fts)", "funding_body-fts");
   ("austrian science fund (fwf)", "funding_body-fwf");
   ("research foundation flanders (fwo)", "funding_body-fwo");
   ("czech science foundation (gacr)", "funding_body-gacr");
   ("general secretariat for research and technology (gsrt)", "funding_body-gsrt");
   ("innovation fund denmark (ifd)", "funding_body-ifd");
   ("french research institute for exploitation of the sea (ifremer)", "funding_body-ifremer");
   ("innovation fund of the ministry of economy of the slovak republic (imsr)", "funding_body-imsr");
   ("brussels institute for research and innovation (innoviris)", "funding_body-innoviris");
   ("national institute of agricultural research (inra)", "funding_body-inra");
   ("national institute of health and medical research (inserm)", "funding_body-inserm");
   ("french polar institute (ipev)", "funding_body-ipev");
   ("irish research council (irc)", "funding_body-irc");
   ("international science council (isc)", "funding_body-isc");
   ("carlos iii health institute (isciii)", "funding_body-isciii");
   ("israel science foundation (isf)", "funding_body-isf");
   ("agency for innovation by science and technology (iwt)", "funding_body-iwt");
   ("japanese society for the promotion of science (jsps)", "funding_body-jsps");
   ("japanese science and technology agency (jst)", "funding_body-jst");
   ("knut and alice wallenberg foundation (kaws)", "funding_body-kaws");
   ("knowledge foundation (kks)", "funding_body-kks");
   ("research council of lithuania (lmt)", "funding_body-lmt");
   ("malta council for science and technology (mcst)", "funding_body-mcst");
   ("ministry for education and scientific research (mecr)", "funding_body-mecr");
   ("ministry of higher education and research (mesr)", "funding_body-mesr");
   ("ministry of education, science and technological development of republic of serbia (mestd)", "funding_body-mestd");
   ("ministry for economic development and technology (mgrt)", "funding_body-mgrt");
   ("ministry for economy and competitveness (mineco)", "funding_body-mineco");
   ("swedish foundation for strategic environmental research (mistra)", "funding_body-mistra");
   ("agency for science, innovation and technology (mita)", "funding_body-mita");
   ("ministry for education, university and research (miur)", "funding_body-miur");
   ("ministry of science and technology of the people's republic of china (most)", "funding_body-most");
   ("max planck society for the advancement of science (mpg)", "funding_body-mpg");
   ("medical research council (mrc)", "funding_body-mrc");
   ("ministry of science and education republic of croatia (mse)", "funding_body-mse");
   ("the ministry of education, science, research and sports of the slovak republic (msvvas sr)", "funding_body-msvvas_sr");
   ("national aeronautics and space administration (nasa)", "funding_body-nasa");
   ("national centre for research and development (ncbir)", "funding_body-ncbir");
   ("national science center (ncn)", "funding_body-ncn");
   ("natural environment research council (nerc)", "funding_body-nerc");
   ("national health and medical research council (nhmrc)", "funding_body-nhmrc");
   ("national institutes of health (nig)", "funding_body-nig");
   ("national research, development and innovation fund (nkfia)", "funding_body-nkfia");
   ("national research foundation (nrf)", "funding_body-nrf");
   ("natural sciences and engineering research council of canada (nserc)", "funding_body-nserc");
   ("national science foundation (nsf)", "funding_body-nsf");
   ("netherlands organisation for scientific research (nwo)", "funding_body-nwo");
   ("austrian academy of sciences (oeaw)", "funding_body-oeaw");
   ("national foundation for research, technology and development (oenfte)", "funding_body-oenfte");
   ("french national aerospace research center (onera)", "funding_body-onera");
   ("other", "funding_body-other");
   ("icelandic centre for research (rannis)", "funding_body-rannis");
   ("research council of norway (rcn)", "funding_body-rcn");
   ("research council uk (rcuk)", "funding_body-rcuk");
   ("the swedish foundation for humanities and social sciences (rj)", "funding_body-rj");
   ("research promotion foundation (rpf)", "funding_body-rpf");
   ("swedish energy agency (sea)", "funding_body-sea");
   ("swedish environmental protection agency (sepa)", "funding_body-sepa");
   ("science foundation ireland (sfi)", "funding_body-sfi");
   ("secretariat-general for investment (sgpi)", "funding_body-sgpi");
   ("swiss national science foundation (snf)", "funding_body-snf");
   ("swedish national space board (snsb)", "funding_body-snsb");
   ("swedish reseach council formas (srcf)", "funding_body-srcf");
   ("swedish radiation safety authority (srsa)", "funding_body-srsa");
   ("swedish foundation for strategic research (ssf)", "funding_body-ssf");
   ("social sciences and humanities research council (sshrc)", "funding_body-sshrc");
   ("science and technology facilities council (stfc)", "funding_body-stfc");
   ("technology foundation (stw)", "funding_body-stw");
   ("technology agency of the czech republic (tacr)", "funding_body-tacr");
   ("tara expeditions foundation (tara)", "funding_body-tara");
   ("finnish funding agency for technology and innovation (tekes)", "funding_body-tekes");
   ("scientific and technological research council of turkey (tubitak)", "funding_body-tubitak");
   ("executive agency for higher education, research, development and innovation funding (uefiscdi - cncs)", "funding_body-uefiscdi_cncs");
   ("uk research and innovation (ukri)", "funding_body-ukri");
   ("scientific grant agency (vega)", "funding_body-vega");
   ("state education development agency (viaa)", "funding_body-viaa");
   ("swedish governmental agency for innovation systems (vinnova)", "funding_body-vinnova");
   ("flanders innovation & entrepeneurship (vlaio)", "funding_body-vlaio");
   ("swedish research council (vr)", "funding_body-vr");
   ("volkswagen foundation (vs)", "funding_body-vs");
   ("wellcome trust (wt)", "funding_body-wt");
   ("vienna science and technology fund (wwtf)", "funding_body-wwtf")
  ].

Definition FUNDING_PROGRAMS : dict :=
  [
   ("anti fraud information system (afis2020)", "funding_program-afis2020");
   ("european agricultural guarantee fund (after transfers between eagf and eafrd) (agr)", "funding_program-agr");
   ("net transfer between eagf and eafrd (agrnet)", "funding_program-agrnet");
   ("asylum, migration and integration fund (amf)", "funding_program-amf");
   ("rights, equality and citizenship programme (cdf2020)", "funding_program-cdf2020");
   ("connecting europe facility (cef)", "funding_program-cef");
   ("cohesion fund (cf)", "funding_program-cf");
   ("contribution from the cohesion fund to the cef programme (cf_det)", "funding_program-cf_det");
   ("common foreign and security policy (cfsp2020)", "funding_program-cfsp");
   ("europe for citizens (cit2020)", "funding_program-cit2020");
   ("competitiveness (more developed regions) (compreg)", "funding_program-compreg");
   ("consumer programme (cons)", "funding_program-cons");
   ("european earth observation programme (copernicus)", "funding_program-copernicus");
   ("programme for the competitiveness of enterprises and small and medium-sized enterprises (cosme)", "funding_program-cosme");
   ("creative europe programme (crea)", "funding_program-crea");
   ("action programme for customs in the european union (cust 2020)", "funding_program-cust2020");
   ("development cooperation instrument (dci2020)", "funding_program-dci2020");
   ("the union programme for education, training, youth and sport (erasmus+) (e4a)", "funding_program-e4a");
   ("european agricultural fund for rural development (after transfers between eagf and eafrd) (eafrd)", "funding_program-eafrd");
   ("european agricultural fund for rural development (eafrd2020)", "funding_program-eafrd2020");
   ("european agricultural guarantee fund (eagf2020)", "funding_program-eagf2020");
   ("emergency aid reserve (ear2020)", "funding_program-ear2020");
   ("energy projects to aid economic recovery (eerp)", "funding_program-eerp");
   ("european fund for sustainable development (efsd)", "funding_program-efsd");
   ("european fund for strategic investments (efsi)", "funding_program-efsi");
   ("european globalisation adjustment fund (egf2020)", "funding_program-egf2020");
   ("european instrument for democracy and human rights (eidhr2020)", "funding_program-eidhr2020");
   ("european maritime and fisheries fund (emff2020)", "funding_program-emff2020");
   ("european neighbourhood instrument (eni)", "funding_program-eni");
   ("european regional development fund (erdf)", "funding_program-erdf");
   ("european solidarity corps (esc)", "funding_program-esc");
   ("european social fund (esf)", "funding_program-esf");
   ("european statistical programme (esp2017)", "funding_program-esp2017");
   ("european statistical programme (esp2020)", "funding_program-esp2020");
   ("eu aid volunteers initiative (euav)", "funding_program-euav");
   ("euratom research and training programme (euratom)", "funding_program-euratom");
   ("comparison of fingerprints for the effective application of the dublin convention (eurodac2020)", "funding_program-eurodac2020");
   ("european union solidarity fund (eusf2020)", "funding_program-eusf2020");
   ("fund for european aid to the most deprived (fead)", "funding_program-fead");
   ("food and feed (ff2020)", "funding_program-ff2020");
   ("specific activities in the field of financial reporting and auditing (finser2020)", "funding_program-finser2020");
   ("action programme for taxation in the european union (fisc2020)", "funding_program-fisc2020");
   ("implementation and exploitation of european satellite navigation systems (egnos and galileo) (gal2014)", "funding_program-gal2014");
   ("eu cooperation with greenland (grld2020)", "funding_program-grld2020");
   ("the framework programme for research and innovation (h2020)", "funding_program-h2020");
   ("union's action in the field of health (health programme) (health)", "funding_program-health");
   ("programme to promote activities in the field of the protection of the european union's financial interests (herc3)", "funding_program-herc3");
   ("supplementary high flux reactor (hfr) programmes (hfr2015)", "funding_program-hfr2015");
   ("humanitarian aid (huma2020)", "funding_program-huma2020");
   ("enhancing consumers involvement in eu policy making in the field of financial services (icfs)", "funding_program-icfs");
   ("instrument for emergency support within the union (ies)", "funding_program-ies");
   ("instrument contributing to stability and peace (ifs2020)", "funding_program-ifs2020");
   ("instrument for nuclear safety cooperation (insc2020)", "funding_program-insc2020");
   ("instrument for pre-accession assistance (ipa2)", "funding_program-ipa2");
   ("interoperability solutions for european public administrations (isa2015)", "funding_program-isa2015");
   ("interoperability solutions for european public administrations, businesses and citizens (isa2020)", "funding_program-isa2020");
   ("internal security fund (isf)", "funding_program-isf");
   ("international thermonuclear experimental reactor (iter)", "funding_program-iter");
   ("justice programme (just)", "funding_program-just");
   ("programme for the environment and climate action (life2020)", "funding_program-life2020");
   ("guarantee fund for external actions (loan2020)", "funding_program-loan2020");
   ("macro financial assistance (mfa)", "funding_program-mfa");
   ("nuclear decommissioning assistance programmes in bulgaria, lithuania and slovakia (nd)", "funding_program-nd");
   ("other", "funding_program-other");
   ("outermost and sparsely populated regions (outreg)", "funding_program-outreg");
   ("exchange, assistance and training programme for the protection of the euro against counterfeiting (peri2020)", "funding_program-peri2020");
   ("partnership instrument for cooperation with third countries (pi)", "funding_program-pi");
   ("european union programme for employment and social innovation (psci)", "funding_program-psci");
   ("regional convergence (regconv)", "funding_program-regconv");
   ("compulsory contributions to regional fisheries management organisations (rfmos) and to other international organisations", "funding_program-rfmos");
   ("sustainable fisheries partnership agreements (sfpas)", "funding_program-sfpas");
   ("schengen information system (sis2020)", "funding_program-sis2020");
   ("technical assistance and innovative actions (ta_ia)", "funding_program-ta_ia");
   ("instrument of financial support for encouraging the economic development of the turkish cypriot community (tcc)", "funding_program-tcc");
   ("european territorial cooperation (terrcoop)", "funding_program-terrcoop");
   ("transition regions (transreg)", "funding_program-transreg");
   ("visa information system (vis2020)", "funding_program-vis2020");
   ("youth employment initiative (specific top-up allocation) (yei))", "funding_program-yei")
  ].

Definition CV_DOM : dict :=
  [
   ("agricultural sciences", "scientific_domain-agricultural_sciences");
   ("engineering & technology", "scientific_domain-engineering_and_technology");
   ("generic", "scientific_domain-generic");
   ("humanities", "scientific_domain-humanities");
   ("medical & health sciences", "scientific_domain-medical_and_health_sciences");
   ("natural sciences", "scientific_domain-natural_sciences");
   ("other", "scientific_domain-other");
   ("social sciences", "scientific_domain-social_sciences")
  ].

Definition CV_SUBDOM : dict :=
  [
   ("agricultural sciences.agricultural biotechnology", "scientific_subdomain-agricultural_sciences-agricultural_biotechnology");
   ("agricultural sciences.agriculture, forestry & fisheries", "scientific_subdomain-agricultural_sciences-agriculture_forestry_and_fisheries");
   ("agricultural sciences.animal & dairy sciences", "scientific_subdomain-agricultural_sciences-animal_and_dairy_sciences");
   ("agricultural sciences.other agricultural sciences", "scientific_subdomain-agricultural_sciences-other_agricultural_sciences");
   ("agricultural sciences.veterinary sciences", "scientific_subdomain-agricultural_sciences-veterinary_sciences");
   ("engineering & technology.chemical engineering", "scientific_subdomain-engineering_and_technology-chemical_engineering");
   ("engineering & technology.civil engineering", "scientific_subdomain-engineering_and_technology-civil_engineering");
   ("engineering & technology.electrical, electronic & information engineering", "scientific_subdomain-engineering_and_technology-electrical_electronic_and_information_engineering");
   ("engineering & technology.environmental biotechnology", "scientific_subdomain-engineering_and_technology-environmental_biotechnology");
   ("engineering & technology.environmental engineering", "scientific_subdomain-engineering_and_technology-environmental_engineering");
   ("engineering & technology.industrial biotechnology", "scientific_subdomain-engineering_and_technology-industrial_biotechnology");
   ("engineering & technology.materials engineering", "scientific_subdomain-engineering_and_technology-materials_engineering");
   ("engineering & technology.mechanical engineering", "scientific_subdomain-engineering_and_technology-mechanical_engineering");
   ("engineering & technology.medical engineering", "scientific_subdomain-engineering_and_technology-medical_engineering");
   ("engineering & technology.nanotechnology", "scientific_subdomain-engineering_and_technology-nanotechnology");
   ("engineering & technology.other engineering & technology sciences", "scientific_subdomain-engineering_and_technology-other_engineering_and_technology_sciences");
   ("generic.generic", "scientific_subdomain-generic-generic");
   ("humanities.arts", "scientific_subdomain-humanities-arts");
   ("humanities.history & archaeology", "scientific_subdomain-humanities-history_and_archaeology");
   ("humanities.languages & literature", "scientific_subdomain-humanities-languages_and_literature");
   ("humanities.other humanities", "scientific_subdomain-humanities-other_humanities");
   ("humanities.philosophy, ethics & religion", "scientific_subdomain-humanities-philosophy_ethics_and_religion");
   ("medical & health sciences.basic medicine", "scientific_subdomain-medical_and_health_sciences-basic_medicine");
   ("medical & health sciences.clinical medicine", "scientific_subdomain-medical_and_health_sciences-clinical_medicine");
   ("medical & health sciences.health sciences", "scientific_subdomain-medical_and_health_sciences-health_sciences");
   ("medical & health sciences.medical biotechnology", "scientific_subdomain-medical_and_health_sciences-medical_biotechnology");
   ("medical & health sciences.other medical sciences", "scientific_subdomain-medical_and_health_sciences-other_medical_sciences");
   ("natural sciences.biological sciences", "scientific_subdomain-natural_sciences-biological_sciences");
   ("natural sciences.chemical sciences", "scientific_subdomain-natural_sciences-chemical_sciences");
   ("natural sciences.computer & information sciences", "scientific_subdomain-natural_sciences-computer_and_information_sciences");
   ("natural sciences.earth & related environmental sciences", "scientific_subdomain-natural_sciences-earth_and_related_environmental_sciences");
   ("natural sciences.mathematics", "scientific_subdomain-natural_sciences-mathematics");
   ("natural sciences.other natural sciences", "scientific_subdomain-natural_sciences-other_natural_sciences");
   ("natural sciences.physical sciences", "scientific_subdomain-natural_sciences-physical_sciences");
   ("other.other", "scientific_subdomain-other-other");
   ("social sciences.economics & business", "scientific_subdomain-social_sciences-economics_and_business");
   ("social sciences.educational sciences", "scientific_subdomain-social_sciences-educational_sciences");
   ("social sciences.law", "scientific_subdomain-social_sciences-law");
   ("social sciences.media & communications", "scientific_subdomain-social_sciences-media_and_communications");
   ("social sciences.other social sciences", "scientific_subdomain-social_sciences-other_social_sciences");
   ("social sciences.political sciences", "scientific_subdomain-social_sciences-political_sciences");
   ("social sciences.psychology", "scientific_subdomain-social_sciences-psychology");
   ("social sciences.social & economic geography", "scientific_subdomain-social_sciences-social_and_economic_geography");
   ("social sciences.sociology", "scientific_subdomain-social_sciences-sociology")
  ].

Definition CV_DOM_MAPPING : dict :=
  [
   ("scientific_subdomain-agricultural_sciences-agricultural_biotechnology", "scientific_domain-agricultural_sciences");
   ("scientific_subdomain-agricultural_sciences-agriculture_forestry_and_fisheries", "scientific_domain-agricultural_sciences");
   ("scientific_subdomain-agricultural_sciences-animal_and_dairy_sciences", "scientific_domain-agricultural_sciences");
   ("scientific_subdomain-agricultural_sciences-other_agricultural_sciences", "scientific_domain-agricultural_sciences");
   ("scientific_subdomain-agricultural_sciences-veterinary_sciences", "scientific_domain-agricultural_sciences");
   ("scientific_subdomain-engineering_and_technology-chemical_engineering", "scientific_domain-engineering_and_technology");
   ("scientific_subdomain-engineering_and_technology-civil_engineering", "scientific_domain-engineering_and_technology");
   ("scientific_subdomain-engineering_and_technology-electrical_electronic_and_information_engineering", "scientific_domain-engineering_and_technology");
   ("scientific_subdomain-engineering_and_technology-environmental_biotechnology", "scientific_domain-engineering_and_technology");
   ("scientific_subdomain-engineering_and_technology-environmental_engineering", "scientific_domain-engineering_and_technology");
   ("scientific_subdomain-engineering_and_technology-industrial_biotechnology", "scientific_domain-engineering_and_technology");
   ("scientific_subdomain-engineering_and_technology-materials_engineering", "scientific_domain-engineering_and_technology");
   ("scientific_subdomain-engineering_and_technology-mechanical_engineering", "scientific_domain-engineering_and_technology");
   ("scientific_subdomain-engineering_and_technology-medical_engineering", "scientific_domain-engineering_and_technology");
   ("scientific_subdomain-engineering_and_technology-nanotechnology", "scientific_domain-engineering_and_technology");
   ("scientific_subdomain-engineering_and_technology-other_engineering_and_technology_sciences", "scientific_domain-engineering_and_technology");
   ("scientific_subdomain-generic-generic", "scientific_domain-generic");
   ("scientific_subdomain-humanities-arts", "scientific_domain-humanities");
   ("scientific_subdomain-humanities-history_and_archaeology", "scientific_domain-humanities");
   ("scientific_subdomain-humanities-languages_and_literature", "scientific_domain-humanities");
   ("scientific_subdomain-humanities-other_humanities", "scientific_domain-humanities");
   ("scientific_subdomain-humanities-philosophy_ethics_and_religion", "scientific_domain-humanities");
   ("scientific_subdomain-medical_and_health_sciences-basic_medicine", "scientific_domain-medical_and_health_sciences");
   ("scientific_subdomain-medical_and_health_sciences-clinical_medicine", "scientific_domain-medical_and_health_sciences");
   ("scientific_subdomain-medical_and_health_sciences-health_sciences", "scientific_domain-medical_and_health_sciences");
   ("scientific_subdomain-medical_and_health_sciences-medical_biotechnology", "scientific_domain-medical_and_health_sciences");
   ("scientific_subdomain-medical_and_health_sciences-other_medical_sciences", "scientific_domain-medical_and_health_sciences");
   ("scientific_subdomain-natural_sciences-biological_sciences", "scientific_domain-natural_sciences");
   ("scientific_subdomain-natural_sciences-chemical_sciences", "scientific_domain-natural_sciences");
   ("scientific_subdomain-natural_sciences-computer_and_information_sciences", "scientific_domain-natural_sciences");
   ("scientific_subdomain-natural_sciences-earth_and_related_environmental_sciences", "scientific_domain-natural_sciences");
   ("scientific_subdomain-natural_sciences-mathematics", "scientific_domain-natural_sciences");
   ("scientific_subdomain-natural_sciences-other_natural_sciences", "scientific_domain-natural_sciences");
   ("scientific_subdomain-natural_sciences-physical_sciences", "scientific_domain-natural_sciences");
   ("scientific_subdomain-other-other", "scientific_domain-other");
   ("scientific_subdomain-social_sciences-economics_and_business", "scientific_domain-social_sciences");
   ("scientific_subdomain-social_sciences-educational_sciences", "scientific_domain-social_sciences");
   ("scientific_subdomain-social_sciences-law", "scientific_domain-social_sciences");
   ("scientific_subdomain-social_sciences-media_and_communications", "scientific_domain-social_sciences");
   ("scientific_subdomain-social_sciences-other_social_sciences", "scientific_domain-social_sciences");
   ("scientific_subdomain-social_sciences-political_sciences", "scientific_domain-social_sciences");
   ("scientific_subdomain-social_sciences-psychology", "scientific_domain-social_sciences");
   ("scientific_subdomain-social_sciences-social_and_economic_geography", "scientific_domain-social_sciences");
   ("scientific_subdomain-social_sciences-sociology", "scientific_domain-social_sciences")
  ].

Definition CV_CAT : dict :=
  [
   ("compute", "category-access_physical_and_eInfrastructures-compute");
   ("data storage", "category-access_physical_and_eInfrastructures-data_storage");
   ("instrument & equipment", "category-access_physical_and_eInfrastructures-instrument_and_equipment");
   ("material storage", "category-access_physical_and_eInfrastructures-material_storage");
   ("network", "category-access_physical_and_eInfrastructures-network");
   ("aggregators & integrators", "category-aggregators_and_integrators-aggregators_and_integrators");
   ("other", "category-other-other");
   ("data analysis", "category-processing_and_analysis-data_analysis");
   ("data management", "category-processing_and_analysis-data_management");
   ("measurement & materials analysis", "category-processing_and_analysis-measurement_and_materials_analysis");
   ("operations & infrastructure management services", "category-security_and_operations-operations_and_infrastructure_management_services");
   ("security & identity", "category-security_and_operations-security_and_identity");
   ("applications", "category-sharing_and_discovery-applications");
   ("data", "category-sharing_and_discovery-data");
   ("development resources", "category-sharing_and_discovery-development_resources");
   ("samples", "category-sharing_and_discovery-samples");
   ("scholarly communication", "category-sharing_and_discovery-scholarly_communication");
   ("software", "category-sharing_and_discovery-software");
   ("consultancy & support", "category-training_and_support-consultancy_and_support");
   ("education & training", "category-training_and_support-education_and_training")
  ].

Definition CV_SUBCAT : dict :=
  [
   ("compute.container management", "subcategory-access_physical_and_eInfrastructures-compute-container_management");
   ("compute.job execution", "subcategory-access_physical_and_eInfrastructures-compute-job_execution");
   ("compute.orchestration", "subcategory-access_physical_and_eInfrastructures-compute-orchestration");
   ("compute.other", "subcategory-access_physical_and_eInfrastructures-compute-other");
   ("compute.serverless applications repository", "subcategory-access_physical_and_eInfrastructures-compute-serverless_applications_repository");
   ("compute.virtual machine management", "subcategory-access_physical_and_eInfrastructures-compute-virtual_machine_management");
   ("compute.workload management", "subcategory-access_physical_and_eInfrastructures-compute-workload_management");
   ("data storage.archive", "subcategory-access_physical_and_eInfrastructures-data_storage-archive");
   ("data storage.backup", "subcategory-access_physical_and_eInfrastructures-data_storage-backup");
   ("data storage.data", "subcategory-access_physical_and_eInfrastructures-data_storage-data");
   ("data storage.digital preservation", "subcategory-access_physical_and_eInfrastructures-data_storage-digital_preservation");
   ("data storage.disk", "subcategory-access_physical_and_eInfrastructures-data_storage-disk");
   ("data storage.file", "subcategory-access_physical_and_eInfrastructures-data_storage-file");
   ("data storage.online", "subcategory-access_physical_and_eInfrastructures-data_storage-online");
   ("data storage.other", "subcategory-access_physical_and_eInfrastructures-data_storage-other");
   ("data storage.queue", "subcategory-access_physical_and_eInfrastructures-data_storage-queue");
   ("data storage.recovery", "subcategory-access_physical_and_eInfrastructures-data_storage-recovery");
   ("data storage.replicated", "subcategory-access_physical_and_eInfrastructures-data_storage-replicated");
   ("data storage.synchronised", "subcategory-access_physical_and_eInfrastructures-data_storage-synchronised");
   ("instrument & equipment.chromatographer", "subcategory-access_physical_and_eInfrastructures-instrument_and_equipment-chromatographer");
   ("instrument & equipment.cytometer", "subcategory-access_physical_and_eInfrastructures-instrument_and_equipment-cytometer");
   ("instrument & equipment.digitisation equipment", "subcategory-access_physical_and_eInfrastructures-instrument_and_equipment-digitisation_equipment");
   ("instrument & equipment.geophysical", "subcategory-access_physical_and_eInfrastructures-instrument_and_equipment-geophysical");
   ("instrument & equipment.laser", "subcategory-access_physical_and_eInfrastructures-instrument_and_equipment-laser");
   ("instrument & equipment.microscopy", "subcategory-access_physical_and_eInfrastructures-instrument_and_equipment-microscopy");
   ("instrument & equipment.monument maintenance equipment", "subcategory-access_physical_and_eInfrastructures-instrument_and_equipment-monument_maintenance_equipment");
   ("instrument & equipment.other", "subcategory-access_physical_and_eInfrastructures-instrument_and_equipment-other");
   ("instrument & equipment.radiation", "subcategory-access_physical_and_eInfrastructures-instrument_and_equipment-radiation");
   ("instrument & equipment.spectrometer", "subcategory-access_physical_and_eInfrastructures-instrument_and_equipment-spectrometer");
   ("instrument & equipment.spectrophotometer", "subcategory-access_physical_and_eInfrastructures-instrument_and_equipment-spectrophotometer");
   ("material storage.archiving", "subcategory-access_physical_and_eInfrastructures-material_storage-archiving");
   ("material storage.assembly", "subcategory-access_physical_and_eInfrastructures-material_storage-assembly");
   ("material storage.disposal", "subcategory-access_physical_and_eInfrastructures-material_storage-disposal");
   ("material storage.fulfilment", "subcategory-access_physical_and_eInfrastructures-material_storage-fulfilment");
   ("material storage.other", "subcategory-access_physical_and_eInfrastructures-material_storage-other");
   ("material storage.packaging", "subcategory-access_physical_and_eInfrastructures-material_storage-packaging");
   ("material storage.preservation", "subcategory-access_physical_and_eInfrastructures-material_storage-preservation");
   ("material storage.quality inspecting", "subcategory-access_physical_and_eInfrastructures-material_storage-quality_inspecting");
   ("material storage.repository", "subcategory-access_physical_and_eInfrastructures-material_storage-repository");
   ("material storage.reworking", "subcategory-access_physical_and_eInfrastructures-material_storage-reworking");
   ("material storage.sorting", "subcategory-access_physical_and_eInfrastructures-material_storage-sorting");
   ("material storage.warehousing", "subcategory-access_physical_and_eInfrastructures-material_storage-warehousing");
   ("network.content delivery network", "subcategory-access_physical_and_eInfrastructures-network-content_delivery_network");
   ("network.direct connect", "subcategory-access_physical_and_eInfrastructures-network-direct_connect");
   ("network.exchange", "subcategory-access_physical_and_eInfrastructures-network-exchange");
   ("network.load balancer", "subcategory-access_physical_and_eInfrastructures-network-load_balancer");
   ("network.other", "subcategory-access_physical_and_eInfrastructures-network-other");
   ("network.traffic manager", "subcategory-access_physical_and_eInfrastructures-network-traffic_manager");
   ("network.virtual network", "subcategory-access_physical_and_eInfrastructures-network-virtual_nework");
   ("network.vpn gateway", "subcategory-access_physical_and_eInfrastructures-network-vpn_gateway");
   ("aggregators & integrators.applications", "subcategory-aggregators_and_integrators-aggregators_and_integrators-applications");
   ("aggregators & integrators.data", "subcategory-aggregators_and_integrators-aggregators_and_integrators-data");
   ("aggregators & integrators.other", "subcategory-aggregators_and_integrators-aggregators_and_integrators-other");
   ("aggregators & integrators.services", "subcategory-aggregators_and_integrators-aggregators_and_integrators-services");
   ("aggregators & integrators.software", "subcategory-aggregators_and_integrators-aggregators_and_integrators-software");
   ("other.other", "subcategory-other-other-other");
   ("data analysis.2d/3d digitisation", "subcategory-processing_and_analysis-data_analysis-2d_3d_digitisation");
   ("data analysis.artificial intelligence", "subcategory-processing_and_analysis-data_analysis-artificial_intelligence");
   ("data analysis.data exploitation", "subcategory-processing_and_analysis-data_analysis-data_exploitation");
   ("data analysis.forecast", "subcategory-processing_and_analysis-data_analysis-forecast");
   ("data analysis.image/data analysis", "subcategory-processing_and_analysis-data_analysis-image_data_analysis");
   ("data analysis.machine learning", "subcategory-processing_and_analysis-data_analysis-machine_learning");
   ("data analysis.other", "subcategory-processing_and_analysis-data_analysis-other");
   ("data analysis.visualization", "subcategory-processing_and_analysis-data_analysis-visualization");
   ("data analysis.workflows", "subcategory-processing_and_analysis-data_analysis-workflows");
   ("data management.access", "subcategory-processing_and_analysis-data_management-access");
   ("data management.annotation", "subcategory-processing_and_analysis-data_management-annotation");
   ("data management.anonymisation", "subcategory-processing_and_analysis-data_management-anonymisation");
   ("data management.brokering", "subcategory-processing_and_analysis-data_management-brokering");
   ("data management.digitisation", "subcategory-processing_and_analysis-data_management-digitisation");
   ("data management.discovery", "subcategory-processing_and_analysis-data_management-discovery");
   ("data management.embargo", "subcategory-processing_and_analysis-data_management-embargo");
   ("data management.interlinking", "subcategory-processing_and_analysis-data_management-interlinking");
   ("data management.maintenance", "subcategory-processing_and_analysis-data_management-maintenance");
   ("data management.mining", "subcategory-processing_and_analysis-data_management-mining");
   ("data management.other", "subcategory-processing_and_analysis-data_management-other");
   ("data management.persistent identifier", "subcategory-processing_and_analysis-data_management-persistent_identifier");
   ("data management.preservation", "subcategory-processing_and_analysis-data_management-preservation");
   ("data management.processing_and_analysis-data_management-publishing", "subcategory-processing_and_analysis-data_management-publishing");
   ("data management.registration", "subcategory-processing_and_analysis-data_management-registration");
   ("data management.transfer", "subcategory-processing_and_analysis-data_management-transfer");
   ("data management.validation", "subcategory-processing_and_analysis-data_management-validation");
   ("measurement & materials analysis.analysis", "subcategory-processing_and_analysis-measurement_and_materials_analysis-analysis");
   ("measurement & materials analysis.characterisation", "subcategory-processing_and_analysis-measurement_and_materials_analysis-characterisation");
   ("measurement & materials analysis.maintenance & modification", "subcategory-processing_and_analysis-measurement_and_materials_analysis-maintenance_and_modification");
   ("measurement & materials analysis.other", "subcategory-processing_and_analysis-measurement_and_materials_analysis-other");
   ("measurement & materials analysis.production", "subcategory-processing_and_analysis-measurement_and_materials_analysis-production");
   ("measurement & materials analysis.testing & validation", "subcategory-processing_and_analysis-measurement_and_materials_analysis-testing_and_validation");
   ("measurement & materials analysis.validation", "subcategory-processing_and_analysis-measurement_and_materials_analysis-validation");
   ("measurement & materials analysis.workflows", "subcategory-processing_and_analysis-measurement_and_materials_analysis-workflows");
   ("operations & infrastructure management services.accounting", "subcategory-security_and_operations-operations_and_infrastructure_management_services-accounting");
   ("operations & infrastructure management services.analysis", "subcategory-security_and_operations-operations_and_infrastructure_management_services-analysis");
   ("operations & infrastructure management services.billing", "subcategory-security_and_operations-operations_and_infrastructure_management_services-billing");
   ("operations & infrastructure management services.configuration", "subcategory-security_and_operations-operations_and_infrastructure_management_services-configuration");
   ("operations & infrastructure management services.coordination", "subcategory-security_and_operations-operations_and_infrastructure_management_services-coordination");
   ("operations & infrastructure management services.helpdesk", "subcategory-security_and_operations-operations_and_infrastructure_management_services-helpdesk");
   ("operations & infrastructure management services.monitoring", "subcategory-security_and_operations-operations_and_infrastructure_management_services-monitoring");
   ("operations & infrastructure management services.order management", "subcategory-security_and_operations-operations_and_infrastructure_management_services-order_management");
   ("operations & infrastructure management services.other", "subcategory-security_and_operations-operations_and_infrastructure_management_services-other");
   ("operations & infrastructure management services.transportation", "subcategory-security_and_operations-operations_and_infrastructure_management_services-transportation");
   ("operations & infrastructure management services.utilities", "subcategory-security_and_operations-operations_and_infrastructure_management_services-utilities");
   ("security & identity.certification authority", "subcategory-security_and_operations-security_and_identity-certification_authority");
   ("security & identity.coordination", "subcategory-security_and_operations-security_and_identity-coordination");
   ("security & identity.firewall", "subcategory-security_and_operations-security_and_identity-firewall");
   ("security & identity.group management", "subcategory-security_and_operations-security_and_identity-group_management");
   ("security & identity.identity & access management", "subcategory-security_and_operations-security_and_identity-identity_and_access_management");
   ("security & identity.other", "subcategory-security_and_operations-security_and_identity-other");
   ("security & identity.single sign-on", "subcategory-security_and_operations-security_and_identity-single_sign_on");
   ("security & identity.threat protection", "subcategory-security_and_operations-security_and_identity-threat_protection");
   ("security & identity.tools", "subcategory-security_and_operations-security_and_identity-tools");
   ("security & identity.user authentication", "subcategory-security_and_operations-security_and_identity-user_authentication");
   ("applications.applications repository", "subcategory-sharing_and_discovery-applications-applications_repository");
   ("applications.business", "subcategory-sharing_and_discovery-applications-business");
   ("applications.collaboration", "subcategory-sharing_and_discovery-applications-collaboration");
   ("applications.communication", "subcategory-sharing_and_discovery-applications-communication");
   ("applications.education", "subcategory-sharing_and_discovery-applications-education");
   ("applications.other", "subcategory-sharing_and_discovery-applications-other");
   ("applications.productivity", "subcategory-sharing_and_discovery-applications-productivity");
   ("applications.social/networking", "subcategory-sharing_and_discovery-applications-social_networking");
   ("applications.utilities", "subcategory-sharing_and_discovery-applications-utilities");
   ("data.clinical trial data", "subcategory-sharing_and_discovery-data-clinical_trial_data");
   ("data.data archives", "subcategory-sharing_and_discovery-data-data_archives");
   ("data.epidemiological data", "subcategory-sharing_and_discovery-data-epidemiological_data");
   ("data.government & agency data", "subcategory-sharing_and_discovery-data-government_and_agency_data");
   ("data.online service data", "subcategory-sharing_and_discovery-data-online_service_data");
   ("data.other", "subcategory-sharing_and_discovery-data-other");
   ("data.scientific/research data", "subcategory-sharing_and_discovery-data-scientific_research_data");
   ("data.statistical data", "subcategory-sharing_and_discovery-data-statistical_data");
   ("development resources.apis repository/gateway", "subcategory-sharing_and_discovery-development_resources-apis_repository_gateway");
   ("development resources.developer tools", "subcategory-sharing_and_discovery-development_resources-developer_tools");
   ("development resources.other", "subcategory-sharing_and_discovery-development_resources-other");
   ("development resources.software development kits", "subcategory-sharing_and_discovery-development_resources-software_development_kits");
   ("development resources.software libraries", "subcategory-sharing_and_discovery-development_resources-software_libraries");
   ("samples.biological samples", "subcategory-sharing_and_discovery-samples-biological_samples");
   ("samples.characterisation", "subcategory-sharing_and_discovery-samples-characterisation");
   ("samples.chemical compounds library", "subcategory-sharing_and_discovery-samples-chemical_compounds_library");
   ("samples.other", "subcategory-sharing_and_discovery-samples-other");
   ("samples.preparation", "subcategory-sharing_and_discovery-samples-preparation");
   ("scholarly communication.analysis", "subcategory-sharing_and_discovery-scholarly_communication-analysis");
   ("scholarly communication.assessment", "subcategory-sharing_and_discovery-scholarly_communication-assessment");
   ("scholarly communication.discovery", "subcategory-sharing_and_discovery-scholarly_communication-discovery");
   ("scholarly communication.other", "subcategory-sharing_and_discovery-scholarly_communication-other");
   ("scholarly communication.outreach", "subcategory-sharing_and_discovery-scholarly_communication-outreach");
   ("scholarly communication.preparation", "subcategory-sharing_and_discovery-scholarly_communication-preparation");
   ("scholarly communication.publication", "subcategory-sharing_and_discovery-scholarly_communication-publication");
   ("scholarly communication.writing", "subcategory-sharing_and_discovery-scholarly_communication-writing");
   ("software.libraries", "subcategory-sharing_and_discovery-software-libraries");
   ("software.other", "subcategory-sharing_and_discovery-software-other");
   ("software.platform", "subcategory-sharing_and_discovery-software-platform");
   ("software.software package", "subcategory-sharing_and_discovery-software-software_package");
   ("software.software repository", "subcategory-sharing_and_discovery-software-software_repository");
   ("consultancy & support.application optimisation", "subcategory-training_and_support-consultancy_and_support-application_optimisation");
   ("consultancy & support.application_porting", "subcategory-training_and_support-consultancy_and_support-application_porting");
   ("consultancy & support.application scaling", "subcategory-training_and_support-consultancy_and_support-application_scaling");
   ("consultancy & support.audit & assessment", "subcategory-training_and_support-consultancy_and_support-audit_and_assessment");
   ("consultancy & support.benchmarking", "subcategory-training_and_support-consultancy_and_support-benchmarking");
   ("consultancy & support.calibration", "subcategory-training_and_support-consultancy_and_support-calibration");
   ("consultancy & support.certification", "subcategory-training_and_support-consultancy_and_support-certification");
   ("consultancy & support.consulting", "subcategory-training_and_support-consultancy_and_support-consulting");
   ("consultancy & support.methodology development", "subcategory-training_and_support-consultancy_and_support-methodology_development");
   ("consultancy & support.modeling & simulation", "subcategory-training_and_support-consultancy_and_support-modeling_and_simulation");
   ("consultancy & support.other", "subcategory-training_and_support-consultancy_and_support-other");
   ("consultancy & support.prototype development", "subcategory-training_and_support-consultancy_and_support-prototype_development");
   ("consultancy & support.software development", "subcategory-training_and_support-consultancy_and_support-software_development");
   ("consultancy & support.software improvement", "subcategory-training_and_support-consultancy_and_support-software_improvement");
   ("consultancy & support.technology transfer", "subcategory-training_and_support-consultancy_and_support-technology_transfer");
   ("consultancy & support.testing", "subcategory-training_and_support-consultancy_and_support-testing");
   ("education & training.in-house courses", "subcategory-training_and_support-education_and_training-in_house_courses");
   ("education & training.online courses", "subcategory-training_and_support-education_and_training-online_courses");
   ("education & training.open registration courses", "subcategory-training_and_support-education_and_training-open_registration_courses");
   ("education & training.other", "subcategory-training_and_support-education_and_training-other");
   ("education & training.related training", "subcategory-training_and_support-education_and_training-related_training");
   ("education & training.required training", "subcategory-training_and_support-education_and_training-required_training");
   ("education & training.training platform", "subcategory-training_and_support-education_and_training-training_platform");
   ("education & training.training tool", "subcategory-training_and_support-education_and_training-training_tool")
  ].

Definition CV_CAT_MAPPING : dict :=
  [
   ("subcategory-access_physical_and_eInfrastructures-compute-container_management", "category-access_physical_and_eInfrastructures-compute");
   ("subcategory-access_physical_and_eInfrastructures-compute-job_execution", "category-access_physical_and_eInfrastructures-compute");
   ("subcategory-access_physical_and_eInfrastructures-compute-orchestration", "category-access_physical_and_eInfrastructures-compute");
   ("subcategory-access_physical_and_eInfrastructures-compute-other", "category-access_physical_and_eInfrastructures-compute");
   ("subcategory-access_physical_and_eInfrastructures-compute-serverless_applications_repository", "category-access_physical_and_eInfrastructures-compute");
   ("subcategory-access_physical_and_eInfrastructures-compute-virtual_machine_management", "category-access_physical_and_eInfrastructures-compute");
   ("subcategory-access_physical_and_eInfrastructures-compute-workload_management", "category-access_physical_and_eInfrastructures-compute");
   ("subcategory-access_physical_and_eInfrastructures-data_storage-archive", "category-access_physical_and_eInfrastructures-data_storage");
   ("subcategory-access_physical_and_eInfrastructures-data_storage-backup", "category-access_physical_and_eInfrastructures-data_storage");
   ("subcategory-access_physical_and_eInfrastructures-data_storage-data", "category-access_physical_and_eInfrastructures-data_storage");
   ("subcategory-access_physical_and_eInfrastructures-data_storage-digital_preservation", "category-access_physical_and_eInfrastructures-data_storage");
   ("subcategory-access_physical_and_eInfrastructures-data_storage-disk", "category-access_physical_and_eInfrastructures-data_storage");
   ("subcategory-access_physical_and_eInfrastructures-data_storage-file", "category-access_physical_and_eInfrastructures-data_storage");
   ("subcategory-access_physical_and_eInfrastructures-data_storage-online", "category-access_physical_and_eInfrastructures-data_storage");
   ("subcategory-access_physical_and_eInfrastructures-data_storage-other", "category-access_physical_and_eInfrastructures-data_storage");
   ("subcategory-access_physical_and_eInfrastructures-data_storage-queue", "category-access_physical_and_eInfrastructures-data_storage");
   ("subcategory-access_physical_and_eInfrastructures-data_storage-recovery", "category-access_physical_and_eInfrastructures-data_storage");
   ("subcategory-access_physical_and_eInfrastructures-data_storage-replicated", "category-access_physical_and_eInfrastructures-data_storage");
   ("subcategory-access_physical_and_eInfrastructures-data_storage-synchronised", "category-access_physical_and_eInfrastructures-data_storage");
   ("subcategory-access_physical_and_eInfrastructures-instrument_and_equipment-chromatographer", "category-access_physical_and_eInfrastructures-instrument_and_equipment");
   ("subcategory-access_physical_and_eInfrastructures-instrument_and_equipment-cytometer", "category-access_physical_and_eInfrastructures-instrument_and_equipment");
   ("subcategory-access_physical_and_eInfrastructures-instrument_and_equipment-digitisation_equipment", "category-access_physical_and_eInfrastructures-instrument_and_equipment");
   ("subcategory-access_physical_and_eInfrastructures-instrument_and_equipment-geophysical", "category-access_physical_and_eInfrastructures-instrument_and_equipment");
   ("subcategory-access_physical_and_eInfrastructures-instrument_and_equipment-laser", "category-access_physical_and_eInfrastructures-instrument_and_equipment");
   ("subcategory-access_physical_and_eInfrastructures-instrument_and_equipment-microscopy", "category-access_physical_and_eInfrastructures-instrument_and_equipment");
   ("subcategory-access_physical_and_eInfrastructures-instrument_and_equipment-monument_maintenance_equipment", "category-access_physical_and_eInfrastructures-instrument_and_equipment");
   ("subcategory-access_physical_and_eInfrastructures-instrument_and_equipment-other", "category-access_physical_and_eInfrastructures-instrument_and_equipment");
   ("subcategory-access_physical_and_eInfrastructures-instrument_and_equipment-radiation", "category-access_physical_and_eInfrastructures-instrument_and_equipment");
   ("subcategory-access_physical_and_eInfrastructures-instrument_and_equipment-spectrometer", "category-access_physical_and_eInfrastructures-instrument_and_equipment");
   ("subcategory-access_physical_and_eInfrastructures-instrument_and_equipment-spectrophotometer", "category-access_physical_and_eInfrastructures-instrument_and_equipment");
   ("subcategory-access_physical_and_eInfrastructures-material_storage-archiving", "category-access_physical_and_eInfrastructures-material_storage");
   ("subcategory-access_physical_and_eInfrastructures-material_storage-assembly", "category-access_physical_and_eInfrastructures-material_storage");
   ("subcategory-access_physical_and_eInfrastructures-material_storage-disposal", "category-access_physical_and_eInfrastructures-material_storage");
   ("subcategory-access_physical_and_eInfrastructures-material_storage-fulfilment", "category-access_physical_and_eInfrastructures-material_storage");
   ("subcategory-access_physical_and_eInfrastructures-material_storage-other", "category-access_physical_and_eInfrastructures-material_storage");
   ("subcategory-access_physical_and_eInfrastructures-material_storage-packaging", "category-access_physical_and_eInfrastructures-material_storage");
   ("subcategory-access_physical_and_eInfrastructures-material_storage-preservation", "category-access_physical_and_eInfrastructures-material_storage");
   ("subcategory-access_physical_and_eInfrastructures-material_storage-quality_inspecting", "category-access_physical_and_eInfrastructures-material_storage");
   ("subcategory-access_physical_and_eInfrastructures-material_storage-repository", "category-access_physical_and_eInfrastructures-material_storage");
   ("subcategory-access_physical_and_eInfrastructures-material_storage-reworking", "category-access_physical_and_eInfrastructures-material_storage");
   ("subcategory-access_physical_and_eInfrastructures-material_storage-sorting", "category-access_physical_and_eInfrastructures-material_storage");
   ("subcategory-access_physical_and_eInfrastructures-material_storage-warehousing", "category-access_physical_and_eInfrastructures-material_storage");
   ("subcategory-access_physical_and_eInfrastructures-network-content_delivery_network", "category-access_physical_and_eInfrastructures-network");
   ("subcategory-access_physical_and_eInfrastructures-network-direct_connect", "category-access_physical_and_eInfrastructures-network");
   ("subcategory-access_physical_and_eInfrastructures-network-exchange", "category-access_physical_and_eInfrastructures-network");
   ("subcategory-access_physical_and_eInfrastructures-network-load_balancer", "category-access_physical_and_eInfrastructures-network");
   ("subcategory-access_physical_and_eInfrastructures-network-other", "category-access_physical_and_eInfrastructures-network");
   ("subcategory-access_physical_and_eInfrastructures-network-traffic_manager", "category-access_physical_and_eInfrastructures-network");
   ("subcategory-access_physical_and_eInfrastructures-network-virtual_nework", "category-access_physical_and_eInfrastructures-network");
   ("subcategory-access_physical_and_eInfrastructures-network-vpn_gateway", "category-access_physical_and_eInfrastructures-network");
   ("subcategory-aggregators_and_integrators-aggregators_and_integrators-applications", "category-aggregators_and_integrators-aggregators_and_integrators");
   ("subcategory-aggregators_and_integrators-aggregators_and_integrators-data", "category-aggregators_and_integrators-aggregators_and_integrators");
   ("subcategory-aggregators_and_integrators-aggregators_and_integrators-other", "category-aggregators_and_integrators-aggregators_and_integrators");
   ("subcategory-aggregators_and_integrators-aggregators_and_integrators-services", "category-aggregators_and_integrators-aggregators_and_integrators");
   ("subcategory-aggregators_and_integrators-aggregators_and_integrators-software", "category-aggregators_and_integrators-aggregators_and_integrators");
   ("subcategory-other-other-other", "category-other-other");
   ("subcategory-processing_and_analysis-data_analysis-2d_3d_digitisation", "category-processing_and_analysis-data_analysis");
   ("subcategory-processing_and_analysis-data_analysis-artificial_intelligence", "category-processing_and_analysis-data_analysis");
   ("subcategory-processing_and_analysis-data_analysis-data_exploitation", "category-processing_and_analysis-data_analysis");
   ("subcategory-processing_and_analysis-data_analysis-forecast", "category-processing_and_analysis-data_analysis");
   ("subcategory-processing_and_analysis-data_analysis-image_data_analysis", "category-processing_and_analysis-data_analysis");
   ("subcategory-processing_and_analysis-data_analysis-machine_learning", "category-processing_and_analysis-data_analysis");
   ("subcategory-processing_and_analysis-data_analysis-other", "category-processing_and_analysis-data_analysis");
   ("subcategory-processing_and_analysis-data_analysis-visualization", "category-processing_and_analysis-data_analysis");
   ("subcategory-processing_and_analysis-data_analysis-workflows", "category-processing_and_analysis-data_analysis");
   ("subcategory-processing_and_analysis-data_management-access", "category-processing_and_analysis-data_management");
   ("subcategory-processing_and_analysis-data_management-annotation", "category-processing_and_analysis-data_management");
   ("subcategory-processing_and_analysis-data_management-anonymisation", "category-processing_and_analysis-data_management");
   ("subcategory-processing_and_analysis-data_management-brokering", "category-processing_and_analysis-data_management");
   ("subcategory-processing_and_analysis-data_management-digitisation", "category-processing_and_analysis-data_management");
   ("subcategory-processing_and_analysis-data_management-discovery", "category-processing_and_analysis-data_management");
   ("subcategory-processing_and_analysis-data_management-embargo", "category-processing_and_analysis-data_management");
   ("subcategory-processing_and_analysis-data_management-interlinking", "category-processing_and_analysis-data_management");
   ("subcategory-processing_and_analysis-data_management-maintenance", "category-processing_and_analysis-data_management");
   ("subcategory-processing_and_analysis-data_management-mining", "category-processing_and_analysis-data_management");
   ("subcategory-processing_and_analysis-data_management-other", "category-processing_and_analysis-data_management");
   ("subcategory-processing_and_analysis-data_management-persistent_identifier", "category-processing_and_analysis-data_management");
   ("subcategory-processing_and_analysis-data_management-preservation", "category-processing_and_analysis-data_management");
   ("subcategory-processing_and_analysis-data_management-publishing", "category-processing_and_analysis-data_management");
   ("subcategory-processing_and_analysis-data_management-registration", "category-processing_and_analysis-data_management");
   ("subcategory-processing_and_analysis-data_management-transfer", "category-processing_and_analysis-data_management");
   ("subcategory-processing_and_analysis-data_management-validation", "category-processing_and_analysis-data_management");
   ("subcategory-processing_and_analysis-measurement_and_materials_analysis-analysis", "category-processing_and_analysis-measurement_and_materials_analysis");
   ("subcategory-processing_and_analysis-measurement_and_materials_analysis-characterisation", "category-processing_and_analysis-measurement_and_materials_analysis");
   ("subcategory-processing_and_analysis-measurement_and_materials_analysis-maintenance_and_modification", "category-processing_and_analysis-measurement_and_materials_analysis");
   ("subcategory-processing_and_analysis-measurement_and_materials_analysis-other", "category-processing_and_analysis-measurement_and_materials_analysis");
   ("subcategory-processing_and_analysis-measurement_and_materials_analysis-production", "category-processing_and_analysis-measurement_and_materials_analysis");
   ("subcategory-processing_and_analysis-measurement_and_materials_analysis-testing_and_validation", "category-processing_and_analysis-measurement_and_materials_analysis");
   ("subcategory-processing_and_analysis-measurement_and_materials_analysis-validation", "category-processing_and_analysis-measurement_and_materials_analysis");
   ("subcategory-processing_and_analysis-measurement_and_materials_analysis-workflows", "category-processing_and_analysis-measurement_and_materials_analysis");
   ("subcategory-security_and_operations-operations_and_infrastructure_management_services-accounting", "category-security_and_operations-operations_and_infrastructure_management_services");
   ("subcategory-security_and_operations-operations_and_infrastructure_management_services-analysis", "category-security_and_operations-operations_and_infrastructure_management_services");
   ("subcategory-security_and_operations-operations_and_infrastructure_management_services-billing", "category-security_and_operations-operations_and_infrastructure_management_services");
   ("subcategory-security_and_operations-operations_and_infrastructure_management_services-configuration", "category-security_and_operations-operations_and_infrastructure_management_services");
   ("subcategory-security_and_operations-operations_and_infrastructure_management_services-coordination", "category-security_and_operations-operations_and_infrastructure_management_services");
   ("subcategory-security_and_operations-operations_and_infrastructure_management_services-helpdesk", "category-security_and_operations-operations_and_infrastructure_management_services");
   ("subcategory-security_and_operations-operations_and_infrastructure_management_services-monitoring", "category-security_and_operations-operations_and_infrastructure_management_services");
   ("subcategory-security_and_operations-operations_and_infrastructure_management_services-order_management", "category-security_and_operations-operations_and_infrastructure_management_services");
   ("subcategory-security_and_operations-operations_and_infrastructure_management_services-other", "category-security_and_operations-operations_and_infrastructure_management_services");
   ("subcategory-security_and_operations-operations_and_infrastructure_management_services-transportation", "category-security_and_operations-operations_and_infrastructure_management_services");
   ("subcategory-security_and_operations-operations_and_infrastructure_management_services-utilities", "category-security_and_operations-operations_and_infrastructure_management_services");
   ("subcategory-security_and_operations-security_and_identity-certification_authority", "category-security_and_operations-security_and_identity");
   ("subcategory-security_and_operations-security_and_identity-coordination", "category-security_and_operations-security_and_identity");
   ("subcategory-security_and_operations-security_and_identity-firewall", "category-security_and_operations-security_and_identity");
   ("subcategory-security_and_operations-security_and_identity-group_management", "category-security_and_operations-security_and_identity");
   ("subcategory-security_and_operations-security_and_identity-identity_and_access_management", "category-security_and_operations-security_and_identity");
   ("subcategory-security_and_operations-security_and_identity-other", "category-security_and_operations-security_and_identity");
   ("subcategory-security_and_operations-security_and_identity-single_sign_on", "category-security_and_operations-security_and_identity");
   ("subcategory-security_and_operations-security_and_identity-threat_protection", "category-security_and_operations-security_and_identity");
   ("subcategory-security_and_operations-security_and_identity-tools", "category-security_and_operations-security_and_identity");
   ("subcategory-security_and_operations-security_and_identity-user_authentication", "category-security_and_operations-security_and_identity");
   ("subcategory-sharing_and_discovery-applications-applications_repository", "category-sharing_and_discovery-applications");
   ("subcategory-sharing_and_discovery-applications-business", "category-sharing_and_discovery-applications");
   ("subcategory-sharing_and_discovery-applications-collaboration", "category-sharing_and_discovery-applications");
   ("subcategory-sharing_and_discovery-applications-communication", "category-sharing_and_discovery-applications");
   ("subcategory-sharing_and_discovery-applications-education", "category-sharing_and_discovery-applications");
   ("subcategory-sharing_and_discovery-applications-other", "category-sharing_and_discovery-applications");
   ("subcategory-sharing_and_discovery-applications-productivity", "category-sharing_and_discovery-applications");
   ("subcategory-sharing_and_discovery-applications-social_networking", "category-sharing_and_discovery-applications");
   ("subcategory-sharing_and_discovery-applications-utilities", "category-sharing_and_discovery-applications");
   ("subcategory-sharing_and_discovery-data-clinical_trial_data", "category-sharing_and_discovery-data");
   ("subcategory-sharing_and_discovery-data-data_archives", "category-sharing_and_discovery-data");
   ("subcategory-sharing_and_discovery-data-epidemiological_data", "category-sharing_and_discovery-data");
   ("subcategory-sharing_and_discovery-data-government_and_agency_data", "category-sharing_and_discovery-data");
   ("subcategory-sharing_and_discovery-data-online_service_data", "category-sharing_and_discovery-data");
   ("subcategory-sharing_and_discovery-data-other", "category-sharing_and_discovery-data");
   ("subcategory-sharing_and_discovery-data-scientific_research_data", "category-sharing_and_discovery-data");
   ("subcategory-sharing_and_discovery-data-statistical_data", "category-sharing_and_discovery-data");
   ("subcategory-sharing_and_discovery-development_resources-apis_repository_gateway", "category-sharing_and_discovery-development_resources");
   ("subcategory-sharing_and_discovery-development_resources-developer_tools", "category-sharing_and_discovery-development_resources");
   ("subcategory-sharing_and_discovery-development_resources-other", "category-sharing_and_discovery-development_resources");
   ("subcategory-sharing_and_discovery-development_resources-software_development_kits", "category-sharing_and_discovery-development_resources");
   ("subcategory-sharing_and_discovery-development_resources-software_libraries", "category-sharing_and_discovery-development_resources");
   ("subcategory-sharing_and_discovery-samples-biological_samples", "category-sharing_and_discovery-samples");
   ("subcategory-sharing_and_discovery-samples-characterisation", "category-sharing_and_discovery-samples");
   ("subcategory-sharing_and_discovery-samples-chemical_compounds_library", "category-sharing_and_discovery-samples");
   ("subcategory-sharing_and_discovery-samples-other", "category-sharing_and_discovery-samples");
   ("subcategory-sharing_and_discovery-samples-preparation", "category-sharing_and_discovery-samples");
   ("subcategory-sharing_and_discovery-scholarly_communication-analysis", "category-sharing_and_discovery-scholarly_communication");
   ("subcategory-sharing_and_discovery-scholarly_communication-assessment", "category-sharing_and_discovery-scholarly_communication");
   ("subcategory-sharing_and_discovery-scholarly_communication-discovery", "category-sharing_and_discovery-scholarly_communication");
   ("subcategory-sharing_and_discovery-scholarly_communication-other", "category-sharing_and_discovery-scholarly_communication");
   ("subcategory-sharing_and_discovery-scholarly_communication-outreach", "category-sharing_and_discovery-scholarly_communication");
   ("subcategory-sharing_and_discovery-scholarly_communication-preparation", "category-sharing_and_discovery-scholarly_communication");
   ("subcategory-sharing_and_discovery-scholarly_communication-publication", "category-sharing_and_discovery-scholarly_communication");
   ("subcategory-sharing_and_discovery-scholarly_communication-writing", "category-sharing_and_discovery-scholarly_communication");
   ("subcategory-sharing_and_discovery-software-libraries", "category-sharing_and_discovery-software");
   ("subcategory-sharing_and_discovery-software-other", "category-sharing_and_discovery-software");
   ("subcategory-sharing_and_discovery-software-platform", "category-sharing_and_discovery-software");
   ("subcategory-sharing_and_discovery-software-software_package", "category-sharing_and_discovery-software");
   ("subcategory-sharing_and_discovery-software-software_repository", "category-sharing_and_discovery-software");
   ("subcategory-training_and_support-consultancy_and_support-application_optimisation", "category-training_and_support-consultancy_and_support");
   ("subcategory-training_and_support-consultancy_and_support-application_porting", "category-training_and_support-consultancy_and_support");
   ("subcategory-training_and_support-consultancy_and_support-application_scaling", "category-training_and_support-consultancy_and_support");
   ("subcategory-training_and_support-consultancy_and_support-audit_and_assessment", "category-training_and_support-consultancy_and_support");
   ("subcategory-training_and_support-consultancy_and_support-benchmarking", "category-training_and_support-consultancy_and_support");
   ("subcategory-training_and_support-consultancy_and_support-calibration", "category-training_and_support-consultancy_and_support");
   ("subcategory-training_and_support-consultancy_and_support-certification", "category-training_and_support-consultancy_and_support");
   ("subcategory-training_and_support-consultancy_and_support-consulting", "category-training_and_support-consultancy_and_support");
   ("subcategory-training_and_support-consultancy_and_support-methodology_development", "category-training_and_support-consultancy_and_support");
   ("subcategory-training_and_support-consultancy_and_support-modeling_and_simulation", "category-training_and_support-consultancy_and_support");
   ("subcategory-training_and_support-consultancy_and_support-other", "category-training_and_support-consultancy_and_support");
   ("subcategory-training_and_support-consultancy_and_support-prototype_development", "category-training_and_support-consultancy_and_support");
   ("subcategory-training_and_support-consultancy_and_support-software_development", "category-training_and_support-consultancy_and_support");
   ("subcategory-training_and_support-consultancy_and_support-software_improvement", "category-training_and_support-consultancy_and_support");
   ("subcategory-training_and_support-consultancy_and_support-technology_transfer", "category-training_and_support-consultancy_and_support");
   ("subcategory-training_and_support-consultancy_and_support-testing", "category-training_and_support-consultancy_and_support");
   ("subcategory-training_and_support-education_and_training-in_house_courses", "category-training_and_support-education_and_training");
   ("subcategory-training_and_support-education_and_training-online_courses", "category-training_and_support-education_and_training");
   ("subcategory-training_and_support-education_and_training-open_registration_courses", "category-training_and_support-education_and_training");
   ("subcategory-training_and_support-education_and_training-other", "category-training_and_support-education_and_training");
   ("subcategory-training_and_support-education_and_training-related_training", "category-training_and_support-education_and_training");
   ("subcategory-training_and_support-education_and_training-required_training", "category-training_and_support-education_and_training");
   ("subcategory-training_and_support-education_and_training-training_platform", "category-training_and_support-education_and_training");
   ("subcategory-training_and_support-education_and_training-training_tool", "category-training_and_support-education_and_training")
  ].

Definition ACCESS_MODES : dict :=
  [
   ("free", "access_mode-free");
   ("free conditionally", "access_mode-free_conditionally");
   ("other", "access_mode-other");
   ("paid", "access_mode-paid");
   ("peer reviewed", "access_mode-peer_reviewed")
  ].

Definition ACCESS_TYPES : dict :=
  [
   ("mail-in", "access_type-mail_in");
   ("other", "access_type-other");
   ("physical", "access_type-physical");
   ("remote", "access_type-remote");
   ("virtual", "access_type-virtual")
  ].

Definition LIFE_CYCLE_STATUS : dict :=
  [
   ("alpha", "life_cycle_status-alpha");
   ("beta", "life_cycle_status-beta");
   ("concept", "life_cycle_status-concept");
   ("design", "life_cycle_status-design");
   ("discovery", "life_cycle_status-discovery");
   ("implementation", "life_cycle_status-implementation");
   ("in containment", "life_cycle_status-in_containment");
   ("operation", "life_cycle_status-operation");
   ("other", "life_cycle_status-other");
   ("planned", "life_cycle_status-planned");
   ("preparation", "life_cycle_status-preparation");
   ("production", "life_cycle_status-production");
   ("retirement", "life_cycle_status-retirement");
   ("termination", "life_cycle_status-termination")
  ].

Definition PROVIDER_IDS : list string :=
  [
   "surf-nl";
   "esa-int";
   "cyfronet";
   "rbi";
   "astron";
   "f6snl";
   "consorci_cee_lab_llum_sincrotro";
   "ubora";
   "grycap";
   "norce";
   "unibi-ub";
   "smartsmear";
   "meeo";
   "msw";
   "bineo";
   "expertai";
   "geant";
   "compbiomed";
   "taltechdata";
   "infrafrontier";
   "upf";
   "isa-ulisboa";
   "bsc-es";
   "elixir-belgium";
   "eudat";
   "eosc-dih";
   "carlzeissm";
   "mobile_observation_integration_service";
   "eiscat";
   "inria";
   "gcc_umcg";
   "elixir-europe";
   "ugr-es";
   "ess_eric";
   "riga_stradins_university";
   "icos_eric";
   "centerdata";
   "sztaki";
   "forth";
   "elixir-uk";
   "phenomenal";
   "asgc";
   "dcc-uk";
   "rasdaman";
   "hn";
   "altec";
   "siris_academic";
   "elixir-italy";
   "ill";
   "cessda-eric";
   "rli";
   "cite";
   "lnec";
   "cineca";
   "ror-org";
   "upv-es";
   "tubitak_ulakbim";
   "clarin-eric";
   "datacite";
   "lnec-pt";
   "osmooc";
   "oslo_university";
   "emso_eric";
   "soleil";
   "inode";
   "cyberbotics";
   "dynaikon";
   "ukaea";
   "ibiom-cnrhttpwwwibiomcnrit";
   "bioexcel";
   "niod";
   "authenix";
   "libnova";
   "cnrsin2p3";
   "jsc-de";
   "umg-br";
   "capsh";
   "lindatclariah-cz";
   "denbi";
   "sobigdata";
   "europeana";
   "ehri";
   "lago";
   "enermaps";
   "dariah_eric";
   "cnr_-_isti";
   "cnio";
   "obp";
   "egi-fed";
   "unige";
   "psi";
   "aginfra";
   "cnb-csic";
   "vi-seem";
   "gesis";
   "inaf";
   "csic";
   "operas";
   "grnet";
   "gbif-es";
   "ifca-csic";
   "arkivum";
   "iisas";
   "ess";
   "cerm-cirmmp";
   "enhancer";
   "cern";
   "sstir";
   "uni-freiburg";
   "lsd-ufcg";
   "eurac";
   "coronis_computing_sl";
   "sks";
   "doabf";
   "incd";
   "cloudferro";
   "figshare";
   "crem";
   "vamdc";
   "creaf";
   "lida";
   "bi_insight";
   "scigne";
   "uit";
   "cnr-iia";
   "sixsq";
   "plantnet";
   "digitalglobe";
   "up";
   "readcoop";
   "ds-wizard";
   "unibo";
   "openminted";
   "jelastic";
   "ceric-eric";
   "scipedia";
   "openknowledgemaps";
   "prace";
   "etais";
   "seadatanet";
   "openbiomaps";
   "vecma";
   "100percentit";
   "iict";
   "acdh-ch";
   "emphasis";
   "bijvoetcenter";
   "e-cam";
   "csc-fi";
   "kit";
   "ubiwhere";
   "cines";
   "tib";
   "hostkey";
   "sites";
   "gbif_portugal";
   "cesnet";
   "scai";
   "d4science";
   "inbelixir-es";
   "olos";
   "desy";
   "komanord";
   "wenmr";
   "it4i_vsb-tuo";
   "vilnius-university";
   "ukri_-_stfc";
   "mundi_web_services";
   "terradue";
   "esrf";
   "instruct-eric";
   "teledyne";
   "t-systems";
   "eodc";
   "trust-it";
   "ipsl";
   "sinergise";
   "hzdr";
   "athena";
   "kit-scc";
   "charles_university";
   "infn";
   "cy-biobank";
   "cscs";
   "treeofscience";
   "iasa";
   "cyi";
   "cesga";
   "predictia";
   "edelweiss_connect";
   "erasmusmc";
   "idea";
   "oxford_e-research_centre";
   "obsparis";
   "umr_map";
   "fssda";
   "openaire";
   "ccsd";
   "ifin-hh";
   "switch";
   "gsi";
   "unifl";
   "elsevier";
   "naes_of_ukraine";
   "creatis";
   "earthwatch";
   "unitartu";
   "gbif";
   "cs_group";
   "bluebridge";
   "collabwith";
   "cc-in2p3cnrs";
   "unimib";
   "genias";
   "openedition";
   "sciences_po";
   "cmcc";
   "cds";
   "psnc";
   "lifewatch-eric";
   "csi_piemonte";
   "european_xfel";
   "mi";
   "dkrz";
   "blue-cloud";
   "ciemat-tic";
   "data_revenue";
   "mz";
   "coard";
   "uni_konstanz";
   "diamond_light_source";
   "gwdg";
   "eox";
   "forschungsdaten";
   "ifremer";
   "crg";
   "materialscloud";
   "fairdi";
   "exoscale";
   "euro-argo";
   "suite5";
   "demo";
   "embl-ebi"
  ].

Definition COUNTRIES : dict :=
  [
   ("andorra", "AD");
   ("united arab emirates (the)", "AE");
   ("afghanistan", "AF");
   ("antigua and barbuda", "AG");
   ("anguilla", "AI");
   ("albania", "AL");
   ("armenia", "AM");
   ("angola", "AO");
   ("antarctica", "AQ");
   ("argentina", "AR");
   ("american samoa", "AS");
   ("austria", "AT");
   ("australia", "AU");
   ("aruba", "AW");
   ((chr 229 ++ "land islands"), "AX");
   ("azerbaijan", "AZ");
   ("bosnia and herzegovina", "BA");
   ("barbados", "BB");
   ("bangladesh", "BD");
   ("belgium", "BE");
   ("burkina faso", "BF");
   ("bulgaria", "BG");
   ("bahrain", "BH");
   ("burundi", "BI");
   ("benin", "BJ");
   (("saint barth" ++ chr 233 ++ "lemy"), "BL");
   ("bermuda", "BM");
   ("brunei darussalam", "BN");
   ("bolivia, plurinational state of", "BO");
   ("bonaire, sint eustatius and saba", "BQ");
   ("brazil", "BR");
   ("bahamas (the)", "BS");
   ("bhutan", "BT");
   ("bouvet island", "BV");
   ("botswana", "BW");
   ("belarus", "BY");
   ("belize", "BZ");
   ("canada", "CA");
   ("cocos (keeling) islands (the)", "CC");
   ("congo (the democratic republic of the)", "CD");
   ("central african republic (the)", "CF");
   ("congo (the)", "CG");
   ("switzerland", "CH");
   (("c" ++ chr 244 ++ "te d'ivoire"), "CI");
   ("cook islands (the)", "CK");
   ("chile", "CL");
   ("cameroon", "CM");
   ("china", "CN");
   ("colombia", "CO");
   ("costa rica", "CR");
   ("cuba", "CU");
   ("cabo verde", "CV");
   (("cura" ++ chr 231 ++ "ao"), "CW");
   ("christmas island", "CX");
   ("cyprus", "CY");
   ("czechia", "CZ");
   ("germany", "DE");
   ("djibouti", "DJ");
   ("denmark", "DK");
   ("dominica", "DM");
   ("dominican republic (the)", "DO");
   ("algeria", "DZ");
   ("ecuador", "EC");
   ("estonia", "EE");
   ("egypt", "EG");
   ("western sahara", "EH");
   ("greece", "EL");
   ("eritrea", "ER");
   ("spain", "ES");
   ("ethiopia", "ET");
   ("finland", "FI");
   ("fiji", "FJ");
   ("falkland islands (the) [malvinas]", "FK");
   ("micronesia (federated states of)", "FM");
   ("faroe islands", "FO");
   ("france", "FR");
   ("gabon", "GA");
   ("grenada", "GD");
   ("georgia", "GE");
   ("french guiana", "GF");
   ("guernsey", "GG");
   ("ghana", "GH");
   ("gibraltar", "GI");
   ("greenland", "GL");
   ("gambia (the)", "GM");
   ("guinea", "GN");
   ("guadeloupe", "GP");
   ("equatorial guinea", "GQ");
   ("south georgia and the south sandwich islands", "GS");
   ("guatemala", "GT");
   ("guam", "GU");
   ("guinea-bissau", "GW");
   ("guyana", "GY");
   ("hong kong", "HK");
   ("heard island and mcdonald islands", "HM");
   ("honduras", "HN");
   ("croatia", "HR");
   ("haiti", "HT");
   ("hungary", "HU");
   ("indonesia", "ID");
   ("ireland", "IE");
   ("israel", "IL");
   ("isle of man", "IM");
   ("india", "IN");
   ("british indian ocean territory (the)", "IO");
   ("iraq", "IQ");
   ("iran (islamic republic of)", "IR");
   ("iceland", "IS");
   ("italy", "IT");
   ("jersey", "JE");
   ("jamaica", "JM");
   ("jordan", "JO");
   ("japan", "JP");
   ("kenya", "KE");
   ("kyrgyzstan", "KG");
   ("cambodia", "KH");
   ("kiribati", "KI");
   ("comoros (the)", "KM");
   ("saint kitts and nevis", "KN");
   ("korea (the democratic people's republic of)", "KP");
   ("korea (the republic of)", "KR");
   ("kuwait", "KW");
   ("cayman islands (the)", "KY");
   ("kazakhstan", "KZ");
   ("lao people's democratic republic (the)", "LA");
   ("lebanon", "LB");
   ("saint lucia", "LC");
   ("liechtenstein", "LI");
   ("sri lanka", "LK");
   ("liberia", "LR");
   ("lesotho", "LS");
   ("lithuania", "LT");
   ("luxembourg", "LU");
   ("latvia", "LV");
   ("libya", "LY");
   ("morocco", "MA");
   ("monaco", "MC");
   ("moldova (republic of)", "MD");
   ("montenegro", "ME");
   ("saint martin (french part)", "MF");
   ("madagascar", "MG");
   ("marshall islands (the)", "MH");
   ("north macedonia", "MK");
   ("mali", "ML");
   ("myanmar", "MM");
   ("mongolia", "MN");
   ("macao", "MO");
   ("northern mariana islands (the)", "MP");
   ("martinique", "MQ");
   ("mauritania", "MR");
   ("montserrat", "MS");
   ("malta", "MT");
   ("mauritius", "MU");
   ("maldives", "MV");
   ("malawi", "MW");
   ("mexico", "MX");
   ("malaysia", "MY");
   ("mozambique", "MZ");
   ("namibia", "NA");
   ("new caledonia", "NC");
   ("niger (the)", "NE");
   ("norfolk island", "NF");
   ("nigeria", "NG");
   ("nicaragua", "NI");
   ("netherlands (the)", "NL");
   ("norway", "NO");
   ("nepal", "NP");
   ("nauru", "NR");
   ("niue", "NU");
   ("new zealand", "NZ");
   ("oman", "OM");
   ("other", "OT");
   ("panama", "PA");
   ("peru", "PE");
   ("french polynesia", "PF");
   ("papua new guinea", "PG");
   ("philippines (the)", "PH");
   ("pakistan", "PK");
   ("poland", "PL");
   ("saint pierre and miquelon", "PM");
   ("pitcairn", "PN");
   ("puerto rico", "PR");
   ("palestine, state of", "PS");
   ("portugal", "PT");
   ("palau", "PW");
   ("paraguay", "PY");
   ("qatar", "QA");
   (("r" ++ chr 233 ++ "union"), "RE");
   ("romania", "RO");
   ("serbia", "RS");
   ("russian federation (the)", "RU");
   ("rwanda", "RW");
   ("saudi arabia", "SA");
   ("solomon islands", "SB");
   ("seychelles", "SC");
   ("sudan (the)", "SD");
   ("sweden", "SE");
   ("singapore", "SG");
   ("saint helena, ascension and tristan da cunha", "SH");
   ("slovenia", "SI");
   ("svalbard and jan mayen", "SJ");
   ("slovakia", "SK");
   ("sierra leone", "SL");
   ("san marino", "SM");
   ("senegal", "SN");
   ("somalia", "SO");
   ("suriname", "SR");
   ("south sudan", "SS");
   (("s" ++ chr 227 ++ "o tom" ++ chr 233 ++ " and pr" ++ chr 237 ++ "ncipe"), "ST");
   ("el salvador", "SV");
   ("sint maarten (dutch part)", "SX");
   ("syrian arab republic (the)", "SY");
   ("eswatini", "SZ");
   ("turks and caicos islands (the)", "TC");
   ("chad", "TD");
   ("french southern territories (the)", "TF");
   ("togo", "TG");
   ("thailand", "TH");
   ("tajikistan", "TJ");
   ("tokelau", "TK");
   ("timor-leste", "TL");
   ("turkmenistan", "TM");
   ("tunisia", "TN");
   ("tonga", "TO");
   ("turkey", "TR");
   ("trinidad and tobago", "TT");
   ("tuvalu", "TV");
   ("taiwan (province of china)", "TW");
   ("tanzania, united republic of", "TZ");
   ("ukraine", "UA");
   ("uganda", "UG");
   ("united kingdom of great britain and northern ireland (the)", "UK");
   ("united states minor outlying islands", "UM");
   ("united states of america (the)", "US");
   ("uruguay", "UY");
   ("uzbekistan", "UZ");
   ("holy see (the)", "VA");
   ("saint vincent and the grenadines", "VC");
   ("venezuela (bolivarian republic of)", "VE");
   ("virgin islands (british)", "VG");
   ("virgin islands (u.s.)", "VI");
   ("viet nam", "VN");
   ("vanuatu", "VU");
   ("wallis and futuna", "WF");
   ("samoa", "WS");
   ("yemen", "YE");
   ("mayotte", "YT");
   ("south africa", "ZA");
   ("zambia", "ZM");
   ("zimbabwe", "ZW");
   ("middle earth", "country-middle_earth")
  ].

Definition TARGET_USERS : dict :=
  [
   ("businesses", "target_user-businesses");
   ("funders", "target_user-funders");
   ("innovators", "target_user-innovators");
   ("other", "target_user-other");
   ("policy makers", "target_user-policy_makers");
   ("providers", "target_user-providers");
   ("research communities", "target_user-research_communities");
   ("research groups", "target_user-research_groups");
   ("research infrastructure managers", "target_user-research_infrastructure_managers");
   ("research managers", "target_user-research_managers");
   ("research networks", "target_user-research_networks");
   ("research organisations", "target_user-research_organisations");
   ("research projects", "target_user-research_projects");
   ("researchers", "target_user-researchers");
   ("resource managers", "target_user-resource_managers");
   ("resource provider managers", "target_user-resource_provider_managers");
   ("students", "target_user-students")
  ].

(** ** Diagnostics, log records and exceptions *)

(** An entry of [collected_messages]: one constructor per message text of the
    source, with the values interpolated into it. *)
Inductive Msg : Type :=
  (* check_is_date *)
  | MustBeDateNonZero (name val : string)
  | MalformedDate (name val : string)   (* the text of the parse error is left out *)
  (* check_is_email *)
  | MustBeEmailNonZero (name val : string)
  | EmailMustContainAt (name val : string)
  (* check_is_string *)
  | MustHaveNonZeroLength (name val : string)
  | LengthMustBeMax (max_len len : nat) (name val : string)
  (* check_is_url *)
  | MustBeUrlNonZero (name val : string)
  | MustBeUrl (name val : string)
  (* get_name_from_val *)
  | MalformedNameThree (name val : string)
  | MalformedName (name val : string)
  (* extract_bluecloud_metadata *)
  | ResourceOrganisationEmpty
  | ResourceOrganisationReplaced (original : string)
  | ResourceOrganisationMoveQuestion
  | ProviderEmpty
  | ProviderCorrected (original new : string)
  | ProviderUrlCorrected (original new : string)
  | ProviderNotInList (id : string)
  | SubdomainAnd (subdom_name_long : string)
  | CategoryApplication
  | CategoryAnd (cat_name : string)
  | SubcategoryApplication
  | SubcategoryDevelopmentResource
  | SubcategoryAnd (subcat_name_long : string)
  | TargetUserReplaced (original corrected : string)
  | GeographicalAvailabilityEmpty
  | LanguageAvailabilityEmpty
  | GeographicLocationNotMapped (name_lower : string)   (* the listing of the keys of COUNTRIES is left out *)
  | CatalogueKeyMissing
  | ServiceLevelDeprecated (serviceLevel : string)
  | OrderTypeProblem (value : string).

Inductive Level : Type := DEBUG | INFO | WARNING | ERROR.

(** The two hierarchies paired by the composite matchers. *)
Inductive Axis : Type := Domains | Categories.

(** A composite of the target record: a main id and a sub id
    (scientificDomain / scientificSubdomain, category / subcategory). *)
Record Composite : Type := mkComposite { main_id : string; sub_id : string }.

(** A multimedia or use-case entry of the target record. *)
Record Link : Type := mkLink { link_url : string; link_name : string }.

(** An item of [md]: a tag or an extras entry (the loop variable [item]). *)
Inductive Item : Type :=
  | TagItem (display_name : string)
  | ExtraItem (key value : string).

(** A value handed to [log_value]. *)
Inductive Logged : Type :=
  | LStr (s : string)
  | LComposite (c : Composite)
  | LLinks (l : list Link).

Definition logged_len (v : Logged) : nat :=
  match v with
  | LStr s => String.length s
  | LComposite _ => 2
  | LLinks l => List.length l
  end.

(** A record written to [LOGGER]. *)
Inductive LogMsg : Type :=
  | LogValue (name : string) (val : Logged)
  | CvMustHaveNonZeroLength (name val : string)
  | CvMustBeIn (name val cv_name : string)
  | NameNotCommaSeparated (val : string)
  | DescriptionLength (len_desc : nat)
  | DescriptionShortened (len_new : nat)
  | OrganisationAlreadyCanonical
  | OrganisationCorrected (original : string)
  | ProviderOriginallySet (original : string)
  | ProviderCaseCorrected (original : string)
  | MainContactOrganisationChanged (original : string)
  | OrderTypeChanged (value : string)
  | PlaceholderMultimedia (item : Item)
  | PlaceholderUseCase (item : Item)
  | AllFoundParents (axis : Axis) (n : nat) (ids : list string)
  | AllFoundChildren (axis : Axis) (n : nat) (ids : list string)
  | ChildHasParent (axis : Axis) (child parent : string)
  | ParentNotFound (axis : Axis) (parent child : string)
  | AssigningOnlyPair (axis : Axis) (child parent : string)
  | ParentWithoutChild (axis : Axis) (parent : string)
  | RemovedTags (before now : nat) (left removed : list string)
  | MandatoryMissing (items : list string)
  | NoMandatoryMissing
  | CollectedHeader
  | Collected (m : Msg)
  | CollectedFooter.

Definition LogEntry : Type := Level * LogMsg.

Inductive exn : Type :=
  | KeyError (key : string)
  | IndexError
  | UnboundLocalError (var : string)
  (* 'list' object is not callable *)
  | TypeError_not_callable
  (* unpacking [got] values into two names *)
  | ValueError_unpack (got : nat)
  (* int() of a malformed literal *)
  | ValueError_int (literal : string)
  (* raise ValueError(msg) on a placeholder value *)
  | ValueError_placeholder (field : string).

(** ** The diagnostics accumulator and the logger *)

Record Eff : Type := mkEff {
  messages : list Msg;     (* collected_messages *)
  log : list LogEntry      (* records written to LOGGER, oldest first *)
}.

Definition no_eff : Eff := mkEff [] [].

(** collected_messages.append(msg) *)
Definition append_msg (m : Msg) (e : Eff) : Eff :=
  mkEff (messages e ++ [m])%list (log e).

(** LOGGER.debug / info / warning / error *)
Definition logger (lvl : Level) (m : LogMsg) (e : Eff) : Eff :=
  mkEff (messages e) (log e ++ [(lvl, m)])%list.

(** log_value(logger, val, name); [print_empty] is False. *)
Definition log_value (val : Logged) (name : string) (e : Eff) : Eff :=
  if (logged_len val =? 0)%nat then e
  else logger DEBUG (LogValue name val) e.

(** ** Field validators *)

Definition is_leap (y : nat) : bool :=
  (((y mod 4 =? 0) && negb (y mod 100 =? 0)) || (y mod 400 =? 0))%nat.

Definition days_in_month (y m : nat) : nat :=
  match m with
  | 2 => if is_leap y then 29 else 28
  | 4 | 6 | 9 | 11 => 30
  | _ => 31
  end.

Definition digit (c : ascii) : option nat :=
  if PyStr.is_digit c then Some (nat_of_ascii c - 48) else None.

(** datetime.datetime.strptime(val, '%Y-%m-%d'): four digits, a month
    1[0-2]|0[1-9]|[1-9], a day 3[01]|[12]\d|0[1-9]|[1-9]| [1-9], nothing after
    it, and a date that exists from year 1 on.  [None] stands for the
    ValueError. *)
Definition strptime_day (s : string) : option nat :=
  match s with
  | String a EmptyString =>
      match digit a with
      | Some d => if (1 <=? d)%nat then Some d else None
      | None => None
      end
  | String a (String b EmptyString) =>
      match digit b with
      | None => None
      | Some e =>
          if Ascii.eqb a "3" then (if (e <=? 1)%nat then Some (30 + e) else None)
          else if Ascii.eqb a "1" then Some (10 + e)
          else if Ascii.eqb a "2" then Some (20 + e)
          else if Ascii.eqb a "0" || Ascii.eqb a " "
               then (if (1 <=? e)%nat then Some e else None)
          else None
      end
  | _ => None
  end.

Definition strptime_month (s : string) : option (nat * string) :=
  match s with
  | String a (String "-" r) =>
      match digit a with
      | Some d => if (1 <=? d)%nat then Some (d, r) else None
      | None => None
      end
  | String a (String b (String "-" r)) =>
      match digit b with
      | None => None
      | Some e =>
          if Ascii.eqb a "1" then (if (e <=? 2)%nat then Some (10 + e, r) else None)
          else if Ascii.eqb a "0" then (if (1 <=? e)%nat then Some (e, r) else None)
          else None
      end
  | _ => None
  end.

Definition strptime_Ymd (s : string) : option (nat * nat * nat) :=
  match s with
  | String a (String b (String c (String d (String "-" r)))) =>
      match digit a, digit b, digit c, digit d with
      | Some a', Some b', Some c', Some d' =>
          let y := 1000 * a' + 100 * b' + 10 * c' + d' in
          match strptime_month r with
          | Some (m, r') =>
              match strptime_day r' with
              | Some dd =>
                  if ((1 <=? y) && (dd <=? days_in_month y m))%nat
                  then Some (y, m, dd) else None
              | None => None
              end
          | None => None
          end
      | _, _, _, _ => None
      end
  | _ => None
  end.

Definition check_is_date (val name : string) (mandatory : bool) (e : Eff)
  : bool * Eff :=
  if (String.length val =? 0)%nat && mandatory then
    (false, append_msg (MustBeDateNonZero name val) e)
  else if (String.length val =? 0)%nat && negb mandatory then
    (true, e)
  else
    match strptime_Ymd val with
    | None => (false, append_msg (MalformedDate name val) e)
    | Some _ => (true, e)
    end.

Definition check_is_email (val name : string) (mandatory : bool) (e : Eff)
  : bool * Eff :=
  if (String.length val =? 0)%nat && mandatory then
    (false, append_msg (MustBeEmailNonZero name val) e)
  else if negb (PyStr.contains "@" val) then
    (false, append_msg (EmailMustContainAt name val) e)
  else (true, e).

Definition check_is_string (val name : string) (mandatory : bool)
    (max_len : option nat) (e : Eff) : bool * Eff :=
  if (String.length val =? 0)%nat && mandatory then
    (false, append_msg (MustHaveNonZeroLength name val) e)
  else
    match max_len with
    | Some n =>
        if (n <? String.length val)%nat
        then (false, append_msg (LengthMustBeMax n (String.length val) name val) e)
        else (true, e)
    | None => (true, e)
    end.

(** [cv] is the list [PROVIDER_IDS] at the only call site. *)
Definition check_is_in_cv (val name : string) (mandatory : bool)
    (cv : list string) (cv_name : string) (e : Eff) : bool * Eff :=
  if (String.length val =? 0)%nat && mandatory then
    (false, logger WARNING (CvMustHaveNonZeroLength name val) e)
  else if negb (py_in val cv) then
    (false, logger ERROR (CvMustBeIn name val cv_name) e)
  else (true, e).

Definition check_is_url (val name : string) (mandatory : bool) (e : Eff)
  : bool * Eff :=
  if (String.length val =? 0)%nat then
    if mandatory then (false, append_msg (MustBeUrlNonZero name val) e)
    else (true, e)
  else if negb (PyStr.startswith val "http") then
    (false, append_msg (MustBeUrl name val) e)
  else (true, e).

(** ** The name splitter *)

(** The result is the pair (firstName, lastName). *)
Definition get_name_from_val (val name : string) (e : Eff)
  : (string * string) * Eff :=
  let comma :=
    if PyStr.contains ", " val then
      match PyStr.split (PyStr.strip val) ", " with
      | [lastName; firstName] => Some (firstName, lastName)
      | _ => None
      end
    else None in
  match comma with
  | Some r => (r, e)
  | None =>
      let e1 := if (0 <? String.length val)%nat
                then logger WARNING (NameNotCommaSeparated val) e else e in
      match PyStr.split (PyStr.strip val) " " with
      | [firstName; lastName] => ((firstName, lastName), e1)
      | [t0; t1; t2] =>
          ((t0 ++ " " ++ t1, t2), append_msg (MalformedNameThree name val) e1)
      | [_] =>
          if (String.length val =? 0)%nat then ((EmptyString, EmptyString), e1)
          else ((EmptyString, val), append_msg (MalformedName name val) e1)
      | _ => ((EmptyString, val), append_msg (MalformedName name val) e1)
      end
  end.

(** ** The source record *)

(** [md]: the JSON document of one service.  [md_tags] holds the
    [display_name] of each tag, [md_extras] the (key, value) pairs. *)
Record SourceRecord : Type := mkSource {
  md_id : string;
  md_title : string;
  md_name : string;
  md_version : string;
  md_notes : string;
  md_tags : list string;
  md_extras : list (string * string)
}.

(** ** Local variables of [extract_bluecloud_metadata]

    [trl] can hold Python's None ([None] here); for [maincontact_name],
    [publiccontact_name] and [eosc_id], which are assigned only inside a
    branch of the extras loop, [None] is the unbound local.  Temporaries that
    a branch assigns before reading them are let-bound in the handlers. *)
Record Locals : Type := mkLocals {
  eff : Eff;
  item : option Item;
  blue_id : string;
  eosc_name : string;
  bc_name : string;
  abbreviation : string;
  version : string;
  description : string;
  tags : list string;
  resourceOrganisation : string;
  resourceProviders : list string;
  webpage : string;
  tagline : string;
  logo : string;
  multimedia_composite : list Link;
  multimedia_url : string;
  multimedia_name : string;
  use_cases_composite : list Link;
  use_case_url : string;
  use_case_name : string;
  domain_ids : list string;
  subdomain_ids : list string;
  domain_names : list string;
  category_ids : list string;
  subcategory_ids : list string;
  category_names : list string;
  targetUsers : list string;
  targetUsersNames : list string;
  accessTypes : list string;
  accessModes : list string;
  geographicalAvailabilities : list string;
  languageAvailabilities : list string;
  resourceGeographicLocations : list string;
  maincontact_firstName : string;
  maincontact_lastName : string;
  maincontact_email : string;
  maincontact_phone : string;
  maincontact_position : string;
  maincontact_organisation : string;
  publiccontact_firstName : string;
  publiccontact_lastName : string;
  publiccontact_email : string;
  publiccontact_phone : string;
  publiccontact_position : string;
  publiccontact_organisation : string;
  helpdeskEmail : string;
  securityContactEmail : string;
  trl : option string;
  lifeCycleStatus : string;
  certifications : list string;
  standards : list string;
  openSourceTechnologies : list string;
  lastUpdate : string;
  changeLogs : list string;
  requiredResources : list string;
  relatedResources : list string;
  relatedPlatforms : list string;
  catalogue : string;
  fundingBodies : list string;
  fundingPrograms : list string;
  grantProjectNames : list string;
  helpdeskPage : string;
  userManual : string;
  termsOfUse : string;
  privacyPolicy : string;
  accessPolicy : string;
  serviceLevel : string;
  resourceLevel : string;
  trainingInformation : string;
  statusMonitoring : string;
  maintenance : string;
  order : string;
  orderType : string;
  paymentModel : string;
  pricing : string;
  maincontact_name : option string;
  publiccontact_name : option string;
  eosc_id : option string
}.

(** The locals before the extras loop: the defaults of the block
    'Define variables to be filled' are in place; the variables of the
    directly extracted items are assigned by [extract_direct]. *)
Definition fresh : Locals :=
  {|
    eff := no_eff;
    item := None;
    blue_id := "";
    eosc_name := "";
    bc_name := "";
    abbreviation := "";
    version := "";
    description := "";
    tags := [];
    resourceOrganisation := "";
    resourceProviders := [];
    webpage := "";
    tagline := "";
    logo := "";
    multimedia_composite := [];
    multimedia_url := "";
    multimedia_name := "";
    use_cases_composite := [];
    use_case_url := "";
    use_case_name := "";
    domain_ids := [];
    subdomain_ids := [];
    domain_names := [];
    category_ids := [];
    subcategory_ids := [];
    category_names := [];
    targetUsers := [];
    targetUsersNames := [];
    accessTypes := [];
    accessModes := [];
    geographicalAvailabilities := [];
    languageAvailabilities := [];
    resourceGeographicLocations := [];
    maincontact_firstName := "";
    maincontact_lastName := "";
    maincontact_email := "";
    maincontact_phone := "";
    maincontact_position := "";
    maincontact_organisation := "";
    publiccontact_firstName := "";
    publiccontact_lastName := "";
    publiccontact_email := "";
    publiccontact_phone := "";
    publiccontact_position := "";
    publiccontact_organisation := "";
    helpdeskEmail := "";
    securityContactEmail := "";
    trl := Some "";
    lifeCycleStatus := "";
    certifications := [];
    standards := [];
    openSourceTechnologies := [];
    lastUpdate := "";
    changeLogs := [];
    requiredResources := [];
    relatedResources := [];
    relatedPlatforms := [];
    catalogue := "";
    fundingBodies := [];
    fundingPrograms := [];
    grantProjectNames := [];
    helpdeskPage := "";
    userManual := "";
    termsOfUse := "";
    privacyPolicy := "";
    accessPolicy := "";
    serviceLevel := "";
    resourceLevel := "";
    trainingInformation := "";
    statusMonitoring := "";
    maintenance := "";
    order := "";
    orderType := "";
    paymentModel := "";
    pricing := "";
    maincontact_name := None;
    publiccontact_name := None;
    eosc_id := None
  |}.

Definition eta_Locals (st : Locals) : Locals :=
  mkLocals
    (eff st) (item st) (blue_id st) (eosc_name st) (bc_name st)
    (abbreviation st) (version st) (description st) (tags st)
    (resourceOrganisation st) (resourceProviders st) (webpage st) (tagline st)
    (logo st) (multimedia_composite st) (multimedia_url st)
    (multimedia_name st) (use_cases_composite st) (use_case_url st)
    (use_case_name st) (domain_ids st) (subdomain_ids st) (domain_names st)
    (category_ids st) (subcategory_ids st) (category_names st)
    (targetUsers st) (targetUsersNames st) (accessTypes st) (accessModes st)
    (geographicalAvailabilities st) (languageAvailabilities st)
    (resourceGeographicLocations st) (maincontact_firstName st)
    (maincontact_lastName st) (maincontact_email st) (maincontact_phone st)
    (maincontact_position st) (maincontact_organisation st)
    (publiccontact_firstName st) (publiccontact_lastName st)
    (publiccontact_email st) (publiccontact_phone st)
    (publiccontact_position st) (publiccontact_organisation st)
    (helpdeskEmail st) (securityContactEmail st) (trl st) (lifeCycleStatus st)
    (certifications st) (standards st) (openSourceTechnologies st)
    (lastUpdate st) (changeLogs st) (requiredResources st)
    (relatedResources st) (relatedPlatforms st) (catalogue st)
    (fundingBodies st) (fundingPrograms st) (grantProjectNames st)
    (helpdeskPage st) (userManual st) (termsOfUse st) (privacyPolicy st)
    (accessPolicy st) (serviceLevel st) (resourceLevel st)
    (trainingInformation st) (statusMonitoring st) (maintenance st) (order st)
    (orderType st) (paymentModel st) (pricing st) (maincontact_name st)
    (publiccontact_name st) (eosc_id st).

(** Assignment to one local: the record with the field [proj] replaced. *)
Ltac setter proj :=
  let e := eval cbv [eta_Locals] in eta_Locals in
  match eval pattern proj in e with
  | ?g _ => let s := eval cbv beta in (fun v st => g (fun _ => v) st) in exact s
  end.

Definition set_eff : Eff -> Locals -> Locals := ltac:(setter eff).
Definition set_item : option Item -> Locals -> Locals := ltac:(setter item).
Definition set_blue_id : string -> Locals -> Locals := ltac:(setter blue_id).
Definition set_eosc_name : string -> Locals -> Locals := ltac:(setter eosc_name).
Definition set_bc_name : string -> Locals -> Locals := ltac:(setter bc_name).
Definition set_abbreviation : string -> Locals -> Locals := ltac:(setter abbreviation).
Definition set_version : string -> Locals -> Locals := ltac:(setter version).
Definition set_description : string -> Locals -> Locals := ltac:(setter description).
Definition set_tags : list string -> Locals -> Locals := ltac:(setter tags).
Definition set_resourceOrganisation : string -> Locals -> Locals := ltac:(setter resourceOrganisation).
Definition set_resourceProviders : list string -> Locals -> Locals := ltac:(setter resourceProviders).
Definition set_webpage : string -> Locals -> Locals := ltac:(setter webpage).
Definition set_tagline : string -> Locals -> Locals := ltac:(setter tagline).
Definition set_logo : string -> Locals -> Locals := ltac:(setter logo).
Definition set_multimedia_composite : list Link -> Locals -> Locals := ltac:(setter multimedia_composite).
Definition set_multimedia_url : string -> Locals -> Locals := ltac:(setter multimedia_url).
Definition set_multimedia_name : string -> Locals -> Locals := ltac:(setter multimedia_name).
Definition set_use_cases_composite : list Link -> Locals -> Locals := ltac:(setter use_cases_composite).
Definition set_use_case_url : string -> Locals -> Locals := ltac:(setter use_case_url).
Definition set_use_case_name : string -> Locals -> Locals := ltac:(setter use_case_name).
Definition set_domain_ids : list string -> Locals -> Locals := ltac:(setter domain_ids).
Definition set_subdomain_ids : list string -> Locals -> Locals := ltac:(setter subdomain_ids).
Definition set_domain_names : list string -> Locals -> Locals := ltac:(setter domain_names).
Definition set_category_ids : list string -> Locals -> Locals := ltac:(setter category_ids).
Definition set_subcategory_ids : list string -> Locals -> Locals := ltac:(setter subcategory_ids).
Definition set_category_names : list string -> Locals -> Locals := ltac:(setter category_names).
Definition set_targetUsers : list string -> Locals -> Locals := ltac:(setter targetUsers).
Definition set_targetUsersNames : list string -> Locals -> Locals := ltac:(setter targetUsersNames).
Definition set_accessTypes : list string -> Locals -> Locals := ltac:(setter accessTypes).
Definition set_accessModes : list string -> Locals -> Locals := ltac:(setter accessModes).
Definition set_geographicalAvailabilities : list string -> Locals -> Locals := ltac:(setter geographicalAvailabilities).
Definition set_languageAvailabilities : list string -> Locals -> Locals := ltac:(setter languageAvailabilities).
Definition set_resourceGeographicLocations : list string -> Locals -> Locals := ltac:(setter resourceGeographicLocations).
Definition set_maincontact_firstName : string -> Locals -> Locals := ltac:(setter maincontact_firstName).
Definition set_maincontact_lastName : string -> Locals -> Locals := ltac:(setter maincontact_lastName).
Definition set_maincontact_email : string -> Locals -> Locals := ltac:(setter maincontact_email).
Definition set_maincontact_phone : string -> Locals -> Locals := ltac:(setter maincontact_phone).
Definition set_maincontact_position : string -> Locals -> Locals := ltac:(setter maincontact_position).
Definition set_maincontact_organisation : string -> Locals -> Locals := ltac:(setter maincontact_organisation).
Definition set_publiccontact_firstName : string -> Locals -> Locals := ltac:(setter publiccontact_firstName).
Definition set_publiccontact_lastName : string -> Locals -> Locals := ltac:(setter publiccontact_lastName).
Definition set_publiccontact_email : string -> Locals -> Locals := ltac:(setter publiccontact_email).
Definition set_publiccontact_phone : string -> Locals -> Locals := ltac:(setter publiccontact_phone).
Definition set_publiccontact_position : string -> Locals -> Locals := ltac:(setter publiccontact_position).
Definition set_publiccontact_organisation : string -> Locals -> Locals := ltac:(setter publiccontact_organisation).
Definition set_helpdeskEmail : string -> Locals -> Locals := ltac:(setter helpdeskEmail).
Definition set_securityContactEmail : string -> Locals -> Locals := ltac:(setter securityContactEmail).
Definition set_trl : option string -> Locals -> Locals := ltac:(setter trl).
Definition set_lifeCycleStatus : string -> Locals -> Locals := ltac:(setter lifeCycleStatus).
Definition set_certifications : list string -> Locals -> Locals := ltac:(setter certifications).
Definition set_standards : list string -> Locals -> Locals := ltac:(setter standards).
Definition set_openSourceTechnologies : list string -> Locals -> Locals := ltac:(setter openSourceTechnologies).
Definition set_lastUpdate : string -> Locals -> Locals := ltac:(setter lastUpdate).
Definition set_changeLogs : list string -> Locals -> Locals := ltac:(setter changeLogs).
Definition set_requiredResources : list string -> Locals -> Locals := ltac:(setter requiredResources).
Definition set_relatedResources : list string -> Locals -> Locals := ltac:(setter relatedResources).
Definition set_relatedPlatforms : list string -> Locals -> Locals := ltac:(setter relatedPlatforms).
Definition set_catalogue : string -> Locals -> Locals := ltac:(setter catalogue).
Definition set_fundingBodies : list string -> Locals -> Locals := ltac:(setter fundingBodies).
Definition set_fundingPrograms : list string -> Locals -> Locals := ltac:(setter fundingPrograms).
Definition set_grantProjectNames : list string -> Locals -> Locals := ltac:(setter grantProjectNames).
Definition set_helpdeskPage : string -> Locals -> Locals := ltac:(setter helpdeskPage).
Definition set_userManual : string -> Locals -> Locals := ltac:(setter userManual).
Definition set_termsOfUse : string -> Locals -> Locals := ltac:(setter termsOfUse).
Definition set_privacyPolicy : string -> Locals -> Locals := ltac:(setter privacyPolicy).
Definition set_accessPolicy : string -> Locals -> Locals := ltac:(setter accessPolicy).
Definition set_serviceLevel : string -> Locals -> Locals := ltac:(setter serviceLevel).
Definition set_resourceLevel : string -> Locals -> Locals := ltac:(setter resourceLevel).
Definition set_trainingInformation : string -> Locals -> Locals := ltac:(setter trainingInformation).
Definition set_statusMonitoring : string -> Locals -> Locals := ltac:(setter statusMonitoring).
Definition set_maintenance : string -> Locals -> Locals := ltac:(setter maintenance).
Definition set_order : string -> Locals -> Locals := ltac:(setter order).
Definition set_orderType : string -> Locals -> Locals := ltac:(setter orderType).
Definition set_paymentModel : string -> Locals -> Locals := ltac:(setter paymentModel).
Definition set_pricing : string -> Locals -> Locals := ltac:(setter pricing).
Definition set_maincontact_name : option string -> Locals -> Locals := ltac:(setter maincontact_name).
Definition set_publiccontact_name : option string -> Locals -> Locals := ltac:(setter publiccontact_name).
Definition set_eosc_id : option string -> Locals -> Locals := ltac:(setter eosc_id).

(** ** The state and error monad of the engine *)

Inductive outcome (A : Type) : Type :=
  | Raised (e : exn)
  | Done (a : A) (st : Locals).
Arguments Raised {A} e.
Arguments Done {A} a st.

Definition M (A : Type) : Type := Locals -> outcome A.

Definition ret {A} (a : A) : M A := fun st => Done a st.

Definition bind {A B} (m : M A) (k : A -> M B) : M B :=
  fun st =>
    match m st with
    | Raised e => Raised e
    | Done a st' => k a st'
    end.

Declare Scope engine_scope.
Delimit Scope engine_scope with engine.
Notation "x <- m ;; k" := (bind m (fun x => k))
  (at level 61, m at next level, right associativity) : engine_scope.
Notation "m ;; k" := (bind m (fun _ => k))
  (at level 61, right associativity) : engine_scope.
Local Open Scope engine_scope.

Definition raise {A} (e : exn) : M A := fun _ => Raised e.

(** Reading locals. *)
Definition gets {A} (proj : Locals -> A) : M A := fun st => Done (proj st) st.

(** An assignment to a local, or an in-place list append. *)
Definition modify (f : Locals -> Locals) : M unit := fun st => Done tt (f st).

(** Reading a local that may be unbound. *)
Definition read_local (var : string) (proj : Locals -> option string) : M string :=
  fun st =>
    match proj st with
    | Some v => Done v st
    | None => Raised (UnboundLocalError var)
    end.

(** A call of a validator on the shared accumulator. *)
Definition liftE {A} (f : Eff -> A * Eff) : M A :=
  fun st => let '(a, e) := f (eff st) in Done a (set_eff e st).

(** A validator called for its diagnostics only. *)
Definition check {A} (f : Eff -> A * Eff) : M unit := liftE f ;; ret tt.

(** collected_messages.append(msg) *)
Definition say (m : Msg) : M unit := modify (fun st => set_eff (append_msg m (eff st)) st).

(** LOGGER.<level>(...) *)
Definition logm (lvl : Level) (m : LogMsg) : M unit :=
  modify (fun st => set_eff (logger lvl m (eff st)) st).

(** log_value(LOGGER, val, name) *)
Definition trace (val : Logged) (name : string) : M unit :=
  modify (fun st => set_eff (log_value val name (eff st)) st).

(** cv[key] *)
Definition lookup (cv : dict) (key : string) : M string :=
  match dict_get cv key with
  | Some v => ret v
  | None => raise (KeyError key)
  end.

(** [l[i]] *)
Definition index (l : list string) (i : nat) : M string :=
  match nth_error l i with
  | Some v => ret v
  | None => raise IndexError
  end.

(** [a, b = l] *)
Definition unpack2 (l : list string) : M (string * string) :=
  match l with
  | [a; b] => ret (a, b)
  | _ => raise (ValueError_unpack (List.length l))
  end.

(** The text handed to [log_value] by most handlers: [a], a double quote, a
    space, and [b] between double quotes inside parentheses. *)
Definition quoted_pair (a b : string) : string :=
  a ++ chr 34 ++ " (" ++ chr 34 ++ b ++ chr 34 ++ ")".

Definition when (b : bool) (m : M unit) : M unit := if b then m else ret tt.

(** ** The handlers of the extras loop

    One definition per branch of the [if] / [elif] chain over [item['key']];
    [value] is [item['value']]. *)

Definition is_empty (s : string) : bool := (String.length s =? 0)%nat.

(** The shape shared by the single-valued URL fields:
    [x = value.strip(); check_is_url(x, name, mandatory, ...); log_value(x, name)] *)
Definition url_field (assign : string -> Locals -> Locals) (name : string)
    (mandatory : bool) (value : string) : M unit :=
  let x := PyStr.strip value in
  modify (assign x) ;;
  check (check_is_url x name mandatory) ;;
  trace (LStr x) name.

(** The same with [check_is_string(x, name, mandatory, max_len, ...)]. *)
Definition string_field (assign : string -> Locals -> Locals) (name : string)
    (mandatory : bool) (max_len : nat) (value : string) : M unit :=
  let x := PyStr.strip value in
  modify (assign x) ;;
  check (check_is_string x name mandatory (Some max_len)) ;;
  trace (LStr x) name.

(** The same with [check_is_email(x, name, mandatory, ...)]. *)
Definition email_field (assign : string -> Locals -> Locals) (name : string)
    (mandatory : bool) (value : string) : M unit :=
  let x := PyStr.strip value in
  modify (assign x) ;;
  check (check_is_email x name mandatory) ;;
  trace (LStr x) name.

(** 'BasicInformation:Resource Organisation' *)
Definition extras_Resource_Organisation (value : string) : M unit :=
  let original := PyStr.strip value in
  modify (set_resourceOrganisation original) ;;
  (if original =? "blue-cloud" then
     logm DEBUG OrganisationAlreadyCanonical
   else if original =? "Blue-Cloud" then
     logm DEBUG (OrganisationCorrected original) ;;
     modify (set_resourceOrganisation "blue-cloud")
   else if is_empty original then
     say ResourceOrganisationEmpty
   else
     say (ResourceOrganisationReplaced original) ;;
     modify (set_resourceOrganisation "blue-cloud") ;;
     say ResourceOrganisationMoveQuestion) ;;
  r <- gets resourceOrganisation ;;
  trace (LStr r) "resourceOrganisation".

Definition invalid_provider_url : string :=
  "https://data.d4science.org/ctlg/Blue-CloudProject/blue-cloud_virtual_research_environment".

(** 'BasicInformation:Resource Provider'.  [PROVIDER_IDS] is the list
    literal, never None, so the provider id is always checked. *)
Definition extras_Resource_Provider (value : string) : M unit :=
  let tmp0 := PyStr.strip value in
  (if is_empty tmp0 then say ProviderEmpty
   else logm DEBUG (ProviderOriginallySet tmp0)) ;;
  tmp1 <- (if tmp0 =? "D4Science" then
             logm DEBUG (ProviderCaseCorrected tmp0) ;; ret "d4science"
           else if tmp0 =? "KNMI" then
             say (ProviderCorrected tmp0 "d4science") ;; ret "d4science"
           else ret tmp0) ;;
  tmp <- (if tmp1 =? invalid_provider_url then
            say (ProviderUrlCorrected tmp1 "d4science") ;; ret "d4science"
          else ret tmp1) ;;
  check (check_is_in_cv tmp "BasicInformation:Resource Provider" true
           PROVIDER_IDS "Provider Ids") ;;
  when ((0 <? String.length tmp)%nat && negb (py_in tmp PROVIDER_IDS))
       (say (ProviderNotInList tmp)) ;;
  trace (LStr tmp) "resourceProvider" ;;
  modify (fun st => set_resourceProviders (resourceProviders st ++ [tmp])%list st).

(** 'ClassificationInformation:Scientific Domain' *)
Definition extras_Scientific_Domain (value : string) : M unit :=
  let dom_name := PyStr.strip value in
  modify (fun st => set_domain_names (domain_names st ++ [dom_name])%list st) ;;
  dom_id <- lookup CV_DOM (PyStr.lower dom_name) ;;
  modify (fun st => set_domain_ids (domain_ids st ++ [dom_id])%list st) ;;
  trace (LStr (quoted_pair dom_id dom_name)) "scientificDomain".

(** 'ClassificationInformation:Scientific Subdomain' *)
Definition extras_Scientific_Subdomain (value : string) : M unit :=
  let original := PyStr.strip value in
  subdom_name_long <-
    (if PyStr.contains " and " original then
       say (SubdomainAnd original) ;;
       ret (PyStr.replace original " and " " & ")
     else ret original) ;;
  subdom_name <- index (PyStr.split subdom_name_long ".") 1 ;;
  subdom_id <- lookup CV_SUBDOM (PyStr.lower subdom_name_long) ;;
  modify (fun st => set_subdomain_ids (subdomain_ids st ++ [subdom_id])%list st) ;;
  trace (LStr (quoted_pair subdom_id subdom_name_long)) "scientificSubdomain".

(** 'ClassificationInformation:Category' *)
Definition extras_Category (value : string) : M unit :=
  let original := PyStr.strip value in
  modify (fun st => set_category_names (category_names st ++ [original])%list st) ;;
  cat1 <- (if original =? "Application" then
             say CategoryApplication ;; ret "Applications"
           else ret original) ;;
  cat_name <- (if PyStr.contains " and " cat1 then
                 say (CategoryAnd cat1) ;;
                 ret (PyStr.replace cat1 " and " " & ")
               else ret cat1) ;;
  cat_id <- lookup CV_CAT (PyStr.lower cat_name) ;;
  modify (fun st => set_category_ids (category_ids st ++ [cat_id])%list st) ;;
  trace (LStr (quoted_pair cat_id cat_name)) "category".

(** 'ClassificationInformation:Subcategory' *)
Definition extras_Subcategory (value : string) : M unit :=
  let original := PyStr.strip value in
  s1 <- (if PyStr.contains "Application." original then
           say SubcategoryApplication ;;
           ret (PyStr.replace original "Application." "Applications.")
         else ret original) ;;
  s2 <- (if PyStr.contains "Development Resource." s1 then
           say SubcategoryDevelopmentResource ;;
           ret (PyStr.replace s1 "Development Resource." "Development Resources.")
         else ret s1) ;;
  subcat_name_long <-
    (if PyStr.contains " and " s2 then
       say (SubcategoryAnd s2) ;;
       ret (PyStr.replace s2 " and " " & ")
     else ret s2) ;;
  subcat_name <- index (PyStr.split subcat_name_long ".") 1 ;;
  subcat_id <- lookup CV_SUBCAT (PyStr.lower subcat_name_long) ;;
  modify (fun st => set_subcategory_ids (subcategory_ids st ++ [subcat_id])%list st) ;;
  trace (LStr (quoted_pair subcat_id subcat_name_long)) "subcategory".

(** 'ClassificationInformation:Target User' *)
Definition extras_Target_User (value : string) : M unit :=
  let original := PyStr.strip value in
  value_bluecloud <-
    (if original =? "Researcher groups" then
       say (TargetUserReplaced original "Research Groups") ;;
       ret "Research Groups"
     else ret original) ;;
  value_eosc <- lookup TARGET_USERS (PyStr.lower value_bluecloud) ;;
  modify (fun st =>
            set_targetUsersNames (targetUsersNames st ++ [value_bluecloud])%list st) ;;
  modify (fun st => set_targetUsers (targetUsers st ++ [value_eosc])%list st) ;;
  trace (LStr (quoted_pair value_eosc value_bluecloud)) "targetUsers".

(** The shape shared by the multi-valued vocabulary fields:
    [vb = value.strip(); ve = CV[vb.lower()]; field.append(ve); log_value(...)] *)
Definition cv_list_field (cv : dict) (proj : Locals -> list string)
    (assign : list string -> Locals -> Locals) (name : string) (value : string)
  : M unit :=
  let value_bluecloud := PyStr.strip value in
  value_eosc <- lookup cv (PyStr.lower value_bluecloud) ;;
  modify (fun st => assign (proj st ++ [value_eosc])%list st) ;;
  trace (LStr (quoted_pair value_eosc value_bluecloud)) name.

(** 'AvailabilityInformation:Geographical Availability' and
    'AvailabilityInformation:Language Availability':
    [value_bluecloud, value_eosc = tmp.split(' (')] unpacks exactly two
    pieces. *)
Definition availability_field (proj : Locals -> list string)
    (assign : list string -> Locals -> Locals) (name : string) (empty : Msg)
    (value : string) : M unit :=
  let tmp := PyStr.strip value in
  pieces <- unpack2 (PyStr.split tmp " (") ;;
  let '(value_bluecloud, code) := pieces in
  let value_eosc := PyStr.rstrip_chars (Ascii.eqb ")") code in
  if (0 <? String.length value_eosc)%nat then
    modify (fun st => assign (proj st ++ [value_eosc])%list st) ;;
    trace (LStr (quoted_pair value_eosc value_bluecloud)) name
  else
    say empty.

Definition extras_Geographical_Availability : string -> M unit :=
  availability_field geographicalAvailabilities set_geographicalAvailabilities
    "geographicalAvailabilities" GeographicalAvailabilityEmpty.

Definition extras_Language_Availability : string -> M unit :=
  availability_field languageAvailabilities set_languageAvailabilities
    "languageAvailabilities" LanguageAvailabilityEmpty.

(** 'LocationInformation:Resource Geographic Location'.  When the value does
    not split into two pieces the source calls the list
    [collected_messages(msg)], which raises TypeError; the statements after
    the call are not reached.  [eosc_id] keeps the value of an earlier
    iteration when the lookup fails. *)
Definition extras_Resource_Geographic_Location (value : string) : M unit :=
  let orig := PyStr.strip value in
  name <- match PyStr.split orig " (" with
          | [name; abbrev] => ret name
          | _ => raise TypeError_not_callable
          end ;;
  match dict_get COUNTRIES (PyStr.lower name) with
  | Some id =>
      modify (set_eosc_id (Some id)) ;;
      modify (fun st =>
                set_resourceGeographicLocations
                  (resourceGeographicLocations st ++ [id])%list st)
  | None =>
      say (GeographicLocationNotMapped (PyStr.lower name)) ;;
      modify (fun st =>
                set_resourceGeographicLocations
                  (resourceGeographicLocations st ++ [name])%list st)
  end ;;
  id <- read_local "eosc_id" eosc_id ;;
  let tmplog :=
    "id " ++ chr 34 ++ id ++ chr 34 ++ " (original " ++ chr 34 ++ orig
    ++ chr 34 ++ ", name " ++ chr 34 ++ name ++ chr 34 ++ ")" in
  trace (LStr tmplog) "resourceGeographicLocations".

(** 'ContactInformation:Main Contact Name' *)
Definition extras_Main_Contact_Name (value : string) : M unit :=
  let x := PyStr.strip value in
  modify (set_maincontact_name (Some x)) ;;
  trace (LStr x) "maincontact_name (to be splitted)".

Definition cmcc_long : string :=
  "Centro Euro-Mediterraneo sui Cambiamenti Climatici CMCC".

(** 'ContactInformation:Main Contact Organisation' *)
Definition extras_Main_Contact_Organisation (value : string) : M unit :=
  let original := PyStr.strip value in
  modify (set_maincontact_organisation original) ;;
  when (original =? cmcc_long)
       (logm WARNING (MainContactOrganisationChanged original) ;;
        modify (set_maincontact_organisation "cmcc")) ;;
  x <- gets maincontact_organisation ;;
  check (check_is_string x "maincontact_organisation" false (Some 50)) ;;
  trace (LStr x) "maincontact_organisation".

(** 'ContactInformation:Public Contact Name' *)
Definition extras_Public_Contact_Name (value : string) : M unit :=
  let x := PyStr.strip value in
  modify (set_publiccontact_name (Some x)) ;;
  trace (LStr x) "publiccontact_name (to be splitted)".

(** 'MaturityInformation:Technology Readiness Level' *)
Definition extras_Technology_Readiness_Level (value : string) : M unit :=
  let value_bluecloud := PyStr.strip value in
  value_eosc <-
    (if (0 <? String.length value_bluecloud)%nat
        && PyStr.startswith value_bluecloud "TRL" then
       tmp <- index (PyStr.split value_bluecloud " ") 0 ;;
       match PyStr.int (PyStr.replace tmp "TRL" EmptyString) with
       | Some trl_int => ret (Some (PyStr.replace tmp "TRL" "trl-"))
       | None => raise (ValueError_int (PyStr.replace tmp "TRL" EmptyString))
       end
     else ret None) ;;
  modify (set_trl value_eosc) ;;
  let shown := match value_eosc with Some v => v | None => "None" end in
  trace (LStr (quoted_pair shown value_bluecloud)) "trl".

(** 'MaturityInformation:Life Cycle Status' *)
Definition extras_Life_Cycle_Status (value : string) : M unit :=
  let value_bluecloud := PyStr.strip value in
  value_eosc <- lookup LIFE_CYCLE_STATUS (PyStr.lower value_bluecloud) ;;
  modify (set_lifeCycleStatus value_eosc) ;;
  trace (LStr (quoted_pair value_eosc value_bluecloud)) "lifeCycleStatus".

(** The shape shared by the multi-valued free-text fields:
    [x = value.strip(); check_is_string(x, name, False, max_len, ...);
     if len(x) > 0: field.append(x); log_value(x, logname)].
    [stripped] is false for 'Open Source Technologies', which uses the raw
    value; [checked] is [None] for the three Dependencies fields, which are not
    validated. *)
Definition text_list_field (stripped : bool) (checked : option (string * nat))
    (proj : Locals -> list string) (assign : list string -> Locals -> Locals)
    (logname : string) (value : string) : M unit :=
  let x := if stripped then PyStr.strip value else value in
  match checked with
  | Some (name, max_len) => check (check_is_string x name false (Some max_len))
  | None => ret tt
  end ;;
  when (0 <? String.length x)%nat
       (modify (fun st => assign (proj st ++ [x])%list st) ;;
        trace (LStr x) logname).

(** 'MaturityInformation:Last Update' *)
Definition extras_Last_Update (value : string) : M unit :=
  let x := PyStr.strip value in
  modify (set_lastUpdate x) ;;
  check (check_is_date x "lastUpdate" false) ;;
  trace (LStr x) "lastUpdate".

(** 'DependenciesInformation:NONE YET TODO WIP' *)
Definition extras_Catalogue (value : string) : M unit :=
  say CatalogueKeyMissing ;;
  let x := PyStr.strip value in
  modify (set_catalogue x) ;;
  trace (LStr x) "catalogue".

(** 'ManagementInformation:Service Level' *)
Definition extras_Service_Level (value : string) : M unit :=
  url_field set_serviceLevel "serviceLevel" false value ;;
  x <- gets serviceLevel ;;
  say (ServiceLevelDeprecated x).

(** 'AccessOrderInformation:Order Type' *)
Definition extras_Order_Type (value : string) : M unit :=
  let original := PyStr.strip value in
  value_bluecloud <-
    (if original =? "Request/Order required" then
       say (OrderTypeProblem original) ;;
       logm INFO (OrderTypeChanged "Order required") ;;
       ret "Order required"
     else ret original) ;;
  value_eosc <- lookup ORDER_TYPES (PyStr.lower value_bluecloud) ;;
  modify (set_orderType value_eosc) ;;
  trace (LStr (quoted_pair value_eosc value_bluecloud)) "orderType".

(** The [if] / [elif] chain over [item['key']], in the order of the source.
    An unknown key matches no branch and changes nothing. *)
Definition handle_extra (key value : string) : M unit :=
  if key =? "BasicInformation:Resource Organisation" then
    extras_Resource_Organisation value
  else if key =? "BasicInformation:Resource Provider" then
    extras_Resource_Provider value
  else if key =? "BasicInformation:Webpage" then
    url_field set_webpage "webpage" true value
  else if key =? "MarketingInformation:Tagline" then
    string_field set_tagline "tagline" true 100 value
  else if key =? "MarketingInformation:Logo" then
    url_field set_logo "logo" true value
  else if key =? "MarketingInformation:Multimedia" then
    url_field set_multimedia_url "multimedia_url" false value
  else if key =? "MarketingInformation:Multimedia Name" then
    string_field set_multimedia_name "multimedia_name" false 100 value
  else if key =? "MarketingInformation:Use Case" then
    url_field set_use_case_url "use_case_url" false value
  else if key =? "MarketingInformation:Use Case Name" then
    string_field set_use_case_name "use_case_name" false 100 value
  else if key =? "ClassificationInformation:Scientific Domain" then
    extras_Scientific_Domain value
  else if key =? "ClassificationInformation:Scientific Subdomain" then
    extras_Scientific_Subdomain value
  else if key =? "ClassificationInformation:Category" then
    extras_Category value
  else if key =? "ClassificationInformation:Subcategory" then
    extras_Subcategory value
  else if key =? "ClassificationInformation:Target User" then
    extras_Target_User value
  else if key =? "ClassificationInformation:Access Type" then
    cv_list_field ACCESS_TYPES accessTypes set_accessTypes "accessTypes" value
  else if key =? "ClassificationInformation:Access Mode" then
    cv_list_field ACCESS_MODES accessModes set_accessModes "accessModes" value
  else if key =? "AvailabilityInformation:Geographical Availability" then
    extras_Geographical_Availability value
  else if key =? "AvailabilityInformation:Language Availability" then
    extras_Language_Availability value
  else if key =? "LocationInformation:Resource Geographic Location" then
    extras_Resource_Geographic_Location value
  else if key =? "ContactInformation:Main Contact Name" then
    extras_Main_Contact_Name value
  else if key =? "ContactInformation:Main Contact Email" then
    email_field set_maincontact_email "maincontact_email" true value
  else if key =? "ContactInformation:Main Contact Phone" then
    string_field set_maincontact_phone "maincontact_phone" false 20 value
  else if key =? "ContactInformation:Main Contact Position" then
    string_field set_maincontact_position "maincontact_position" false 20 value
  else if key =? "ContactInformation:Main Contact Organisation" then
    extras_Main_Contact_Organisation value
  else if key =? "ContactInformation:Public Contact Name" then
    extras_Public_Contact_Name value
  else if key =? "ContactInformation:Public Contact Email" then
    email_field set_publiccontact_email "publiccontact_email" true value
  else if key =? "ContactInformation:Public Contact Phone" then
    string_field set_publiccontact_phone "publiccontact_phone" false 20 value
  else if key =? "ContactInformation:Public Contact Position" then
    string_field set_publiccontact_position "publiccontact_position" false 20 value
  else if key =? "ContactInformation:Public Contact Organisation" then
    string_field set_publiccontact_organisation "publiccontact_organisation"
      false 50 value
  else if key =? "ContactInformation:Helpdesk Email" then
    email_field set_helpdeskEmail "helpdeskEmail" true value
  else if key =? "ContactInformation:Security Contact Email" then
    email_field set_securityContactEmail "securityContactEmail" true value
  else if key =? "MaturityInformation:Technology Readiness Level" then
    extras_Technology_Readiness_Level value
  else if key =? "MaturityInformation:Life Cycle Status" then
    extras_Life_Cycle_Status value
  else if key =? "MaturityInformation:Certifications" then
    text_list_field true (Some ("certifications", 100)) certifications
      set_certifications "certification" value
  else if key =? "MaturityInformation:Standards" then
    text_list_field true (Some ("standards", 100)) standards set_standards
      "standard" value
  else if key =? "MaturityInformation:Open Source Technologies" then
    text_list_field false (Some ("openSourceTechnologies", 100))
      openSourceTechnologies set_openSourceTechnologies "openSourceTechnology"
      value
  else if key =? "MaturityInformation:Last Update" then
    extras_Last_Update value
  else if key =? "MaturityInformation:Change Log" then
    text_list_field true (Some ("change log", 1000)) changeLogs set_changeLogs
      "changeLog" value
  else if key =? "DependenciesInformation:Required Resources" then
    text_list_field true None requiredResources set_requiredResources
      "requiredResource" value
  else if key =? "DependenciesInformation:Related Resources" then
    text_list_field true None relatedResources set_relatedResources
      "relatedResource" value
  else if key =? "DependenciesInformation:Related Platforms" then
    text_list_field true None relatedPlatforms set_relatedPlatforms
      "relatedPlatform" value
  else if key =? "DependenciesInformation:NONE YET TODO WIP" then
    extras_Catalogue value
  else if key =? "AttributionInformation:Funding Body" then
    cv_list_field FUNDING_BODIES fundingBodies set_fundingBodies "fundingBody"
      value
  else if key =? "AttributionInformation:Funding Program" then
    cv_list_field FUNDING_PROGRAMS fundingPrograms set_fundingPrograms
      "fundingProgram" value
  else if key =? "AttributionInformation:Project" then
    text_list_field true (Some ("grantProject", 100)) grantProjectNames
      set_grantProjectNames "grantProject" value
  else if key =? "ManagementInformation:Helpdesk Page" then
    url_field set_helpdeskPage "helpdeskPage" false value
  else if key =? "ManagementInformation:User Manual" then
    url_field set_userManual "userManual" false value
  else if key =? "ManagementInformation:Terms Of Use" then
    url_field set_termsOfUse "termsOfUse" true value
  else if key =? "ManagementInformation:Privacy Policy" then
    url_field set_privacyPolicy "privacyPolicy" true value
  else if key =? "ManagementInformation:Access Policy" then
    url_field set_accessPolicy "accessPolicy" false value
  else if key =? "ManagementInformation:Service Level" then
    extras_Service_Level value
  else if key =? "ManagementInformation:Resource Level" then
    url_field set_resourceLevel "resourceLevel" false value
  else if key =? "ManagementInformation:Training Information" then
    url_field set_trainingInformation "trainingInformation" false value
  else if key =? "ManagementInformation:Status Monitoring" then
    url_field set_statusMonitoring "statusMonitoring" false value
  else if key =? "ManagementInformation:Maintenance" then
    url_field set_maintenance "maintenance" false value
  else if key =? "AccessOrderInformation:Order Type" then
    extras_Order_Type value
  else if key =? "AccessOrderInformation:Order" then
    url_field set_order "order" false value
  else if key =? "FinancialInformation:Payment Model" then
    url_field set_paymentModel "paymentModel" false value
  else if key =? "FinancialInformation:Pricing" then
    url_field set_pricing "pricing" false value
  else ret tt.

(** [for item in md['extras']: ...] *)
Fixpoint iterate_extras (extras : list (string * string)) : M unit :=
  match extras with
  | [] => ret tt
  | (key, value) :: rest =>
      modify (set_item (Some (ExtraItem key value))) ;;
      handle_extra key value ;;
      iterate_extras rest
  end.

(** ** Items extracted directly *)

(** The suffix appended to a shortened description. *)
Definition add : string :=
  " ... (For more details, please visit the service webpage!)".

(** [notes] to [description]:
    [if len_desc > 1000: description = description[0:1000-len(add)] + add] *)
Definition shorten_description (description : string) : string :=
  if (1000 <? String.length description)%nat
  then PyStr.slice_to (1000 - String.length add) description ++ add
  else description.

(** [for item in md['tags']: tags.append(...); check_is_string(...)] *)
Fixpoint collect_tags (l : list string) : M unit :=
  match l with
  | [] => ret tt
  | display_name :: rest =>
      modify (set_item (Some (TagItem display_name))) ;;
      modify (fun st => set_tags (tags st ++ [display_name])%list st) ;;
      check (check_is_string display_name "tags" false (Some 50)) ;;
      collect_tags rest
  end.

Definition extract_direct (md : SourceRecord) : M unit :=
  modify (set_blue_id (md_id md)) ;;
  modify (set_eosc_name (md_title md)) ;;
  modify (set_bc_name (md_name md)) ;;
  abbrev <- lookup ABBREVIATIONS (md_name md) ;;
  modify (set_abbreviation abbrev) ;;
  check (check_is_string abbrev "abbreviation" true (Some 20)) ;;
  check (check_is_string (md_title md) "eosc_name" true (Some 80)) ;;
  trace (LStr abbrev) "abbreviation" ;;
  trace (LStr (md_title md)) "eosc_name" ;;
  modify (set_version (md_version md)) ;;
  check (check_is_string (md_version md) "version" false (Some 10)) ;;
  trace (LStr (md_version md)) "version" ;;
  let len_desc := String.length (md_notes md) in
  logm DEBUG (DescriptionLength len_desc) ;;
  when (1000 <? len_desc)%nat
       (logm DEBUG (DescriptionShortened
                      (String.length (shorten_description (md_notes md))))) ;;
  modify (set_description (shorten_description (md_notes md))) ;;
  d <- gets description ;;
  trace (LStr (PyStr.slice_to 35 d ++ "...")) "description" ;;
  collect_tags (md_tags md).

(** ** After the loop: multimedia, use cases and contacts *)

(** Reading the loop variable [item]. *)
Definition read_item : M Item :=
  fun st =>
    match item st with
    | Some it => Done it st
    | None => Raised (UnboundLocalError "item")
    end.

Definition construct_multimedia : M unit :=
  url <- gets multimedia_url ;;
  (if url =? "www.mymedia.org" then
     modify (set_multimedia_url "http://dkrz.de") ;;
     it <- read_item ;;
     logm ERROR (PlaceholderMultimedia it) ;;
     raise (ValueError_placeholder "multimedia")
   else ret tt) ;;
  url <- gets multimedia_url ;;
  name <- gets multimedia_name ;;
  (* when both are empty the source assigns an unused local [multimedia] *)
  when (negb (is_empty url && is_empty name))
       (modify (set_multimedia_composite [mkLink url name])) ;;
  mc <- gets multimedia_composite ;;
  trace (LLinks mc) "multimedia".

Definition construct_useCases : M unit :=
  url <- gets use_case_url ;;
  (if url =? "www.ausecase.org" then
     modify (set_use_case_url "http://dkrz.de") ;;
     it <- read_item ;;
     logm ERROR (PlaceholderUseCase it) ;;
     raise (ValueError_placeholder "use_case_url")
   else ret tt) ;;
  url <- gets use_case_url ;;
  name <- gets use_case_name ;;
  (if is_empty url && is_empty name
   then modify (set_use_cases_composite [])
   else modify (set_use_cases_composite [mkLink url name])) ;;
  uc <- gets use_cases_composite ;;
  trace (LLinks uc) "useCases".

Definition construct_contacts : M unit :=
  main_name <- read_local "maincontact_name" maincontact_name ;;
  main <- liftE (get_name_from_val main_name "maincontact_name") ;;
  modify (set_maincontact_firstName (fst main)) ;;
  modify (set_maincontact_lastName (snd main)) ;;
  public_name <- read_local "publiccontact_name" publiccontact_name ;;
  public <- liftE (get_name_from_val public_name "publiccontact_name") ;;
  modify (set_publiccontact_firstName (fst public)) ;;
  modify (set_publiccontact_lastName (snd public)) ;;
  check (check_is_string (fst public) "publiccontact_firstName" false (Some 20)) ;;
  check (check_is_string (snd public) "publiccontact_lastName" false (Some 20)) ;;
  check (check_is_string (fst main) "maincontact_firstName" true (Some 20)) ;;
  check (check_is_string (snd main) "maincontact_lastName" true (Some 20)).

(** ** The composite matchers

    The two loops of the source ('Match domains', 'Match categories') are the
    same code over different tables; [axis] selects the texts of the log
    records.  [mapping] sends a sub id to its main id. *)

Definition axis_name (axis : Axis) : string :=
  match axis with
  | Domains => "scientificDomain"
  | Categories => "category"
  end.

(** The body of [for sub in child_ids]; [composites] and [used] are the lists
    [composite_domains] and [used_domids] (resp. [composite_categories] and
    [used_mainids]) built so far. *)
Fixpoint match_children (axis : Axis) (mapping : dict)
    (parent_ids child_ids : list string) (todo : list string)
    (composites : list Composite) (used : list string)
  : M (list Composite * list string) :=
  match todo with
  | [] => ret (composites, used)
  | sub :: rest =>
      main <- lookup mapping sub ;;
      if py_in main parent_ids then
        logm DEBUG (ChildHasParent axis sub main) ;;
        match_children axis mapping parent_ids child_ids rest
          (composites ++ [mkComposite main sub])%list (used ++ [main])%list
      else
        logm ERROR (ParentNotFound axis main sub) ;;
        logm WARNING (AssigningOnlyPair axis sub main) ;;
        if ((List.length parent_ids =? 1) && (List.length child_ids =? 1))%nat
        then
          p <- index parent_ids 0 ;;
          c <- index child_ids 0 ;;
          match_children axis mapping parent_ids child_ids rest
            (composites ++ [mkComposite p c])%list used
        else
          match_children axis mapping parent_ids child_ids rest composites used
  end.

(** [for tmp_id in parent_ids: if tmp_id not in used: LOGGER.error(...)] *)
Fixpoint report_unused (axis : Axis) (parent_ids used : list string) : M unit :=
  match parent_ids with
  | [] => ret tt
  | tmp_id :: rest =>
      when (negb (py_in tmp_id used)) (logm ERROR (ParentWithoutChild axis tmp_id)) ;;
      report_unused axis rest used
  end.

(** [for tmp in composites: log_value(LOGGER, tmp, ...)] *)
Fixpoint trace_composites (axis : Axis) (l : list Composite) : M unit :=
  match l with
  | [] => ret tt
  | c :: rest => trace (LComposite c) (axis_name axis) ;; trace_composites axis rest
  end.

Definition match_composites (axis : Axis) (mapping : dict)
    (parent_ids child_ids : list string) : M (list Composite) :=
  logm DEBUG (AllFoundParents axis (List.length parent_ids) parent_ids) ;;
  logm DEBUG (AllFoundChildren axis (List.length child_ids) child_ids) ;;
  r <- match_children axis mapping parent_ids child_ids child_ids [] [] ;;
  report_unused axis parent_ids (snd r) ;;
  trace_composites axis (fst r) ;;
  ret (fst r).

(** ** The tag filter *)

(** The test of the three removing branches, in the order of the source. *)
Definition tag_removed (targetUsersNames category_names domain_names : list string)
    (item : string) : bool :=
  if py_in item targetUsersNames then true
  else if PyStr.startswith item "Access Mode" || PyStr.startswith item "Access Type"
  then true
  else if py_in item category_names || py_in item domain_names then true
  else false.

(** [for item in tags: ...], building [new_tags] and [removed]. *)
Fixpoint filter_loop (targetUsersNames category_names domain_names : list string)
    (todo new_tags removed : list string) : list string * list string :=
  match todo with
  | [] => (new_tags, removed)
  | item :: rest =>
      if tag_removed targetUsersNames category_names domain_names item
      then filter_loop targetUsersNames category_names domain_names rest
             new_tags (removed ++ [item])%list
      else filter_loop targetUsersNames category_names domain_names rest
             (new_tags ++ [item])%list removed
  end.

(** The value of [tags] after the filter:
    [if not len(tags) == len(new_tags): tags = new_tags] *)
Definition filter_tags (targetUsersNames category_names domain_names tags : list string)
  : list string :=
  let new_tags :=
    fst (filter_loop targetUsersNames category_names domain_names tags [] []) in
  if negb (List.length tags =? List.length new_tags)%nat then new_tags else tags.

(** [for tag in tags: check_is_string(tag, 'tags', False, 50, ...); log_value(...)] *)
Fixpoint check_tags (l : list string) : M unit :=
  match l with
  | [] => ret tt
  | tag :: rest =>
      check (check_is_string tag "tags" false (Some 50)) ;;
      trace (LStr tag) "tag" ;;
      check_tags rest
  end.

Definition filter_tags_step : M unit :=
  old <- gets tags ;;
  tu <- gets targetUsersNames ;;
  cat <- gets category_names ;;
  dom <- gets domain_names ;;
  let r := filter_loop tu cat dom old [] [] in
  when (negb (List.length old =? List.length (fst r))%nat)
       (logm DEBUG (RemovedTags (List.length old) (List.length (fst r))
                      (fst r) (snd r)) ;;
        modify (set_tags (fst r))) ;;
  now <- gets tags ;;
  check_tags now.

(** ** Mandatory fields *)

(** [x is None or len(x.strip()) == 0] for a string *)
Definition blank (x : string) : bool := is_empty (PyStr.strip x).

Definition missing_if (b : bool) (name : string) : list string :=
  if b then [name] else [].

Definition missing_composites (main_name sub_name : string) (l : list Composite)
  : list string :=
  flat_map (fun c => missing_if (blank (main_id c)) main_name
                     ++ missing_if (blank (sub_id c)) sub_name)%list l.

Definition missing_items (name : string) (l : list string) : list string :=
  flat_map (fun x => missing_if (is_empty x) name) l.

(** The list [missing_mandatory_items], in the order of the checks. *)
Definition missing_mandatory (st : Locals)
    (composite_domains composite_categories : list Composite) : list string :=
  (missing_if (blank (abbreviation st)) "abbreviation"
   ++ missing_if (blank (eosc_name st)) "eosc_name"
   ++ missing_if (blank (resourceOrganisation st)) "resourceOrganisation"
   ++ missing_if (blank (webpage st)) "webpage"
   ++ missing_if (blank (description st)) "description"
   ++ missing_if (blank (tagline st)) "tagline"
   ++ missing_if (blank (logo st)) "logo"
   ++ missing_composites "scientificDomain" "scientificSubdomain" composite_domains
   ++ missing_composites "category" "subcategory" composite_categories
   ++ missing_if (List.length (targetUsers st) =? 0)%nat "targetUsers"
   ++ missing_items "geographicalAvailabilities" (geographicalAvailabilities st)
   ++ missing_items "languageAvailabilities" (languageAvailabilities st))%list.

Definition check_missing (composite_domains composite_categories : list Composite)
  : M (list string) :=
  st <- gets (fun st => st) ;;
  let missing_mandatory_items :=
    missing_mandatory st composite_domains composite_categories in
  (if (0 <? List.length missing_mandatory_items)%nat
   then logm WARNING (MandatoryMissing missing_mandatory_items)
   else logm INFO NoMandatoryMissing) ;;
  ret missing_mandatory_items.

(** [for msg in collected_messages: LOGGER.warning('  * '+msg)] *)
Fixpoint print_each (l : list Msg) : M unit :=
  match l with
  | [] => ret tt
  | m :: rest => logm WARNING (Collected m) ;; print_each rest
  end.

Definition print_collected : M unit :=
  logm WARNING CollectedHeader ;;
  msgs <- gets (fun st => messages (eff st)) ;;
  print_each msgs ;;
  logm WARNING CollectedFooter.

(** ** The target record *)

Module Target.

Record Contact : Type := mkContact {
  firstName : string;
  lastName : string;
  email : string;
  phone : string;
  position : string;
  organisation : string
}.

(** The dict [target], key by key. *)
Record t : Type := mk {
  blue_id : string;
  abbreviation : string;
  name : string;
  resourceOrganisation : string;
  resourceProviders : list string;
  webpage : string;
  description : string;
  tagline : string;
  logo : string;
  multimedia : list Link;
  useCases : list Link;
  scientificDomains : list Composite;
  categories : list Composite;
  targetUsers : list string;
  accessTypes : list string;
  accessModes : list string;
  tags : list string;
  geographicalAvailabilities : list string;
  languageAvailabilities : list string;
  resourceGeographicLocations : list string;
  mainContact : Contact;
  publicContacts : list Contact;
  helpdeskEmail : string;
  securityContactEmail : string;
  trl : option string;
  lifeCycleStatus : string;
  certifications : list string;
  standards : list string;
  openSourceTechnologies : list string;
  version : string;
  lastUpdate : string;
  changeLog : list string;
  requiredResources : list string;
  relatedResources : list string;
  relatedPlatforms : list string;
  fundingBody : list string;
  fundingPrograms : list string;
  grantProjectNames : list string;
  helpdeskPage : string;
  userManual : string;
  termsOfUse : string;
  privacyPolicy : string;
  accessPolicy : string;
  serviceLevel : string;
  trainingInformation : string;
  statusMonitoring : string;
  maintenance : string;
  orderType : string;
  order : string;
  paymentModel : string;
  pricing : string
}.

End Target.

(** [target = { ... }]: the dict assembled from the locals. *)
Definition build_target (st : Locals)
    (composite_domains composite_categories : list Composite) : Target.t :=
  {|
    Target.blue_id := blue_id st;
    Target.abbreviation := abbreviation st;
    Target.name := eosc_name st;
    Target.resourceOrganisation := resourceOrganisation st;
    Target.resourceProviders := resourceProviders st;
    Target.webpage := webpage st;
    Target.description := description st;
    Target.tagline := tagline st;
    Target.logo := logo st;
    Target.multimedia := multimedia_composite st;
    Target.useCases := use_cases_composite st;
    Target.scientificDomains := composite_domains;
    Target.categories := composite_categories;
    Target.targetUsers := targetUsers st;
    Target.accessTypes := accessTypes st;
    Target.accessModes := accessModes st;
    Target.tags := tags st;
    Target.geographicalAvailabilities := geographicalAvailabilities st;
    Target.languageAvailabilities := languageAvailabilities st;
    Target.resourceGeographicLocations := resourceGeographicLocations st;
    Target.mainContact := {| Target.firstName := maincontact_firstName st;
         Target.lastName := maincontact_lastName st;
         Target.email := maincontact_email st;
         Target.phone := maincontact_phone st;
         Target.position := maincontact_position st;
         Target.organisation := maincontact_organisation st |};
    Target.publicContacts := [ {| Target.firstName := publiccontact_firstName st;
           Target.lastName := publiccontact_lastName st;
           Target.email := publiccontact_email st;
           Target.phone := publiccontact_phone st;
           Target.position := publiccontact_position st;
           Target.organisation := publiccontact_organisation st |} ];
    Target.helpdeskEmail := helpdeskEmail st;
    Target.securityContactEmail := securityContactEmail st;
    Target.trl := trl st;
    Target.lifeCycleStatus := lifeCycleStatus st;
    Target.certifications := certifications st;
    Target.standards := standards st;
    Target.openSourceTechnologies := openSourceTechnologies st;
    Target.version := version st;
    Target.lastUpdate := lastUpdate st;
    Target.changeLog := changeLogs st;
    Target.requiredResources := requiredResources st;
    Target.relatedResources := relatedResources st;
    Target.relatedPlatforms := relatedPlatforms st;
    Target.fundingBody := fundingBodies st;
    Target.fundingPrograms := fundingPrograms st;
    Target.grantProjectNames := grantProjectNames st;
    Target.helpdeskPage := helpdeskPage st;
    Target.userManual := userManual st;
    Target.termsOfUse := termsOfUse st;
    Target.privacyPolicy := privacyPolicy st;
    Target.accessPolicy := accessPolicy st;
    Target.serviceLevel := serviceLevel st;
    Target.trainingInformation := trainingInformation st;
    Target.statusMonitoring := statusMonitoring st;
    Target.maintenance := maintenance st;
    Target.orderType := orderType st;
    Target.order := order st;
    Target.paymentModel := paymentModel st;
    Target.pricing := pricing st
  |}.

(** ** The mapping engine *)

(** What a caller receives from a call that does not raise.  The source ends
    with [return target]; a triple of the target record, the diagnostics and
    the missing mandatory fields is the other shape a caller could be handed. *)
Inductive Returned : Type :=
  | ReturnsTarget (target : Target.t)
  | ReturnsTriple (target : Target.t) (diagnostics : list Msg)
      (missing_mandatory_fields : list string).

(** The statements of the function up to the end of the extras loop. *)
Definition collect (md : SourceRecord) : M unit :=
  extract_direct md ;;
  iterate_extras (md_extras md).

(** The statements after the loop. *)
Definition assemble : M Returned :=
  construct_multimedia ;;
  construct_useCases ;;
  construct_contacts ;;
  dom <- gets domain_ids ;;
  subdom <- gets subdomain_ids ;;
  composite_domains <- match_composites Domains CV_DOM_MAPPING dom subdom ;;
  cat <- gets category_ids ;;
  subcat <- gets subcategory_ids ;;
  composite_categories <- match_composites Categories CV_CAT_MAPPING cat subcat ;;
  filter_tags_step ;;
  missing_mandatory_items <- check_missing composite_domains composite_categories ;;
  print_collected ;;
  st <- gets (fun st => st) ;;
  ret (ReturnsTarget (build_target st composite_domains composite_categories)).

Definition run (md : SourceRecord) : M Returned := collect md ;; assemble.

(** [extract_bluecloud_metadata(md)], from fresh locals. *)
Definition extract_bluecloud_metadata (md : SourceRecord) : outcome Returned :=
  run md fresh.

(** ** Sample records and the notions used to state the properties *)

(** The pairs that the matching children contribute: each child whose main id
    is among the parent ids yields one pair, every other child none. *)
Definition pairs_of_matching_children (mapping : dict)
    (parent_ids child_ids : list string) : list Composite :=
  flat_map (fun sub =>
              match dict_get mapping sub with
              | Some main =>
                  if py_in main parent_ids then [mkComposite main sub] else []
              | None => []
              end) child_ids.

(** Two ids of the domain vocabularies; the sub id belongs to the main id
    'scientific_domain-natural_sciences'. *)
Definition generic_domain : string := "scientific_domain-generic".

Definition other_natural_sciences : string :=
  "scientific_subdomain-natural_sciences-other_natural_sciences".

(** [keeps proj m]: when [m] completes, the local read by [proj] has the value
    it had before. *)
Definition keeps {X A} (proj : Locals -> X) (m : M A) : Prop :=
  forall st a st', m st = Done a st' -> proj st' = proj st.

(** The value of a single-valued field after the loop: the stripped value of
    the last entry with the field's key, or the value before the loop. *)
Definition effective_value (key : string) (extras : list (string * string))
    (before : string) : string :=
  fold_left (fun acc kv => if fst kv =? key then PyStr.strip (snd kv) else acc)
            extras before.

(** The statements that run before the contacts are constructed. *)
Definition before_contacts (md : SourceRecord) : M unit :=
  collect md ;; construct_multimedia ;; construct_useCases.

(** A record with no extras at all. *)
Definition record_without_extras : SourceRecord :=
  mkSource "id-1" "Ocean Patterns" "oceanpatterns" "1.0" "Some notes"
    ["ocean"; "Access Mode: free"] [].

(** A placeholder value is in effect when the last multimedia URL of the
    extras, stripped, is 'www.mymedia.org', or the last use-case URL,
    stripped, is 'www.ausecase.org'. *)
Definition placeholder_in_effect (md : SourceRecord) : bool :=
  (effective_value "MarketingInformation:Multimedia" (md_extras md) EmptyString
   =? "www.mymedia.org")
  || (effective_value "MarketingInformation:Use Case" (md_extras md) EmptyString
      =? "www.ausecase.org").

(** Some entry of the extras carries a placeholder value. *)
Definition placeholder_present (md : SourceRecord) : bool :=
  existsb (fun kv =>
             ((fst kv =? "MarketingInformation:Multimedia")
              && (PyStr.strip (snd kv) =? "www.mymedia.org"))
             || ((fst kv =? "MarketingInformation:Use Case")
                 && (PyStr.strip (snd kv) =? "www.ausecase.org")))
          (md_extras md).

(** A record whose multimedia URL is the placeholder. *)
Definition record_with_placeholder : SourceRecord :=
  mkSource "id-1" "Ocean Patterns" "oceanpatterns" "1.0" "Some notes" ["ocean"]
    [("ContactInformation:Main Contact Name", "Buurman, Merret");
     ("ContactInformation:Public Contact Name", "Kevin Balem");
     ("MarketingInformation:Multimedia", "www.mymedia.org")].

(** A record without any placeholder whose scientific domain is not in the
    vocabulary. *)
Definition record_with_unknown_domain : SourceRecord :=
  mkSource "id-1" "Ocean Patterns" "oceanpatterns" "1.0" "Some notes" ["ocean"]
    [("ContactInformation:Main Contact Name", "Buurman, Merret");
     ("ContactInformation:Public Contact Name", "Kevin Balem");
     ("ClassificationInformation:Scientific Domain", "Astrology")].

(** A record whose placeholder multimedia URL is followed by a second
    multimedia entry. *)
Definition record_with_overwritten_placeholder : SourceRecord :=
  mkSource "id-1" "Ocean Patterns" "oceanpatterns" "1.0" "Some notes" ["ocean"]
    [("ContactInformation:Main Contact Name", "Buurman, Merret");
     ("ContactInformation:Public Contact Name", "Kevin Balem");
     ("MarketingInformation:Multimedia", "www.mymedia.org");
     ("MarketingInformation:Multimedia", "https://example.org/video")].

(** A record that is mapped without an exception; its resource organisation
    is replaced, which leaves two diagnostics. *)
Definition record_mapped : SourceRecord :=
  mkSource "id-1" "Ocean Patterns" "oceanpatterns" "1.0" "Some notes"
    ["ocean"; "Access Mode: free"]
    [("BasicInformation:Resource Organisation", "Some Other Org");
     ("ContactInformation:Main Contact Name", "Buurman, Merret");
     ("ContactInformation:Public Contact Name", "Kevin Balem")].

(** A record with one geographical availability. *)
Definition record_with_availability (value : string) : SourceRecord :=
  mkSource "id-1" "Ocean Patterns" "oceanpatterns" "1.0" "Some notes" ["ocean"]
    [("ContactInformation:Main Contact Name", "Buurman, Merret");
     ("ContactInformation:Public Contact Name", "Kevin Balem");
     ("AvailabilityInformation:Geographical Availability", value)].

(** A record with one scientific domain and one subdomain of another
    domain. *)
Definition record_with_mismatching_subdomain : SourceRecord :=
  mkSource "id-1" "Ocean Patterns" "oceanpatterns" "1.0" "Some notes" ["ocean"]
    [("ContactInformation:Main Contact Name", "Buurman, Merret");
     ("ContactInformation:Public Contact Name", "Kevin Balem");
     ("ClassificationInformation:Scientific Domain", "Generic");
     ("ClassificationInformation:Scientific Subdomain",
      "Natural Sciences.Other natural sciences")].

(** Every value of [children] is a key of [mapping]. *)
Definition covers (mapping children : dict) : bool :=
  forallb (fun kv => match dict_get mapping (snd kv) with
                     | Some _ => true
                     | None => false
                     end) children.

(** A record with the given resource geographic locations. *)
Definition record_with_location (values : list string) : SourceRecord :=
  mkSource "id-1" "Ocean Patterns" "oceanpatterns" "1.0" "Some notes" ["ocean"]
    ([("ContactInformation:Main Contact Name", "Buurman, Merret");
      ("ContactInformation:Public Contact Name", "Kevin Balem")]
     ++ map (fun v => ("LocationInformation:Resource Geographic Location", v))
            values)%list.

(** A description of 1001 characters, and a record that carries it. *)
Definition long_description : string :=
  String.concat EmptyString (repeat "a" 1001).

(** A record whose notes are longer than 1000 characters. *)
Definition record_with_long_notes : SourceRecord :=
  mkSource "id-1" "Ocean Patterns" "oceanpatterns" "1.0" long_description
    ["ocean"]
    [("ContactInformation:Main Contact Name", "Buurman, Merret");
     ("ContactInformation:Public Contact Name", "Kevin Balem")].

(** ** Notions used by the further properties *)

(** The keys whose handlers can raise: the vocabulary lookups, the
    availability and location parsers and the readiness level. *)
Definition may_raise_keys : list string :=
  ["ClassificationInformation:Scientific Domain";
   "ClassificationInformation:Scientific Subdomain";
   "ClassificationInformation:Category";
   "ClassificationInformation:Subcategory";
   "ClassificationInformation:Target User";
   "ClassificationInformation:Access Type";
   "ClassificationInformation:Access Mode";
   "AvailabilityInformation:Geographical Availability";
   "AvailabilityInformation:Language Availability";
   "LocationInformation:Resource Geographic Location";
   "MaturityInformation:Technology Readiness Level";
   "MaturityInformation:Life Cycle Status";
   "AttributionInformation:Funding Body";
   "AttributionInformation:Funding Program";
   "AccessOrderInformation:Order Type"].

(** [total m]: [m] completes from every state. *)
Definition total {A} (m : M A) : Prop :=
  forall st, exists a st', m st = Done a st'.

(** The value last assigned by the entries of one key, [g] being what the
    handler assigns for a value. *)
Definition last_assigned {X} (g : string -> X) (key : string)
    (extras : list (string * string)) (before : X) : X :=
  fold_left (fun acc kv => if fst kv =? key then g (snd kv) else acc)
            extras before.

(** The values of the entries of one key, in the order of the extras. *)
Definition values_of (key : string) (extras : list (string * string))
  : list string :=
  map snd (filter (fun kv => fst kv =? key) extras).

(** The display name a target-user entry contributes to [targetUsersNames]:
    the stripped value, 'Researcher groups' being renamed first. *)
Definition target_user_name (value : string) : string :=
  if PyStr.strip value =? "Researcher groups" then "Research Groups"
  else PyStr.strip value.

(** A record with repeated keys, an invalid URL and tags that repeat display
    names of its classification. *)
Definition record_with_repeated_fields : SourceRecord :=
  mkSource "id-2" "Ocean Regimes" "oceanregimes_notebooks" "2.1" "Some notes"
    ["ocean"; "Access Mode: free"; "Research Groups"; "Generic"; "Compute";
     "regimes"]
    [("BasicInformation:Webpage", "not a url");
     ("ContactInformation:Main Contact Name", "Buurman, Merret");
     ("ContactInformation:Public Contact Name", "Kevin Balem");
     ("ClassificationInformation:Target User", "Researcher groups");
     ("ClassificationInformation:Scientific Domain", " Generic");
     ("ClassificationInformation:Category", "Compute");
     ("ClassificationInformation:Access Mode", "Paid");
     ("ClassificationInformation:Access Mode", " free ");
     ("MarketingInformation:Tagline", "Regimes of the ocean");
     ("BasicInformation:Webpage", " ocean.example.org ")].

(** A record whose service name has no abbreviation. *)
Definition record_with_unknown_name : SourceRecord :=
  mkSource "id-3" "A new service" "a_new_service" "1.0" "Some notes" ["ocean"]
    [("ContactInformation:Main Contact Name", "Buurman, Merret");
     ("ContactInformation:Public Contact Name", "Kevin Balem")].

(** A record that names a main contact only. *)
Definition record_without_public_contact : SourceRecord :=
  mkSource "id-1" "Ocean Patterns" "oceanpatterns" "1.0" "Some notes" ["ocean"]
    [("ContactInformation:Main Contact Name", "Buurman, Merret")].

(** * The primary-key file of [integration.py]

    [write_id_to_file] and [get_eosc_id_from_file] keep the EOSC id of each
    Blue-Cloud id in the text file [PRIMARY_KEY_MAPPING_FILE].  The file is
    absent or holds its characters ([None] or [Some raw]); the time stamp
    [now] that the source reads from the clock is an argument.  The source
    opens the file in text mode: what is written is stored as it is, and
    what is read comes with universal newlines.  The debug records of this
    module are not represented. *)

Module KeyFile.

Definition file : Type := option string.

Definition LF : string := chr 10.

Definition is_LF (c : ascii) : bool := Ascii.eqb c (ascii_of_nat 10).
Definition is_CR (c : ascii) : bool := Ascii.eqb c (ascii_of_nat 13).

(** [fi.read()] of a file opened with the default [newline=None]: a
    carriage return followed by a line feed, and a lone carriage return, are
    read as one line feed. *)
Fixpoint read_text (raw : string) : string :=
  match raw with
  | EmptyString => EmptyString
  | String c rest =>
      if is_CR c then
        match rest with
        | String d _ => if is_LF d then read_text rest
                        else String (ascii_of_nat 10) (read_text rest)
        | EmptyString => String (ascii_of_nat 10) EmptyString
        end
      else String c (read_text rest)
  end.

(** [for line in fi]: the lines of the text, each with its line feed; the
    last one has none when the text does not end with one.  [cur] is the
    line being read. *)
Fixpoint lines_go (cur s : string) : list string :=
  match s with
  | EmptyString => if is_empty cur then [] else [cur]
  | String c rest =>
      if is_LF c then (cur ++ LF) :: lines_go EmptyString rest
      else lines_go (cur ++ String c EmptyString) rest
  end.

Definition lines (text : string) : list string := lines_go EmptyString text.

Definition header : string := "date;service_name;bluecloud_id;eosc_id;eosc_title".

(** [line = '%s;%s;%s;%s' % (service_name, blue_id, eosc_id, eosc_title)] *)
Definition entry (blue_id service_name eosc_id eosc_title : string) : string :=
  service_name ++ ";" ++ blue_id ++ ";" ++ eosc_id ++ ";" ++ eosc_title.

(** What [write_id_to_file] hands back: [False] for a missing EOSC id, and
    [None] from both other exits. *)
Inductive Written : Type := ReturnsFalse | ReturnsNone.

(** [write_id_to_file(blue_id, service_name, eosc_id, eosc_title)]; the
    header is written when the file is absent, before the entry is looked
    for. *)
Definition write_id_to_file (blue_id service_name : string)
    (eosc_id : option string) (eosc_title now : string) (f : file)
  : Written * file :=
  match eosc_id with
  | None => (ReturnsFalse, f)
  | Some eosc_id =>
      let raw := match f with
                 | None => header ++ LF
                 | Some raw => raw
                 end in
      let line := entry blue_id service_name eosc_id eosc_title in
      if PyStr.contains line (read_text raw) then (ReturnsNone, Some raw)
      else (ReturnsNone, Some (raw ++ now ++ ";" ++ line ++ LF))
  end.

(** [for line in fi: if line.split(';')[2] == blue_id: return
    line.split(';')[3].strip()]; a line with too few fields raises
    IndexError, which the source does not catch. *)
Fixpoint find_id (blue_id : string) (ls : list string) : exn + option string :=
  match ls with
  | [] => inr None
  | line :: rest =>
      let fields := PyStr.split line ";" in
      match nth_error fields 2 with
      | None => inl IndexError
      | Some third =>
          if third =? blue_id then
            match nth_error fields 3 with
            | None => inl IndexError
            | Some fourth => inr (Some (PyStr.strip fourth))
            end
          else find_id blue_id rest
      end
  end.

(** [get_eosc_id_from_file(blue_id)]; only FileNotFoundError is caught. *)
Definition get_eosc_id_from_file (blue_id : string) (f : file)
  : exn + option string :=
  match f with
  | None => inr None
  | Some raw => find_id blue_id (lines (read_text raw))
  end.

(** Every character of [s] passes the test [p]. *)
Fixpoint all_chars (p : ascii -> bool) (s : string) : bool :=
  match s with
  | EmptyString => true
  | String c rest => p c && all_chars p rest
  end.

(** A field of an entry that holds no semicolon and no line break. *)
Definition plain_char (c : ascii) : bool :=
  negb (Ascii.eqb c ";") && negb (is_LF c) && negb (is_CR c).

Definition plain (s : string) : bool := all_chars plain_char s.

(** A text without carriage returns. *)
Definition no_CR (s : string) : bool := all_chars (fun c => negb (is_CR c)) s.

(** What the two functions work on: the characters of the file, or the
    header line that [write_id_to_file] writes first into an absent file. *)
Definition content (f : file) : string :=
  match f with
  | None => header ++ LF
  | Some raw => raw
  end.

(** A file whose last line is complete: it is empty or ends with a line
    feed. *)
Fixpoint complete (raw : string) : bool :=
  match raw with
  | EmptyString => true
  | String c EmptyString => is_LF c
  | String _ rest => complete rest
  end.

End KeyFile.

(** * The EOSC catalogue client of [catalog_interaction_eosc.py]

    The client talks to two servers; here both are one function [server] of
    the world, from the requests sent so far and the next request to what
    [requests] hands back: a response, or no response at all (an exception
    of [requests]).  The module global [EOSC_ACCESS_TOKEN], the requests
    sent and the primary-key file form the state, which an exception leaves
    as it is.  The [while True] loop runs on fuel; [Diverges] stands for a
    loop that used it up.  The records written to [LOGGER] and the lines
    printed are not represented, but an exception raised while the text of
    a record is built is. *)

Module Eosc.

Local Set Warnings "-register-all".

(** The value of [resp.json()]. *)
Inductive Json : Type :=
  | JNull
  | JBool (b : bool)
  | JNum (z : Z)
  | JStr (s : string)
  | JArr (items : list Json)
  | JObj (members : list (string * Json)).

Inductive error : Type :=
  | RequestError                      (* [requests] raised: no response *)
  | JSONDecodeError                   (* [resp.json()] on a body that is not JSON *)
  | KeyError (key : string)
  | TypeError
  | AttributeError
  | NameError (name : string)
  | IndexError
  | RuntimeError_token (status : nat) (* 'Could not get new token (http %s): %s' *)
  | RuntimeError_tried (i : nat)      (* 'Not asking for a new token, as we tried %s times already!' *)
  | RuntimeError_status               (* [raise RuntimeError()] *)
  | ValueError_put (status : nat)     (* 'Could not put resource (%s): %s' *)
  | ValueError_post (status : nat).   (* 'Could not post resource (%s): %s' *)

(** What is sent along: the form of the token request, the metadata of a
    service with its ['id'], or nothing. *)
Inductive Payload : Type :=
  | NoData
  | TokenForm (refresh_token client_id : option string)
  | Metadata (md : Target.t) (id : option string).

Record Request : Type := mkRequest {
  http_verb : string;
  url : string;
  headers : dict;
  data : Payload
}.

Record Response : Type := mkResponse {
  status_code : nat;
  content : string;
  json : option Json
}.

Inductive Reply : Type :=
  | NoResponse
  | Responds (resp : Response).

(** [repr] is the text that Python gives for a number or a container of
    [resp.json()]; it is left open. *)
Record World : Type := mkWorld {
  server : list Request -> Request -> Reply;
  EOSC_CLIENT_ID : option string;
  EOSC_REFRESH_TOKEN : option string;
  clock : list Request -> string;
  repr : Json -> string
}.

(** [EOSC_ACCESS_TOKEN] is [JNull] while the global is [None]. *)
Record State : Type := mkState {
  EOSC_ACCESS_TOKEN : Json;
  sent : list Request;
  key_file : KeyFile.file
}.

Inductive Outcome (A : Type) : Type :=
  | Returns (a : A) (st : State)
  | Raises (e : error) (st : State)
  | Diverges.

Arguments Returns {A} a st.
Arguments Raises {A} e st.
Arguments Diverges {A}.

Definition M (A : Type) : Type := State -> Outcome A.

Definition ret {A} (a : A) : M A := fun st => Returns a st.

Definition bind {A B} (m : M A) (k : A -> M B) : M B :=
  fun st =>
    match m st with
    | Returns a st' => k a st'
    | Raises e st' => Raises e st'
    | Diverges => Diverges
    end.

Definition raise {A} (e : error) : M A := fun st => Raises e st.

Definition gets {A} (f : State -> A) : M A := fun st => Returns (f st) st.

Definition liftE {A} (r : error + A) : M A :=
  match r with
  | inl e => raise e
  | inr a => ret a
  end.

Declare Scope eosc_scope.
Delimit Scope eosc_scope with eosc.
Notation "x <- m ;; k" := (bind m (fun x => k))
  (at level 61, m at next level, right associativity) : eosc_scope.
Notation "m ;; k" := (bind m (fun _ => k))
  (at level 61, right associativity) : eosc_scope.
Local Open Scope eosc_scope.

(** [str(v)], as ['%s' % v] gives it. *)
Definition str (w : World) (v : Json) : string :=
  match v with
  | JStr s => s
  | JNull => "None"
  | JBool true => "True"
  | JBool false => "False"
  | _ => repr w v
  end.

(** [v[key]] for a string key. *)
Definition subscript (v : Json) (key : string) : error + Json :=
  match v with
  | JObj members =>
      match find (fun kv => fst kv =? key) members with
      | Some kv => inr (snd kv)
      | None => inl (KeyError key)
      end
  | _ => inl TypeError
  end.

(** [for item in v]: the items of a list, the keys of a dict, the
    characters of a string. *)
Definition items_of (v : Json) : error + list Json :=
  match v with
  | JArr items => inr items
  | JObj members => inr (map (fun kv => JStr (fst kv)) members)
  | JStr s => inr (map (fun c => JStr (String c EmptyString)) (list_ascii_of_string s))
  | _ => inl TypeError
  end.

(** [v == s] for a string [s]. *)
Definition is_str (v : Json) (s : string) : bool :=
  match v with
  | JStr t => t =? s
  | _ => false
  end.

(** [headers[key] = value] *)
Fixpoint set_header (key value : string) (h : dict) : dict :=
  match h with
  | [] => [(key, value)]
  | (k, v) :: rest =>
      if k =? key then (k, value) :: rest else (k, v) :: set_header key value rest
  end.

(** [requests.request(...)], [requests.get(...)] and [requests.post(...)] *)
Definition send (w : World) (q : Request) : M Response :=
  fun st =>
    let st' := mkState (EOSC_ACCESS_TOKEN st) (sent st ++ [q])%list (key_file st) in
    match server w (sent st) q with
    | NoResponse => Raises RequestError st'
    | Responds resp => Returns resp st'
    end.

(** [resp.json()] *)
Definition json_of (resp : Response) : M Json :=
  match json resp with
  | Some v => ret v
  | None => raise JSONDecodeError
  end.

Definition EOSC_REFRESH_URL : string := "https://aai.eosc-portal.eu/oidc/token".

Definition token_request (w : World) : Request :=
  mkRequest "POST" EOSC_REFRESH_URL []
            (TokenForm (EOSC_REFRESH_TOKEN w) (EOSC_CLIENT_ID w)).

(** [get_new_access_token()]; the global is assigned before the token is
    encoded for its md5 sum, which only a string can be. *)
Definition get_new_access_token (w : World) : M Json :=
  resp <- send w (token_request w) ;;
  if (status_code resp =? 200)%nat then
    body <- json_of resp ;;
    new_access_token <- liftE (subscript body "access_token") ;;
    (fun st => Returns tt (mkState new_access_token (sent st) (key_file st))) ;;
    match new_access_token with
    | JStr _ => ret new_access_token
    | _ => raise AttributeError
    end
  else raise (RuntimeError_token (status_code resp)).

(** The [while True] loop of [make_authorized_request]; [i] counts the
    requests made. *)
Fixpoint request_loop (w : World) (fuel i : nat) (q : Request) : M Response :=
  match fuel with
  | O => fun _ => Diverges
  | S fuel' =>
      let i := i + 1 in
      resp <- send w q ;;
      if ((status_code resp =? 200) || (status_code resp =? 201))%nat then ret resp
      else if (i <=? 1)%nat then
        get_new_access_token w ;;
        request_loop w fuel' i q
      else raise (RuntimeError_tried i)
  end.

(** [make_authorized_request(url, http_verb, headers, data)] *)
Definition make_authorized_request (w : World) (fuel : nat)
    (url http_verb : string) (headers : dict) (data : Payload) : M Response :=
  token <- gets EOSC_ACCESS_TOKEN ;;
  match token with
  | JNull => get_new_access_token w ;; ret tt
  | _ => ret tt
  end ;;
  token <- gets EOSC_ACCESS_TOKEN ;;
  let auth := "Bearer " ++ str w token in
  let headers := set_header "Authorization" auth headers in
  request_loop w fuel 0 (mkRequest http_verb url headers data).

Definition json_headers : dict :=
  [("Accept", "application/json"); ("Content-Type", "application/json")].

(** [update_resource(baseurl_eosc, session, service_metadata)] *)
Definition update_resource (w : World) (fuel : nat) (baseurl_eosc : string)
    (service_metadata : Payload) : M unit :=
  let url := PyStr.rstrip_chars (Ascii.eqb "/") baseurl_eosc ++ "/resource" in
  resp <- make_authorized_request w fuel url "PUT" json_headers service_metadata ;;
  if negb (status_code resp =? 201)%nat
  then raise (ValueError_put (status_code resp))
  else ret tt.

(** [create_resource(baseurl_eosc, session, service_metadata, blue_id)];
    the text of the first record of the 201 branch reads [name], which is
    neither a local nor a global of the module. *)
Definition create_resource (w : World) (fuel : nat) (baseurl_eosc : string)
    (service_metadata : Payload) (blue_id : string) : M Json :=
  let url := PyStr.rstrip_chars (Ascii.eqb "/") baseurl_eosc ++ "/resource" in
  resp <- make_authorized_request w fuel url "POST" json_headers service_metadata ;;
  if (status_code resp =? 201)%nat then
    @raise unit (NameError "name") ;;
    body <- json_of resp ;;
    eosc_id <- liftE (subscript body "id") ;;
    ret eosc_id
  else raise (ValueError_post (status_code resp)).

(** [does_resource_exist_by_id(baseurl_eosc, eosc_id, session)]; the second
    debug record reads [resp.json()]. *)
Definition does_resource_exist_by_id (w : World) (baseurl_eosc eosc_id : string)
  : M bool :=
  let url := baseurl_eosc ++ "/resource/" ++ eosc_id in
  resp <- send w (mkRequest "GET" url [("Accept", "application/json")] NoData) ;;
  json_of resp ;;
  if (status_code resp =? 200)%nat then ret true
  else if (status_code resp =? 404)%nat then ret false
  else raise RuntimeError_status.

(** The loop over the hits of [does_resource_exist_by_name]: both fields of
    an item are read, whichever branch is taken. *)
Fixpoint find_hit (name resourceOrganisation : string) (hits : list Json)
  : error + bool :=
  match hits with
  | [] => inr false
  | item :: rest =>
      match subscript item "name" with
      | inl e => inl e
      | inr item_name =>
          match subscript item "resourceOrganisation" with
          | inl e => inl e
          | inr item_organisation =>
              if is_str item_name name && is_str item_organisation resourceOrganisation
              then inr true
              else find_hit name resourceOrganisation rest
          end
      end
  end.

(** [does_resource_exist_by_name(baseurl_eosc, name, resourceOrganisation,
    session)] *)
Definition does_resource_exist_by_name (w : World)
    (baseurl_eosc name resourceOrganisation : string) : M bool :=
  let url := baseurl_eosc ++ "/resource/all?query=" ++ name in
  resp <- send w (mkRequest "GET" url [("Accept", "application/json")] NoData) ;;
  if (status_code resp =? 500)%nat then
    body <- json_of resp ;;
    liftE (subscript body "error") ;;
    ret false
  else
    body <- json_of resp ;;
    liftE (subscript body "total") ;;
    body <- json_of resp ;;
    results <- liftE (subscript body "results") ;;
    hits <- liftE (items_of results) ;;
    liftE (find_hit name resourceOrganisation hits).

(** ** [update_or_create_at_eosc] of [integration.py] *)

(** [get_eosc_id_from_file(blue_id)] on the file of the state. *)
Definition read_key_file (blue_id : string) : M (option string) :=
  fun st =>
    match KeyFile.get_eosc_id_from_file blue_id (key_file st) with
    | inl _ => Raises IndexError st
    | inr r => Returns r st
    end.

(** [write_id_to_file(blue_id, service_name, eosc_id, eosc_title)] on the
    file of the state, for the id that [create_resource] handed back. *)
Definition write_key_file (w : World) (blue_id service_name : string)
    (eosc_id : Json) (eosc_title : string) : M KeyFile.Written :=
  fun st =>
    let id := match eosc_id with
              | JNull => None
              | v => Some (str w v)
              end in
    let r := KeyFile.write_id_to_file blue_id service_name id eosc_title
               (clock w (sent st)) (key_file st) in
    Returns (fst r) (mkState (EOSC_ACCESS_TOKEN st) (sent st) (snd r)).

(** [update_or_create_at_eosc(service_name, baseurl_blue, baseurl_eosc,
    session, vre_name, eosc_service_metadata, dry_run)]; the result is the
    id handed back by the last branch, [None] from the other exits. *)
Definition update_or_create_at_eosc (w : World) (fuel : nat)
    (service_name baseurl_eosc : string) (eosc_service_metadata : Target.t)
    (dry_run : bool) : M (option Json) :=
  let blue_id := Target.blue_id eosc_service_metadata in
  eosc_id <- read_key_file blue_id ;;
  let eosc_title := Target.name eosc_service_metadata in
  if dry_run then ret None
  else
    does_exists <-
      match eosc_id with
      | Some id => does_resource_exist_by_id w baseurl_eosc id
      | None =>
          does_resource_exist_by_name w baseurl_eosc service_name
            (Target.resourceOrganisation eosc_service_metadata)
      end ;;
    if does_exists then
      update_resource w fuel baseurl_eosc (Metadata eosc_service_metadata eosc_id) ;;
      ret None
    else
      new_id <- create_resource w fuel baseurl_eosc
                  (Metadata eosc_service_metadata eosc_id) blue_id ;;
      write_key_file w blue_id service_name new_id eosc_title ;;
      ret (Some new_id).

(** [ends out P Q]: the call came to an end, with a result that satisfies
    [Q] or with an exception, in a state that satisfies [P]. *)
Definition ends {A} (out : Outcome A) (P : State -> Prop) (Q : A -> Prop)
  : Prop :=
  match out with
  | Returns a st' => P st' /\ Q a
  | Raises _ st' => P st'
  | Diverges => False
  end.

(** A world whose catalogue refuses the token in use (401) and whose token
    server hands out a new one on every request. *)
Definition refusing_world : World :=
  mkWorld
    (fun _ q =>
       if url q =? EOSC_REFRESH_URL
       then Responds (mkResponse 200 "{...}" (Some (JObj [("access_token", JStr "new")])))
       else Responds (mkResponse 401 "Unauthorized" None))
    (Some "client") (Some "refresh") (fun _ => "2022-06-13_17:31:09")
    (fun _ => "?").

(** A world whose catalogue creates what is posted (201). *)
Definition creating_world : World :=
  mkWorld
    (fun _ q =>
       if url q =? EOSC_REFRESH_URL
       then Responds (mkResponse 200 "{...}" (Some (JObj [("access_token", JStr "new")])))
       else if http_verb q =? "POST"
       then Responds (mkResponse 201 "{...}" (Some (JObj [("id", JStr "blue-cloud.oceanpatterns")])))
       else Responds (mkResponse 200 "{...}"
                        (Some (JObj [("total", JNum 0); ("results", JArr [])]))))
    (Some "client") (Some "refresh") (fun _ => "2022-06-13_17:31:09")
    (fun _ => "?").

Definition initial_state : State := mkState JNull [] None.

End Eosc.

(** * The vocabulary retrieval of [cv_retrieve.py]

    [get_cv_values] and [get_values_and_subvalues2] build the tables of the
    mapping from two responses of the vocabulary API.  The responses are
    taken as parsed and typed: each is the list of the items of
    [resp.json()], an item having a string ['id'], a string ['name'] and a
    ['parentId'] that is a string or null.  A dict is the list of its
    entries in insertion order.  The records written to [LOGGER] are not
    represented; the three files that [get_values_and_subvalues2] dumps
    are, by name and table. *)

Module CvRetrieve.

Record Item : Type := mkItem {
  id : string;
  name : string;
  parentId : option string
}.

(** [d[k] = v]: the value of an existing key is replaced where it stands,
    a new key goes to the end. *)
Fixpoint dict_set (k v : string) (d : dict) : dict :=
  match d with
  | [] => [(k, v)]
  | (k', v') :: rest =>
      if k' =? k then (k', v) :: rest else (k', v') :: dict_set k v rest
  end.

(** [for item in resp.json(): values[item['name'].lower()] = item['id']] *)
Definition get_cv_values (items : list Item) : dict :=
  fold_left (fun values item => dict_set (PyStr.lower (name item)) (id item) values)
            items [].

(** [for temp_mainname, temp_mainid in CV_main.items():
       if temp_mainid == parentid: key = temp_mainname+'.'+subname];
    [key] is the local of the function: it keeps its value when no main
    value has the parent id, and is unbound ([None]) until first
    assigned. *)
Definition find_key (CV_main : dict) (parentid subname : string)
    (key : option string) : option string :=
  fold_left (fun key kv => if snd kv =? parentid
                           then Some (fst kv ++ "." ++ subname)
                           else key)
            CV_main key.

Record SubState : Type := mkSubState {
  key : option string;
  CV_sub : dict;
  CV_mapping : dict
}.

(** The loop over the sub-values. *)
Fixpoint sub_loop (CV_main : dict) (items : list Item) (st : SubState)
  : exn + SubState :=
  match items with
  | [] => inr st
  | item :: rest =>
      match parentId item with
      | None => sub_loop CV_main rest st
      | Some parentid =>
          let subid := id item in
          let subname := PyStr.lower (name item) in
          match find_key CV_main parentid subname (key st) with
          | None => inl (UnboundLocalError "key")
          | Some k =>
              sub_loop CV_main rest
                (mkSubState (Some k) (dict_set k subid (CV_sub st))
                            (dict_set subid parentid (CV_mapping st)))
          end
      end
  end.

Record Tables : Type := mkTables {
  main : dict;
  sub : dict;
  mapping : dict;
  dumped : list (string * dict)
}.

(** [get_values_and_subvalues2(api_super, api_sub)], from the items of the
    two responses. *)
Definition get_values_and_subvalues2 (api_super : string)
    (main_items sub_items : list Item) : exn + Tables :=
  let CV_main := get_cv_values main_items in
  match sub_loop CV_main sub_items (mkSubState None [] []) with
  | inl e => inl e
  | inr st =>
      let stem := "_cv_" ++ PyStr.lower api_super in
      inr (mkTables CV_main (CV_sub st) (CV_mapping st)
             [(stem ++ "_mapping.json", CV_mapping st);
              (stem ++ ".json", CV_main);
              (stem ++ "_sub.json", CV_sub st)])
  end.

(** Two domains and three subdomains; the parent of the last one is not
    among the domains. *)
Definition sample_domains : list Item :=
  [mkItem "scientific_domain-generic" "Generic" None;
   mkItem "scientific_domain-natural_sciences" "Natural Sciences" None].

Definition sample_subdomains : list Item :=
  [mkItem "scientific_subdomain-generic-generic" "Generic"
     (Some "scientific_domain-generic");
   mkItem "scientific_subdomain-natural_sciences-earth_sciences"
     "Earth Sciences" (Some "scientific_domain-natural_sciences");
   mkItem "scientific_subdomain-humanities-arts" "Arts"
     (Some "scientific_domain-humanities")].

End CvRetrieve.

(** * Properties *)

(** ** Strings and lists *)

Lemma length_append (s1 s2 : string) :
  String.length (s1 ++ s2) = String.length s1 + String.length s2.
Proof.
  induction s1 as [|c s1 IH]; simpl; [reflexivity | now rewrite IH].
Qed.

Lemma length_slice_to (n : nat) (s : string) :
  n <= String.length s -> String.length (PyStr.slice_to n s) = n.
Proof.
  unfold PyStr.slice_to. revert s.
  induction n as [|n IH]; intros s Hn.
  - destruct s; reflexivity.
  - destruct s as [|c s]; simpl in *; [lia|].
    rewrite IH; [reflexivity | lia].
Qed.

Lemma append_empty_r (s : string) : s ++ EmptyString = s.
Proof. induction s as [|c s IH]; simpl; [reflexivity | now rewrite IH]. Qed.

Lemma append_snoc (s1 s2 : string) (c : ascii) :
  (s1 ++ String c EmptyString) ++ s2 = s1 ++ String c s2.
Proof. induction s1 as [|d s1 IH]; simpl; [reflexivity | now rewrite IH]. Qed.

Lemma split_go_without_separator (sep s : string) :
  forall cur,
    PyStr.contains sep s = false -> PyStr.split_go sep 0 cur s = [cur ++ s].
Proof.
  induction s as [|c s IH]; intros cur H.
  - simpl. now rewrite append_empty_r.
  - cbn [PyStr.contains] in H. apply orb_false_iff in H as [Hp Hc].
    cbn [PyStr.split_go]. rewrite Hp, (IH _ Hc), append_snoc. reflexivity.
Qed.

(** Splitting a string that does not contain the separator gives the string
    itself as the only piece. *)
Lemma split_without_separator (s sep : string) :
  PyStr.contains sep s = false -> PyStr.split s sep = [s].
Proof.
  intros H. unfold PyStr.split.
  now rewrite (split_go_without_separator sep s EmptyString H).
Qed.

Lemma messages_log_value (val : Logged) (name : string) (e : Eff) :
  messages (log_value val name e) = messages e.
Proof. unfold log_value. destruct (logged_len val =? 0)%nat; reflexivity. Qed.

Lemma py_in_In (x : string) (l : list string) : py_in x l = true <-> In x l.
Proof.
  induction l as [|y l IH]; simpl.
  - split; [discriminate | tauto].
  - rewrite orb_true_iff, IH, String.eqb_eq. intuition congruence.
Qed.

Lemma filter_same_length {A} (p : A -> bool) (l : list A) :
  List.length (filter p l) = List.length l -> filter p l = l.
Proof.
  induction l as [|x l IH]; simpl; [reflexivity|].
  destruct (p x); simpl; intros H.
  - f_equal. apply IH. lia.
  - pose proof (filter_length_le p l). lia.
Qed.

Lemma filter_idempotent {A} (p : A -> bool) (l : list A) :
  filter p (filter p l) = filter p l.
Proof.
  induction l as [|x l IH]; simpl; [reflexivity|].
  destruct (p x) eqn:E; simpl; [rewrite E, IH|]; auto.
Qed.

(** ** The name splitter *)

(** The splitter appends at most one entry to the accumulator it is given. *)
Lemma get_name_from_val_messages (val name : string) (e : Eff) :
  exists l, messages (snd (get_name_from_val val name e)) = (messages e ++ l)%list
            /\ List.length l <= 1.
Proof.
  unfold get_name_from_val.
  destruct (if PyStr.contains ", " val then _ else _) as [r|].
  - exists []. simpl. rewrite app_nil_r. auto.
  - set (e1 := if (0 <? String.length val)%nat then _ else e).
    assert (He1 : messages e1 = messages e).
    { subst e1. destruct (0 <? String.length val)%nat; reflexivity. }
    destruct (PyStr.split (PyStr.strip val) " ") as [|a [|b [|c [|d l]]]];
      simpl; try destruct (String.length val =? 0)%nat; simpl; rewrite ?He1;
      first [ exists []; rewrite app_nil_r; split; [reflexivity | simpl; lia]
            | eexists [_]; split; [reflexivity | simpl; lia] ].
Qed.

(** C7, as the code has it.  On every string the splitter returns a pair and
    appends at most one diagnostic; the four sample names split as stated;
    for a name of two words without a comma nothing is appended to the
    accumulator: the notice goes to the logger as one warning. *)
Theorem name_splitter_samples (name : string) (e : Eff) :
  (forall val, exists first last e',
      get_name_from_val val name e = ((first, last), e')
      /\ exists l, messages e' = (messages e ++ l)%list /\ List.length l <= 1)
  /\ get_name_from_val "Buurman, Merret" name e = (("Merret", "Buurman"), e)
  /\ get_name_from_val "Kevin Balem" name e
     = (("Kevin", "Balem"),
        mkEff (messages e)
              (log e ++ [(WARNING, NameNotCommaSeparated "Kevin Balem")])%list)
  /\ get_name_from_val "" name e = ((EmptyString, EmptyString), e)
  /\ get_name_from_val "Noteboom, Jan Willem" name e
     = (("Jan Willem", "Noteboom"), e).
Proof.
  split; [|repeat split; reflexivity].
  intros val. pose proof (get_name_from_val_messages val name e) as H.
  destruct (get_name_from_val val name e) as [[first last] e'].
  exists first, last, e'. split; [reflexivity | exact H].
Qed.

(** C7 as stated fails: splitting 'Kevin Balem' appends no diagnostic to the
    accumulator. *)
Lemma name_splitter_two_words_no_diagnostic :
  fst (get_name_from_val "Kevin Balem" "maincontact_name" no_eff)
  = ("Kevin", "Balem")
  /\ messages (snd (get_name_from_val "Kevin Balem" "maincontact_name" no_eff))
     = []
  /\ ~ (exists m,
          messages (snd (get_name_from_val "Kevin Balem" "maincontact_name" no_eff))
          = (messages no_eff ++ [m])%list).
Proof.
  repeat split. intros [m H]. discriminate H.
Qed.

(** ** The tag filter *)

Section TagFilter.

Variables targetUsersNames category_names domain_names : list string.

Let removed_tag := tag_removed targetUsersNames category_names domain_names.
Let kept_tag := fun item => negb (removed_tag item).

Lemma filter_loop_spec (todo new_tags removed : list string) :
  filter_loop targetUsersNames category_names domain_names todo new_tags removed
  = ((new_tags ++ filter kept_tag todo)%list,
     (removed ++ filter removed_tag todo)%list).
Proof.
  revert new_tags removed.
  induction todo as [|item rest IH]; intros new_tags removed; simpl.
  - now rewrite !app_nil_r.
  - unfold kept_tag, removed_tag in *.
    destruct (tag_removed targetUsersNames category_names domain_names item);
      simpl; rewrite IH, <- app_assoc; reflexivity.
Qed.

Lemma filter_tags_is_filter (tags : list string) :
  filter_tags targetUsersNames category_names domain_names tags
  = filter kept_tag tags.
Proof.
  unfold filter_tags. rewrite filter_loop_spec. simpl.
  destruct (Nat.eqb_spec (List.length tags) (List.length (filter kept_tag tags)))
    as [E|E]; simpl; [|reflexivity].
  symmetry. apply filter_same_length. congruence.
Qed.

Lemma tag_removed_iff (item : string) :
  removed_tag item = true
  <-> In item targetUsersNames \/ In item category_names \/ In item domain_names
      \/ PyStr.startswith item "Access Mode" = true
      \/ PyStr.startswith item "Access Type" = true.
Proof.
  unfold removed_tag, tag_removed.
  rewrite <- !py_in_In.
  destruct (py_in item targetUsersNames), (py_in item category_names),
    (py_in item domain_names), (PyStr.startswith item "Access Mode"),
    (PyStr.startswith item "Access Type"); simpl; intuition congruence.
Qed.

(** C9.  The tag filter is idempotent; its result is the sub-list, in the
    original order, of the tags that are not removed; and a tag is removed
    exactly when it equals a target-user, category or domain display name or
    starts with 'Access Mode' or 'Access Type'. *)
Theorem tag_filter_idempotent (tags : list string) :
  filter_tags targetUsersNames category_names domain_names
    (filter_tags targetUsersNames category_names domain_names tags)
  = filter_tags targetUsersNames category_names domain_names tags
  /\ filter_tags targetUsersNames category_names domain_names tags
     = filter (fun item =>
                 negb (tag_removed targetUsersNames category_names domain_names item))
              tags
  /\ forall item,
       tag_removed targetUsersNames category_names domain_names item = true
       <-> In item targetUsersNames \/ In item category_names
           \/ In item domain_names
           \/ PyStr.startswith item "Access Mode" = true
           \/ PyStr.startswith item "Access Type" = true.
Proof.
  split; [|split].
  - rewrite !filter_tags_is_filter. apply filter_idempotent.
  - apply filter_tags_is_filter.
  - apply tag_removed_iff.
Qed.

End TagFilter.

(** ** The monad *)

Lemma bind_Done {A B} (m : M A) (k : A -> M B) st b st' :
  bind m k st = Done b st'
  <-> exists a st1, m st = Done a st1 /\ k a st1 = Done b st'.
Proof.
  unfold bind. destruct (m st) as [e|a st1].
  - split; [discriminate | intros (? & ? & H & _); discriminate H].
  - split; [eauto | intros (? & ? & H & Hk); now inversion H; subst].
Qed.

Lemma bind_Raised_l {A B} (m : M A) (k : A -> M B) st e :
  m st = Raised e -> bind m k st = Raised e.
Proof. unfold bind. now intros ->. Qed.

Lemma bind_Done_l {A B} (m : M A) (k : A -> M B) st a st1 :
  m st = Done a st1 -> bind m k st = k a st1.
Proof. unfold bind. now intros ->. Qed.

(** ** The composite matcher *)

Lemma match_children_no_fallback (axis : Axis) (mapping : dict)
    (parent_ids child_ids : list string) :
  ((List.length parent_ids =? 1) && (List.length child_ids =? 1))%nat = false ->
  forall todo composites used st,
    Forall (fun sub => dict_get mapping sub <> None) todo ->
    exists used' st',
      match_children axis mapping parent_ids child_ids todo composites used st
      = Done ((composites ++ pairs_of_matching_children mapping parent_ids todo)%list,
              used') st'
      /\ messages (eff st') = messages (eff st).
Proof.
  intros Hone todo.
  induction todo as [|sub rest IH]; intros composites used st Hall.
  - exists used, st. simpl. rewrite app_nil_r. auto.
  - inversion Hall as [|? ? Hsub Hrest]; subst.
    destruct (dict_get mapping sub) as [main|] eqn:Hget; [|congruence].
    unfold pairs_of_matching_children. simpl. rewrite Hget.
    unfold bind at 1, lookup. rewrite Hget. unfold ret at 1.
    destruct (py_in main parent_ids) eqn:Hin.
    + unfold bind at 1, logm at 1, modify at 1.
      edestruct (IH (composites ++ [mkComposite main sub])%list
                    (used ++ [main])%list) as (used' & st' & -> & Hm);
        [exact Hrest|].
      exists used', st'. rewrite <- app_assoc. split; [reflexivity | exact Hm].
    + unfold bind at 1, logm at 1, modify at 1.
      unfold bind at 1, logm at 1, modify at 1.
      rewrite Hone.
      edestruct (IH composites used) as (used' & st' & -> & Hm); [exact Hrest|].
      exists used', st'. split; [reflexivity | exact Hm].
Qed.

Lemma report_unused_total (axis : Axis) (parent_ids used : list string) st :
  exists st', report_unused axis parent_ids used st = Done tt st'
              /\ messages (eff st') = messages (eff st)
              /\ (forall x, In x (log (eff st)) -> In x (log (eff st'))).
Proof.
  revert st. induction parent_ids as [|p rest IH]; intros st; simpl.
  - exists st. auto.
  - unfold bind at 1, when.
    destruct (negb (py_in p used)); simpl.
    + edestruct IH as (st' & -> & Hm & Hl). exists st'.
      split; [reflexivity|]. split; [exact Hm|].
      intros x Hx. apply Hl. simpl. apply in_or_app. now left.
    + apply IH.
Qed.

Lemma trace_composites_total (axis : Axis) (l : list Composite) st :
  exists st', trace_composites axis l st = Done tt st'
              /\ messages (eff st') = messages (eff st)
              /\ (forall x, In x (log (eff st)) -> In x (log (eff st'))).
Proof.
  revert st. induction l as [|c rest IH]; intros st; simpl.
  - exists st. auto.
  - unfold bind at 1, trace at 1, modify at 1.
    edestruct IH as (st' & -> & Hm & Hl). exists st'.
    split; [reflexivity|]. split; [exact Hm|].
    intros x Hx. apply Hl. simpl. apply in_or_app. now left.
Qed.

(** C4.  With exactly one parent id and one child id whose main id (by the
    mapping) is not that parent, the matcher returns exactly the pair of the
    sole parent and the sole child and produces a diagnostic: an error record
    about the mismatch, written to the logger ([collected_messages] is left as
    it was); with any other counts, the result is the pairs of the matching
    children only, so a mismatching child yields no pair. *)
Theorem composite_matcher_fallback (axis : Axis) (mapping : dict) :
  (forall p c main st,
      dict_get mapping c = Some main -> ~ In main [p] ->
      exists st',
        match_composites axis mapping [p] [c] st = Done [mkComposite p c] st'
        /\ In (ERROR, ParentNotFound axis main c) (log (eff st'))
        /\ messages (eff st') = messages (eff st))
  /\ (forall parent_ids child_ids st,
        ~ (List.length parent_ids = 1 /\ List.length child_ids = 1) ->
        Forall (fun sub => dict_get mapping sub <> None) child_ids ->
        exists st',
          match_composites axis mapping parent_ids child_ids st
          = Done (pairs_of_matching_children mapping parent_ids child_ids) st').
Proof.
  split.
  - intros p c main st Hget Hnot.
    assert (Hneq : (main =? p) = false).
    { apply String.eqb_neq. intros ->. apply Hnot. now left. }
    unfold match_composites. cbn [match_children].
    unfold bind, logm, modify, lookup, index, ret.
    rewrite Hget. cbn. rewrite Hneq. cbn.
    eexists. split; [reflexivity|]. split; [|reflexivity].
    cbn. rewrite !in_app_iff. simpl. tauto.
  - intros parent_ids child_ids st Hcount Hall.
    assert (Hone : ((List.length parent_ids =? 1)
                    && (List.length child_ids =? 1))%nat = false).
    { destruct (Nat.eqb_spec (List.length parent_ids) 1);
        destruct (Nat.eqb_spec (List.length child_ids) 1); simpl; tauto. }
    unfold match_composites.
    unfold bind at 1, logm at 1, modify at 1.
    unfold bind at 1, logm at 1, modify at 1.
    unfold bind at 1.
    match goal with
    | |- context [match_children axis mapping parent_ids child_ids child_ids [] [] ?s] =>
        destruct (match_children_no_fallback axis mapping parent_ids child_ids
                    Hone child_ids [] [] s Hall) as (used' & st1 & -> & _)
    end.
    simpl fst. simpl snd. unfold bind at 1.
    destruct (report_unused_total axis parent_ids used' st1) as (st2 & -> & _ & _).
    unfold bind at 1.
    destruct (trace_composites_total axis
                (pairs_of_matching_children mapping parent_ids child_ids) st2)
      as (st3 & -> & _ & _).
    exists st3. reflexivity.
Qed.

Lemma composite_matcher_fallback_witness :
  (exists st',
      match_composites Domains CV_DOM_MAPPING [generic_domain]
        [other_natural_sciences] fresh
      = Done [mkComposite generic_domain other_natural_sciences] st'
      /\ In (ERROR, ParentNotFound Domains "scientific_domain-natural_sciences"
                      other_natural_sciences) (log (eff st'))
      /\ messages (eff st') = messages (eff fresh))
  /\ (exists st',
        match_composites Domains CV_DOM_MAPPING []
          [other_natural_sciences] fresh
        = Done (pairs_of_matching_children CV_DOM_MAPPING []
                  [other_natural_sciences]) st').
Proof.
  split.
  - apply (proj1 (composite_matcher_fallback Domains CV_DOM_MAPPING)).
    + vm_compute. reflexivity.
    + simpl. intros [H|[]]. discriminate H.
  - apply (proj2 (composite_matcher_fallback Domains CV_DOM_MAPPING)).
    + simpl. intros [H _]. discriminate H.
    + constructor; [|constructor]. vm_compute. discriminate.
Defined.

(** The parent tables of the engine know every sub id the vocabularies can
    produce, so the matchers of the engine do not raise. *)
Lemma parent_tables_cover_vocabularies :
  covers CV_DOM_MAPPING CV_SUBDOM = true /\ covers CV_CAT_MAPPING CV_SUBCAT = true.
Proof. split; vm_compute; reflexivity. Qed.

(** The fallback pair reaches the target record. *)
Lemma mismatching_subdomain_in_target :
  exists target st,
    extract_bluecloud_metadata record_with_mismatching_subdomain
    = Done (ReturnsTarget target) st
    /\ Target.scientificDomains target
       = [mkComposite generic_domain other_natural_sciences]
    /\ messages (eff st) = [].
Proof.
  eexists. eexists. split; [vm_compute; reflexivity|]. split; reflexivity.
Qed.

(** ** The resource organisation *)

(** C8, as the code has it.  The handler never raises.  With [v] the value
    stripped of surrounding whitespace: 'blue-cloud' is kept and nothing is
    appended to the diagnostics; 'Blue-Cloud' becomes 'blue-cloud', the
    correction is written to the logger at debug level and nothing is appended
    to the diagnostics; an empty [v] is kept and one diagnostic is appended;
    any other [v] is replaced by 'blue-cloud' and two diagnostics are appended,
    the first recording the replaced value. *)
Theorem resource_organisation_cases (value : string) (st : Locals) :
  let v := PyStr.strip value in
  exists st',
    extras_Resource_Organisation value st = Done tt st'
    /\ (v = "blue-cloud" ->
          resourceOrganisation st' = "blue-cloud"
          /\ messages (eff st') = messages (eff st))
    /\ (v = "Blue-Cloud" ->
          resourceOrganisation st' = "blue-cloud"
          /\ messages (eff st') = messages (eff st)
          /\ In (DEBUG, OrganisationCorrected v) (log (eff st')))
    /\ (v = EmptyString ->
          resourceOrganisation st' = EmptyString
          /\ messages (eff st')
             = (messages (eff st) ++ [ResourceOrganisationEmpty])%list)
    /\ (v <> "blue-cloud" -> v <> "Blue-Cloud" -> v <> EmptyString ->
          resourceOrganisation st' = "blue-cloud"
          /\ messages (eff st')
             = (messages (eff st)
                ++ [ResourceOrganisationReplaced v;
                    ResourceOrganisationMoveQuestion])%list).
Proof.
  intros v. unfold extras_Resource_Organisation. fold v.
  destruct (String.eqb_spec v "blue-cloud") as [E1|E1].
  { eexists. split; [reflexivity|]. rewrite E1.
    repeat split; try discriminate; try congruence. }
  destruct (String.eqb_spec v "Blue-Cloud") as [E2|E2].
  { eexists. split; [reflexivity|]. rewrite E2.
    repeat split; try discriminate; try congruence.
    cbn. rewrite !in_app_iff. simpl. tauto. }
  unfold is_empty.
  destruct v as [|c v'] eqn:Ev.
  { eexists. split; [reflexivity|]. repeat split; try discriminate; congruence. }
  eexists. split; [reflexivity|].
  repeat split; try discriminate; try congruence.
  cbn. now rewrite <- app_assoc.
Qed.

Lemma resource_organisation_cases_witness :
  exists st',
    extras_Resource_Organisation "Some Other Org" fresh = Done tt st'
    /\ resourceOrganisation st' = "blue-cloud"
    /\ messages (eff st')
       = [ResourceOrganisationReplaced "Some Other Org";
          ResourceOrganisationMoveQuestion].
Proof.
  destruct (resource_organisation_cases "Some Other Org" fresh)
    as (st' & Hrun & _ & _ & _ & Hother).
  exists st'. split; [exact Hrun|].
  apply Hother; vm_compute; discriminate.
Defined.

(** C8 as stated fails on 'Blue-Cloud': the value is normalised, and the
    diagnostics list stays empty. *)
Lemma resource_organisation_alternate_casing_not_recorded :
  exists st',
    extras_Resource_Organisation "Blue-Cloud" fresh = Done tt st'
    /\ resourceOrganisation st' = "blue-cloud"
    /\ messages (eff st') = [].
Proof.
  eexists. split; [reflexivity|]. split; reflexivity.
Qed.

(** ** Locals that a computation leaves alone *)

Section Keeps.

Context {X : Type} (proj : Locals -> X).

Lemma keeps_ret {A} (a : A) : keeps proj (ret a).
Proof. intros st b st' H. now inversion H. Qed.

Lemma keeps_raise {A} (e : exn) : keeps proj (@raise A e).
Proof. intros st b st' H. discriminate H. Qed.

Lemma keeps_bind {A B} (m : M A) (k : A -> M B) :
  keeps proj m -> (forall a, keeps proj (k a)) -> keeps proj (bind m k).
Proof.
  intros Hm Hk st b st' H. apply bind_Done in H as (a & st1 & H1 & H2).
  rewrite (Hk _ _ _ _ H2). exact (Hm _ _ _ H1).
Qed.

Lemma keeps_gets {A} (f : Locals -> A) : keeps proj (gets f).
Proof. intros st b st' H. now inversion H. Qed.

Lemma keeps_modify (f : Locals -> Locals) :
  (forall st, proj (f st) = proj st) -> keeps proj (modify f).
Proof. intros Hf st b st' H. inversion H. apply Hf. Qed.

Lemma keeps_liftE {A} (f : Eff -> A * Eff) :
  (forall e st, proj (set_eff e st) = proj st) -> keeps proj (liftE f).
Proof.
  intros Hf st b st' H. unfold liftE in H.
  destruct (f (eff st)) as [a e]. inversion H. apply Hf.
Qed.

Lemma keeps_read_local (var : string) (p : Locals -> option string) :
  keeps proj (read_local var p).
Proof.
  intros st b st' H. unfold read_local in H.
  destruct (p st); now inversion H.
Qed.

Lemma keeps_read_item : keeps proj read_item.
Proof.
  intros st b st' H. unfold read_item in H.
  destruct (item st); now inversion H.
Qed.

Lemma keeps_lookup (cv : dict) (key : string) : keeps proj (lookup cv key).
Proof.
  unfold lookup. destruct (dict_get cv key); [apply keeps_ret | apply keeps_raise].
Qed.

Lemma keeps_index (l : list string) (i : nat) : keeps proj (index l i).
Proof.
  unfold index. destruct (nth_error l i); [apply keeps_ret | apply keeps_raise].
Qed.

Lemma keeps_unpack2 (l : list string) : keeps proj (unpack2 l).
Proof.
  unfold unpack2. destruct l as [|a [|b [|c l]]];
    first [apply keeps_ret | apply keeps_raise].
Qed.

Lemma keeps_when (b : bool) (m : M unit) : keeps proj m -> keeps proj (when b m).
Proof. destruct b; [auto | intros _; apply keeps_ret]. Qed.

Lemma keeps_if_eqb {A} (k s : string) (a b : M A) :
  (k = s -> keeps proj a) -> (k <> s -> keeps proj b) ->
  keeps proj (if String.eqb k s then a else b).
Proof. destruct (String.eqb_spec k s); auto. Qed.

End Keeps.

(** One step of a proof of [keeps]: the side conditions on assignments hold
    by computation when the assigned local is not the one read by the
    projection. *)
Ltac keeps_step :=
  lazymatch goal with
  | |- keeps _ (bind _ _) => apply keeps_bind; [|intros ?]
  | |- keeps _ (ret _) => apply keeps_ret
  | |- keeps _ (raise _) => apply keeps_raise
  | |- keeps _ (gets _) => apply keeps_gets
  | |- keeps _ (modify _) => apply keeps_modify; intros; reflexivity
  | |- keeps _ (say _) => apply keeps_modify; intros; reflexivity
  | |- keeps _ (logm _ _) => apply keeps_modify; intros; reflexivity
  | |- keeps _ (trace _ _) => apply keeps_modify; intros; reflexivity
  | |- keeps _ (liftE _) => apply keeps_liftE; intros; reflexivity
  | |- keeps _ (check _) => unfold check
  | |- keeps _ (read_local _ _) => apply keeps_read_local
  | |- keeps _ read_item => apply keeps_read_item
  | |- keeps _ (lookup _ _) => apply keeps_lookup
  | |- keeps _ (index _ _) => apply keeps_index
  | |- keeps _ (unpack2 _) => apply keeps_unpack2
  | |- keeps _ (when _ _) => apply keeps_when
  | |- keeps _ (if ?b then _ else _) => destruct b
  | |- keeps _ (match ?x with _ => _ end) => destruct x
  end.

Ltac keeps_auto := cbv zeta; repeat keeps_step.

(** The handlers whose assignments go through a setter given as argument. *)
Ltac unfold_handlers :=
  unfold url_field, string_field, email_field, cv_list_field, text_list_field,
    extras_Geographical_Availability, extras_Language_Availability,
    availability_field, extras_Resource_Organisation, extras_Resource_Provider,
    extras_Scientific_Domain, extras_Scientific_Subdomain, extras_Category,
    extras_Subcategory, extras_Target_User, extras_Resource_Geographic_Location,
    extras_Main_Contact_Name, extras_Main_Contact_Organisation,
    extras_Public_Contact_Name, extras_Technology_Readiness_Level,
    extras_Life_Cycle_Status, extras_Last_Update, extras_Catalogue,
    extras_Service_Level, extras_Order_Type, url_field.

(** A handler other than the one of [key0] keeps the local [proj], provided
    every handler but that one does. *)
Ltac keeps_dispatch Hkey :=
  unfold handle_extra;
  repeat lazymatch goal with
    | |- keeps _ (if String.eqb _ _ then _ else _) =>
        apply keeps_if_eqb;
        [ intros ?; try (exfalso; apply Hkey; assumption);
          unfold_handlers; keeps_auto
        | intros _ ]
    end;
  try apply keeps_ret.

Ltac keeps_dispatch_all :=
  unfold handle_extra;
  repeat lazymatch goal with
    | |- keeps _ (if String.eqb _ _ then _ else _) =>
        apply keeps_if_eqb; [ intros _; unfold_handlers; keeps_auto | intros _ ]
    end;
  try apply keeps_ret.

Lemma handle_extra_keeps_maincontact_name (key value : string) :
  key <> "ContactInformation:Main Contact Name" ->
  keeps maincontact_name (handle_extra key value).
Proof. intros Hkey. keeps_dispatch Hkey. Qed.

Lemma handle_extra_keeps_multimedia_url (key value : string) :
  key <> "MarketingInformation:Multimedia" ->
  keeps multimedia_url (handle_extra key value).
Proof. intros Hkey. keeps_dispatch Hkey. Qed.

Lemma handle_extra_keeps_use_case_url (key value : string) :
  key <> "MarketingInformation:Use Case" ->
  keeps use_case_url (handle_extra key value).
Proof. intros Hkey. keeps_dispatch Hkey. Qed.

Lemma handle_extra_keeps_item (key value : string) :
  keeps item (handle_extra key value).
Proof. keeps_dispatch_all. Qed.

Lemma handle_extra_keeps_description (key value : string) :
  keeps description (handle_extra key value).
Proof. keeps_dispatch_all. Qed.

(** ** The loops *)

Section Loops.

Context {X : Type} (proj : Locals -> X).
Hypothesis proj_set_item : forall it st, proj (set_item it st) = proj st.
Hypothesis proj_set_tags : forall l st, proj (set_tags l st) = proj st.
Hypothesis proj_set_eff : forall e st, proj (set_eff e st) = proj st.

Lemma collect_tags_keeps (l : list string) : keeps proj (collect_tags l).
Proof.
  induction l as [|display_name rest IH]; simpl.
  - apply keeps_ret.
  - apply keeps_bind; [apply keeps_modify; intros; apply proj_set_item|intros _].
    apply keeps_bind; [apply keeps_modify; intros; apply proj_set_tags|intros _].
    apply keeps_bind; [|intros _; exact IH].
    unfold check. apply keeps_bind; [|intros _; apply keeps_ret].
    apply keeps_liftE. exact proj_set_eff.
Qed.

Lemma iterate_extras_keeps (extras : list (string * string)) :
  (forall key value, In (key, value) extras -> keeps proj (handle_extra key value)) ->
  keeps proj (iterate_extras extras).
Proof.
  induction extras as [|[key value] rest IH]; intros Hall; simpl.
  - apply keeps_ret.
  - apply keeps_bind; [apply keeps_modify; intros; apply proj_set_item|intros _].
    apply keeps_bind; [apply Hall; now left|intros _].
    apply IH. intros k v Hin. apply Hall. now right.
Qed.

End Loops.

Lemma iterate_extras_effective (proj : Locals -> string) (field : string) :
  (forall it st, proj (set_item it st) = proj st) ->
  (forall key value, key <> field -> keeps proj (handle_extra key value)) ->
  (forall value st a st',
      handle_extra field value st = Done a st' -> proj st' = PyStr.strip value) ->
  forall extras st a st',
    iterate_extras extras st = Done a st' ->
    proj st' = effective_value field extras (proj st).
Proof.
  intros Hitem Hother Hfield extras.
  induction extras as [|[key value] rest IH]; intros st a st' H; simpl in H.
  - now inversion H.
  - apply bind_Done in H as (? & st1 & H1 & H).
    apply bind_Done in H as (? & st2 & H2 & H).
    inversion H1; subst st1. clear H1.
    rewrite (IH _ _ _ H). unfold effective_value. simpl. f_equal.
    destruct (String.eqb_spec key field) as [->|Hne].
    + now rewrite (Hfield _ _ _ _ H2).
    + rewrite (Hother _ _ Hne _ _ _ H2). apply Hitem.
Qed.

Lemma url_field_assigns (proj : Locals -> string)
    (assign : string -> Locals -> Locals) (name : string) (mandatory : bool) :
  (forall v st, proj (assign v st) = v) ->
  (forall e st, proj (set_eff e st) = proj st) ->
  forall value st a st',
    url_field assign name mandatory value st = Done a st' ->
    proj st' = PyStr.strip value.
Proof.
  intros Hassign Heff value st a st' H. unfold url_field in H.
  apply bind_Done in H as (? & st1 & H1 & H).
  inversion H1; subst st1. clear H1.
  assert (K : keeps proj (check (check_is_url (PyStr.strip value) name mandatory) ;;
                          trace (LStr (PyStr.strip value)) name)).
  { apply keeps_bind; [|intros _; apply keeps_modify; intros; apply Heff].
    unfold check. apply keeps_bind; [|intros _; apply keeps_ret].
    apply keeps_liftE. exact Heff. }
  rewrite (K _ _ _ H). apply Hassign.
Qed.

Lemma multimedia_url_after_loop extras st a st' :
  iterate_extras extras st = Done a st' ->
  multimedia_url st'
  = effective_value "MarketingInformation:Multimedia" extras (multimedia_url st).
Proof.
  apply (iterate_extras_effective multimedia_url).
  - reflexivity.
  - apply handle_extra_keeps_multimedia_url.
  - apply (url_field_assigns multimedia_url set_multimedia_url); reflexivity.
Qed.

Lemma use_case_url_after_loop extras st a st' :
  iterate_extras extras st = Done a st' ->
  use_case_url st'
  = effective_value "MarketingInformation:Use Case" extras (use_case_url st).
Proof.
  apply (iterate_extras_effective use_case_url).
  - reflexivity.
  - apply handle_extra_keeps_use_case_url.
  - apply (url_field_assigns use_case_url set_use_case_url); reflexivity.
Qed.

Lemma item_after_loop extras st a st' :
  iterate_extras extras st = Done a st' ->
  extras <> [] -> exists it, item st' = Some it.
Proof.
  revert st a st'.
  induction extras as [|[key value] rest IH]; intros st a st' H Hne;
    [congruence|].
  simpl in H.
  apply bind_Done in H as (? & st1 & H1 & H).
  apply bind_Done in H as (? & st2 & H2 & H).
  inversion H1; subst st1. clear H1.
  destruct rest as [|kv rest'].
  - inversion H; subst. rewrite (handle_extra_keeps_item _ _ _ _ _ H2).
    eexists. reflexivity.
  - eapply IH; [exact H | discriminate].
Qed.

Lemma extract_direct_keeps {X} (proj : Locals -> X) (md : SourceRecord) :
  (forall it st, proj (set_item it st) = proj st) ->
  (forall l st, proj (set_tags l st) = proj st) ->
  (forall e st, proj (set_eff e st) = proj st) ->
  (forall v st, proj (set_blue_id v st) = proj st) ->
  (forall v st, proj (set_eosc_name v st) = proj st) ->
  (forall v st, proj (set_bc_name v st) = proj st) ->
  (forall v st, proj (set_abbreviation v st) = proj st) ->
  (forall v st, proj (set_version v st) = proj st) ->
  (forall v st, proj (set_description v st) = proj st) ->
  keeps proj (extract_direct md).
Proof.
  intros Hitem Htags Heff H1 H2 H3 H4 H5 H6. unfold extract_direct.
  repeat first
    [ apply collect_tags_keeps; assumption
    | apply keeps_bind; [|intros ?]
    | apply keeps_modify; intros; solve [auto | rewrite Heff; reflexivity]
    | apply keeps_lookup
    | apply keeps_gets
    | apply keeps_when
    | apply keeps_ret
    | progress unfold check
    | apply keeps_liftE; assumption ].
Qed.

(** ** Placeholder values and unbound contact names *)

Lemma construct_multimedia_placeholder st it :
  multimedia_url st = "www.mymedia.org" -> item st = Some it ->
  construct_multimedia st = Raised (ValueError_placeholder "multimedia").
Proof.
  intros Hurl Hitem. unfold construct_multimedia.
  unfold bind at 1, gets at 1. rewrite Hurl.
  unfold bind, modify, read_item. simpl. rewrite Hitem. reflexivity.
Qed.

Lemma construct_multimedia_passes st :
  multimedia_url st <> "www.mymedia.org" ->
  exists st', construct_multimedia st = Done tt st'
              /\ use_case_url st' = use_case_url st
              /\ item st' = item st
              /\ maincontact_name st' = maincontact_name st.
Proof.
  intros Hurl. apply String.eqb_neq in Hurl. unfold construct_multimedia.
  unfold bind at 1, gets at 1. rewrite Hurl.
  unfold bind, gets, ret, when, modify, trace.
  destruct (negb (is_empty (multimedia_url st) && is_empty (multimedia_name st)));
    eexists; repeat split; reflexivity.
Qed.

Lemma construct_useCases_placeholder st it :
  use_case_url st = "www.ausecase.org" -> item st = Some it ->
  construct_useCases st = Raised (ValueError_placeholder "use_case_url").
Proof.
  intros Hurl Hitem. unfold construct_useCases.
  unfold bind at 1, gets at 1. rewrite Hurl.
  unfold bind, modify, read_item. simpl. rewrite Hitem. reflexivity.
Qed.

Lemma construct_multimedia_keeps_maincontact_name :
  keeps maincontact_name construct_multimedia.
Proof. unfold construct_multimedia. keeps_auto. Qed.

Lemma construct_useCases_keeps_maincontact_name :
  keeps maincontact_name construct_useCases.
Proof. unfold construct_useCases. keeps_auto. Qed.

Lemma construct_contacts_unbound st :
  maincontact_name st = None ->
  forall A (k : unit -> M A),
    bind construct_contacts k st = Raised (UnboundLocalError "maincontact_name").
Proof.
  intros Hname A k. unfold construct_contacts, bind, read_local.
  now rewrite Hname.
Qed.

Lemma collect_keeps_maincontact_name (md : SourceRecord) :
  ~ In "ContactInformation:Main Contact Name" (map fst (md_extras md)) ->
  keeps maincontact_name (collect md).
Proof.
  intros Hkey. unfold collect. apply keeps_bind; [|intros _].
  - apply extract_direct_keeps; reflexivity.
  - apply iterate_extras_keeps; try reflexivity.
    intros key value Hin. apply handle_extra_keeps_maincontact_name.
    intros ->. apply Hkey. change "ContactInformation:Main Contact Name"
      with (fst ("ContactInformation:Main Contact Name", value)).
    now apply in_map.
Qed.

(** C10.  A record whose extras have no 'ContactInformation:Main Contact Name'
    entry is never mapped: the call raises, and when the statements before the
    construction of the contacts complete, the exception is the unbound local
    [maincontact_name]. *)
Theorem main_contact_name_required (md : SourceRecord) :
  ~ In "ContactInformation:Main Contact Name" (map fst (md_extras md)) ->
  exists e,
    extract_bluecloud_metadata md = Raised e
    /\ (forall st, before_contacts md fresh = Done tt st ->
                   e = UnboundLocalError "maincontact_name").
Proof.
  intros Hkey.
  pose proof (collect_keeps_maincontact_name md Hkey) as Kc.
  unfold extract_bluecloud_metadata, run, before_contacts, assemble.
  destruct (collect md fresh) as [e|[] st0] eqn:Hc.
  { exists e. rewrite !(bind_Raised_l _ _ _ _ Hc).
    split; [reflexivity | discriminate]. }
  rewrite !(bind_Done_l _ _ _ _ _ Hc).
  assert (H0 : maincontact_name st0 = None) by exact (Kc _ _ _ Hc).
  destruct (construct_multimedia st0) as [e|[] st1] eqn:Hm.
  { exists e. rewrite !(bind_Raised_l _ _ _ _ Hm).
    split; [reflexivity | discriminate]. }
  rewrite !(bind_Done_l _ _ _ _ _ Hm).
  assert (H1 : maincontact_name st1 = None).
  { rewrite (construct_multimedia_keeps_maincontact_name _ _ _ Hm). exact H0. }
  destruct (construct_useCases st1) as [e|[] st2] eqn:Hu.
  { exists e. rewrite !(bind_Raised_l _ _ _ _ Hu).
    split; [reflexivity | discriminate]. }
  rewrite !(bind_Done_l _ _ _ _ _ Hu).
  assert (H2 : maincontact_name st2 = None).
  { rewrite (construct_useCases_keeps_maincontact_name _ _ _ Hu). exact H1. }
  rewrite (construct_contacts_unbound st2 H2).
  eexists. split; reflexivity.
Qed.

Lemma main_contact_name_required_witness :
  exists e,
    extract_bluecloud_metadata record_without_extras = Raised e
    /\ (forall st, before_contacts record_without_extras fresh = Done tt st ->
                   e = UnboundLocalError "maincontact_name").
Proof.
  apply (main_contact_name_required record_without_extras).
  simpl. tauto.
Defined.

Lemma collect_Done (md : SourceRecord) st :
  collect md fresh = Done tt st ->
  multimedia_url st
  = effective_value "MarketingInformation:Multimedia" (md_extras md) EmptyString
  /\ use_case_url st
     = effective_value "MarketingInformation:Use Case" (md_extras md) EmptyString
  /\ (md_extras md <> [] -> exists it, item st = Some it).
Proof.
  intros H. unfold collect in H.
  apply bind_Done in H as ([] & st0 & Hd & Hl).
  assert (Hm : multimedia_url st0 = EmptyString).
  { apply (extract_direct_keeps multimedia_url md) in Hd; auto. }
  assert (Hu : use_case_url st0 = EmptyString).
  { apply (extract_direct_keeps use_case_url md) in Hd; auto. }
  split; [|split].
  - rewrite (multimedia_url_after_loop _ _ _ _ Hl), Hm. reflexivity.
  - rewrite (use_case_url_after_loop _ _ _ _ Hl), Hu. reflexivity.
  - apply (item_after_loop _ _ _ _ Hl).
Qed.

(** C2, as the code has it.  When a placeholder value is in effect the call
    raises and returns nothing; if the statements up to the end of the extras
    loop complete, the exception is the ValueError raised on the
    placeholder. *)
Theorem placeholder_stops_the_mapping (md : SourceRecord) :
  placeholder_in_effect md = true ->
  exists e,
    extract_bluecloud_metadata md = Raised e
    /\ (forall st, collect md fresh = Done tt st ->
                   exists field, e = ValueError_placeholder field).
Proof.
  intros Hp. unfold extract_bluecloud_metadata, run.
  destruct (collect md fresh) as [e|[] st0] eqn:Hc.
  { exists e. rewrite (bind_Raised_l _ _ _ _ Hc).
    split; [reflexivity | discriminate]. }
  rewrite (bind_Done_l _ _ _ _ _ Hc).
  destruct (collect_Done md st0 Hc) as (Hm & Hu & Hitem).
  assert (Hne : md_extras md <> []).
  { intros E. unfold placeholder_in_effect in Hp. rewrite E in Hp.
    discriminate Hp. }
  destruct (Hitem Hne) as [it Hit].
  unfold assemble.
  destruct (String.eqb_spec (multimedia_url st0) "www.mymedia.org") as [Em|Em].
  - exists (ValueError_placeholder "multimedia"). split.
    + apply bind_Raised_l. now apply construct_multimedia_placeholder with it.
    + intros st _. eexists. reflexivity.
  - destruct (construct_multimedia_passes st0 Em) as (st1 & Hrun & Hu1 & Hit1 & _).
    rewrite (bind_Done_l _ _ _ _ _ Hrun).
    exists (ValueError_placeholder "use_case_url"). split.
    + apply bind_Raised_l. apply construct_useCases_placeholder with it.
      * unfold placeholder_in_effect in Hp. rewrite <- Hm, <- Hu in Hp.
        apply String.eqb_neq in Em. rewrite Em in Hp. simpl in Hp.
        apply String.eqb_eq in Hp. congruence.
      * congruence.
    + intros st _. eexists. reflexivity.
Qed.

Lemma placeholder_stops_the_mapping_witness :
  exists e,
    extract_bluecloud_metadata record_with_placeholder = Raised e
    /\ (forall st, collect record_with_placeholder fresh = Done tt st ->
                   exists field, e = ValueError_placeholder field).
Proof.
  apply (placeholder_stops_the_mapping record_with_placeholder).
  vm_compute. reflexivity.
Defined.

(** C2 as stated fails in both directions: a record free of placeholder
    values raises (KeyError on the unknown domain), and a record that holds a
    placeholder value is mapped without an exception when a later entry
    overwrites it. *)
Lemma placeholder_is_not_the_only_stop :
  (placeholder_present record_with_unknown_domain = false
   /\ extract_bluecloud_metadata record_with_unknown_domain
      = Raised (KeyError "astrology"))
  /\ (placeholder_present record_with_overwritten_placeholder = true
      /\ exists r st,
           extract_bluecloud_metadata record_with_overwritten_placeholder
           = Done r st).
Proof.
  split; split; try (vm_compute; reflexivity).
  eexists. eexists. vm_compute. reflexivity.
Qed.

(** ** What the entry point returns *)

Lemma print_each_spec (l : list Msg) st :
  exists st',
    print_each l st = Done tt st'
    /\ messages (eff st') = messages (eff st)
    /\ (forall x, In x (log (eff st)) -> In x (log (eff st')))
    /\ (forall m, In m l -> In (WARNING, Collected m) (log (eff st'))).
Proof.
  revert st. induction l as [|m rest IH]; intros st; simpl.
  - exists st. repeat split; auto. intros m [].
  - unfold bind at 1, logm at 1, modify at 1.
    edestruct IH as (st' & -> & Hm & Hl & Hc). exists st'.
    split; [reflexivity|]. split; [exact Hm|]. split.
    + intros x Hx. apply Hl. simpl. apply in_or_app. now left.
    + intros m' [<-|Hin]; [|now apply Hc].
      apply Hl. simpl. apply in_or_app. right. now left.
Qed.

Lemma print_collected_spec st :
  exists st',
    print_collected st = Done tt st'
    /\ messages (eff st') = messages (eff st)
    /\ (forall x, In x (log (eff st)) -> In x (log (eff st')))
    /\ (forall m, In m (messages (eff st)) ->
                  In (WARNING, Collected m) (log (eff st'))).
Proof.
  unfold print_collected.
  unfold bind at 1, logm at 1, modify at 1.
  unfold bind at 1, gets at 1. unfold bind at 1.
  match goal with
  | |- context [print_each ?l ?s] =>
      destruct (print_each_spec l s) as (st1 & -> & Hm & Hl & Hc)
  end.
  unfold logm, modify. eexists. split; [reflexivity|].
  simpl in *. split; [exact Hm|]. split.
  - intros x Hx. apply in_or_app. left. apply Hl. apply in_or_app. now left.
  - intros m Hin. apply in_or_app. left. now apply Hc.
Qed.

Lemma check_missing_spec cd cc st :
  exists l st',
    check_missing cd cc st = Done l st'
    /\ l = missing_mandatory st cd cc
    /\ messages (eff st') = messages (eff st)
    /\ (In (WARNING, MandatoryMissing l) (log (eff st'))
        \/ In (INFO, NoMandatoryMissing) (log (eff st'))).
Proof.
  unfold check_missing, bind, gets, logm, modify, ret.
  destruct (0 <? List.length (missing_mandatory st cd cc))%nat;
    eexists; eexists; (split; [reflexivity|]); (split; [reflexivity|]);
    (split; [reflexivity|]); simpl; [left|right]; apply in_or_app; right;
    now left.
Qed.

(** The statements after the contacts write to the accumulator and the
    logger only (the tag filter also assigns [tags]). *)
Section EffOnly.

Context {X : Type} (proj : Locals -> X).
Hypothesis proj_set_eff : forall e st, proj (set_eff e st) = proj st.

Ltac eff_only :=
  repeat first
    [ apply keeps_bind; [|intros ?]
    | apply keeps_ret
    | apply keeps_gets
    | apply keeps_lookup
    | apply keeps_index
    | apply keeps_when
    | apply keeps_modify; intros; apply proj_set_eff
    | apply keeps_liftE; exact proj_set_eff
    | progress unfold check ].

Lemma print_each_keeps (l : list Msg) : keeps proj (print_each l).
Proof. induction l; simpl; eff_only. assumption. Qed.

Lemma print_collected_keeps : keeps proj print_collected.
Proof. unfold print_collected. eff_only. apply print_each_keeps. Qed.

Lemma check_missing_keeps cd cc : keeps proj (check_missing cd cc).
Proof.
  unfold check_missing. eff_only.
  match goal with |- keeps _ (if ?b then _ else _) => destruct b end; eff_only.
Qed.

Lemma check_tags_keeps (l : list string) : keeps proj (check_tags l).
Proof. induction l; simpl; eff_only. assumption. Qed.

Lemma trace_composites_keeps axis (l : list Composite) :
  keeps proj (trace_composites axis l).
Proof. induction l; simpl; eff_only. assumption. Qed.

Lemma report_unused_keeps axis (parent_ids used : list string) :
  keeps proj (report_unused axis parent_ids used).
Proof. induction parent_ids; simpl; eff_only. assumption. Qed.

Lemma match_children_keeps axis mapping parent_ids child_ids todo :
  forall composites used,
    keeps proj (match_children axis mapping parent_ids child_ids todo
                  composites used).
Proof.
  induction todo as [|sub rest IH]; intros composites used; simpl; eff_only.
  match goal with |- keeps _ (if ?b then _ else _) => destruct b end; eff_only;
    [apply IH|].
  match goal with |- keeps _ (if ?b then _ else _) => destruct b end; eff_only;
    apply IH.
Qed.

Lemma match_composites_keeps axis mapping parent_ids child_ids :
  keeps proj (match_composites axis mapping parent_ids child_ids).
Proof.
  unfold match_composites. eff_only.
  - apply match_children_keeps.
  - apply report_unused_keeps.
  - apply trace_composites_keeps.
Qed.

End EffOnly.

(** C1, as the code has it.  A call that does not raise returns the target
    record alone.  The diagnostics and the missing mandatory fields are not
    returned: every collected diagnostic is written to the logger as a
    warning, and the list of missing mandatory fields is written as one
    warning (or, when it is empty, an info record says so). *)
Theorem returns_target_alone (md : SourceRecord) (r : Returned) (st : Locals) :
  extract_bluecloud_metadata md = Done r st ->
  (exists composite_domains composite_categories,
      r = ReturnsTarget (build_target st composite_domains composite_categories)
      /\ (In (WARNING,
              MandatoryMissing
                (missing_mandatory st composite_domains composite_categories))
             (log (eff st))
          \/ In (INFO, NoMandatoryMissing) (log (eff st))))
  /\ (forall m, In m (messages (eff st)) ->
                In (WARNING, Collected m) (log (eff st))).
Proof.
  unfold extract_bluecloud_metadata, run, assemble. intros H.
  repeat (apply bind_Done in H; destruct H as (? & ? & ? & H)).
  inversion H; subst; clear H.
  match goal with
  | H : gets _ _ = Done _ _ |- _ => inversion H; subst; clear H
  end.
  match goal with
  | H : check_missing ?cd ?cc ?s = Done _ _ |- _ =>
      destruct (check_missing_spec cd cc s) as (l & s' & Hc & Hl & Hm & Hlog);
      rewrite Hc in H; inversion H; subst; clear H
  end.
  match goal with
  | H : print_collected ?s = Done _ _ |- _ =>
      destruct (print_collected_spec s) as (s' & Hp & Hm' & Hl' & Hc');
      rewrite Hp in H; inversion H; subst; clear H
  end.
  split.
  - eexists. eexists. split; [reflexivity|].
    match goal with
    | Hp : print_collected ?s1 = Done tt ?s2,
      Hc : check_missing ?cd ?cc ?s0 = Done _ ?s1 |- _ =>
        assert (E : missing_mandatory s2 cd cc = missing_mandatory s0 cd cc)
    end.
    { etransitivity.
      - eapply (print_collected_keeps (fun s => missing_mandatory s _ _));
          [reflexivity | eassumption].
      - eapply (check_missing_keeps (fun s => missing_mandatory s _ _));
          [reflexivity | eassumption]. }
    rewrite E.
    destruct Hlog as [Hlog|Hlog]; [left|right]; apply Hl'; exact Hlog.
  - intros m Hin. apply Hc'. rewrite <- Hm'. exact Hin.
Qed.

Lemma returns_target_alone_witness :
  exists r st,
    extract_bluecloud_metadata record_mapped = Done r st
    /\ (exists composite_domains composite_categories,
           r = ReturnsTarget
                 (build_target st composite_domains composite_categories)
           /\ (In (WARNING,
                   MandatoryMissing
                     (missing_mandatory st composite_domains composite_categories))
                  (log (eff st))
               \/ In (INFO, NoMandatoryMissing) (log (eff st))))
    /\ (forall m, In m (messages (eff st)) ->
                  In (WARNING, Collected m) (log (eff st))).
Proof.
  eexists. eexists. split; [vm_compute; reflexivity|].
  apply (returns_target_alone record_mapped). vm_compute. reflexivity.
Defined.

(** C1 as stated fails: for a record that is mapped without an exception the
    call hands back the target record, not a triple, although two diagnostics
    were collected. *)
Lemma mapped_record_is_not_a_triple :
  (exists target st,
      extract_bluecloud_metadata record_mapped = Done (ReturnsTarget target) st
      /\ List.length (messages (eff st)) = 2)
  /\ ~ (exists target diagnostics missing st,
          extract_bluecloud_metadata record_mapped
          = Done (ReturnsTriple target diagnostics missing) st).
Proof.
  assert (E : exists target st,
             extract_bluecloud_metadata record_mapped
             = Done (ReturnsTarget target) st
             /\ List.length (messages (eff st)) = 2).
  { eexists. eexists. split; vm_compute; reflexivity. }
  split; [exact E|].
  destruct E as (target & st & E & _).
  intros (target' & diagnostics & missing & st' & H).
  rewrite E in H. discriminate H.
Qed.

(** ** Availability and location values without a code *)

(** C5, as the code behaves.  When the stripped value splits at ' (' into
    exactly two pieces, the second piece without its trailing ')' is appended
    (or, when nothing is left of it, the diagnostic is appended); in every
    other case, in particular for every value without ' (', the unpacking
    raises ValueError and no diagnostic is recorded.  So 'Europe (EO)' gives
    'EO', while 'Worldwide' and the empty value raise, for the geographical
    and for the language availability, and the whole call raises with them. *)
Theorem availability_without_code_raises :
  (forall value name code st,
      PyStr.split (PyStr.strip value) " (" = [name; code] ->
      exists st',
        extras_Geographical_Availability value st = Done tt st'
        /\ let value_eosc := PyStr.rstrip_chars (Ascii.eqb ")") code in
           if (0 <? String.length value_eosc)%nat
           then geographicalAvailabilities st'
                = (geographicalAvailabilities st ++ [value_eosc])%list
                /\ messages (eff st') = messages (eff st)
           else geographicalAvailabilities st' = geographicalAvailabilities st
                /\ messages (eff st')
                   = (messages (eff st) ++ [GeographicalAvailabilityEmpty])%list)
  /\ (forall value st,
        PyStr.contains " (" (PyStr.strip value) = false ->
        extras_Geographical_Availability value st = Raised (ValueError_unpack 1)
        /\ extras_Language_Availability value st = Raised (ValueError_unpack 1))
  /\ (exists st',
        extras_Geographical_Availability "Europe (EO)" fresh = Done tt st'
        /\ geographicalAvailabilities st' = ["EO"]
        /\ messages (eff st') = [])
  /\ (exists st',
        extras_Geographical_Availability "Europe ()" fresh = Done tt st'
        /\ geographicalAvailabilities st' = []
        /\ messages (eff st') = [GeographicalAvailabilityEmpty])
  /\ extras_Geographical_Availability "Worldwide" fresh = Raised (ValueError_unpack 1)
  /\ extras_Geographical_Availability EmptyString fresh = Raised (ValueError_unpack 1)
  /\ extras_Language_Availability "English" fresh = Raised (ValueError_unpack 1)
  /\ extract_bluecloud_metadata (record_with_availability "Worldwide")
     = Raised (ValueError_unpack 1).
Proof.
  split; [|split].
  - intros value name code st Hsplit.
    unfold extras_Geographical_Availability, availability_field.
    cbv zeta. rewrite Hsplit.
    unfold bind at 1, unpack2, ret at 1.
    destruct (0 <? String.length (PyStr.rstrip_chars (Ascii.eqb ")") code))%nat;
      eexists; (split; [reflexivity|]); split; try reflexivity.
    cbn. apply messages_log_value.
  - intros value st Hno.
    unfold extras_Geographical_Availability, extras_Language_Availability,
      availability_field.
    cbv zeta. rewrite (split_without_separator _ _ Hno). split; reflexivity.
  - repeat split; try (vm_compute; reflexivity);
      eexists; (split; [vm_compute; reflexivity|]); split; reflexivity.
Qed.

Lemma availability_without_code_raises_witness :
  (exists st',
      extras_Geographical_Availability " Worldwide (WW) " fresh = Done tt st'
      /\ geographicalAvailabilities st' = ["WW"]
      /\ messages (eff st') = [])
  /\ extras_Geographical_Availability "Worldwide" fresh
     = Raised (ValueError_unpack 1)
  /\ extras_Language_Availability "Worldwide" fresh
     = Raised (ValueError_unpack 1).
Proof.
  split.
  - destruct (proj1 availability_without_code_raises
                " Worldwide (WW) " "Worldwide" "WW)" fresh)
      as (st' & Hrun & Hst'); [vm_compute; reflexivity|].
    exists st'. split; [exact Hrun|]. exact Hst'.
  - apply (proj1 (proj2 availability_without_code_raises) "Worldwide" fresh).
    vm_compute. reflexivity.
Defined.

(** C6, as the code behaves.  A value that does not split at ' (' into
    exactly two pieces, in particular every single token, raises TypeError
    before any lookup; a value that splits, whose name is not in the country
    vocabulary, raises on the unbound local [eosc_id] unless an earlier entry
    was mapped.  So 'Italy (IT)' gives 'IT'; 'Other', a key of the vocabulary,
    raises; 'Atlantis (AT)' alone raises, and after 'Italy (IT)' it is kept
    as a fallback with a diagnostic. *)
Theorem location_without_code_raises :
  (forall value st,
      PyStr.contains " (" (PyStr.strip value) = false ->
      extras_Resource_Geographic_Location value st = Raised TypeError_not_callable)
  /\ (forall value name abbrev st,
        PyStr.split (PyStr.strip value) " (" = [name; abbrev] ->
        dict_get COUNTRIES (PyStr.lower name) = None ->
        eosc_id st = None ->
        extras_Resource_Geographic_Location value st
        = Raised (UnboundLocalError "eosc_id"))
  /\ (exists st',
        extras_Resource_Geographic_Location "Italy (IT)" fresh = Done tt st'
        /\ resourceGeographicLocations st' = ["IT"])
  /\ dict_get COUNTRIES "other" = Some "OT"
  /\ extras_Resource_Geographic_Location "Other" fresh = Raised TypeError_not_callable
  /\ extras_Resource_Geographic_Location "Atlantis (AT)" fresh
     = Raised (UnboundLocalError "eosc_id")
  /\ extract_bluecloud_metadata (record_with_location ["Other"])
     = Raised TypeError_not_callable
  /\ extract_bluecloud_metadata (record_with_location ["Atlantis (AT)"])
     = Raised (UnboundLocalError "eosc_id")
  /\ (exists target st,
        extract_bluecloud_metadata (record_with_location ["Italy (IT)"; "Atlantis (AT)"])
        = Done (ReturnsTarget target) st
        /\ Target.resourceGeographicLocations target = ["IT"; "Atlantis"]
        /\ messages (eff st) = [GeographicLocationNotMapped "atlantis"]).
Proof.
  split; [|split].
  - intros value st Hno. unfold extras_Resource_Geographic_Location.
    cbv zeta. rewrite (split_without_separator _ _ Hno). reflexivity.
  - intros value name abbrev st Hsplit Hget Hid.
    unfold extras_Resource_Geographic_Location.
    cbv zeta. rewrite Hsplit. unfold bind at 1, ret at 1. rewrite Hget.
    unfold bind, say, modify, read_local. simpl. rewrite Hid. reflexivity.
  - repeat split; try (vm_compute; reflexivity).
    + eexists. split; vm_compute; reflexivity.
    + eexists. eexists. split; [vm_compute; reflexivity|]. split; reflexivity.
Qed.

Lemma location_without_code_raises_witness :
  extras_Resource_Geographic_Location "Other" fresh = Raised TypeError_not_callable
  /\ extras_Resource_Geographic_Location "Atlantis (AT)" fresh
     = Raised (UnboundLocalError "eosc_id").
Proof.
  split.
  - apply (proj1 location_without_code_raises "Other" fresh).
    vm_compute. reflexivity.
  - apply (proj1 (proj2 location_without_code_raises)
             "Atlantis (AT)" "Atlantis" "AT)" fresh); vm_compute; reflexivity.
Defined.

(** ** The description and the tags in the target record *)

Lemma extract_direct_description (md : SourceRecord) st a st' :
  extract_direct md st = Done a st' ->
  description st' = shorten_description (md_notes md).
Proof.
  unfold extract_direct. intros H.
  do 14 (apply bind_Done in H; destruct H as (? & ? & _ & H)).
  apply bind_Done in H; destruct H as (? & ? & Hset & H).
  inversion Hset; subst; clear Hset.
  assert (K : keeps description
                (d <- gets description ;;
                 trace (LStr (PyStr.slice_to 35 d ++ "...")) "description" ;;
                 collect_tags (md_tags md))).
  { keeps_auto. apply collect_tags_keeps; reflexivity. }
  rewrite (K _ _ _ H). reflexivity.
Qed.

Lemma collect_description (md : SourceRecord) st a st' :
  collect md st = Done a st' ->
  description st' = shorten_description (md_notes md).
Proof.
  unfold collect. intros H.
  apply bind_Done in H as (? & st1 & Hd & Hl).
  rewrite <- (extract_direct_description md _ _ _ Hd).
  apply (iterate_extras_keeps description) in Hl; try reflexivity; auto.
  intros key value _. apply handle_extra_keeps_description.
Qed.

Lemma filter_tags_step_keeps {X} (proj : Locals -> X) :
  (forall e st, proj (set_eff e st) = proj st) ->
  (forall l st, proj (set_tags l st) = proj st) ->
  keeps proj filter_tags_step.
Proof.
  intros Heff Htags. unfold filter_tags_step.
  repeat first
    [ apply keeps_bind; [|intros ?]
    | apply keeps_gets
    | apply keeps_when
    | apply check_tags_keeps; exact Heff
    | apply keeps_modify; intros; first [apply Heff | apply Htags] ].
Qed.

Lemma assemble_keeps_description : keeps description assemble.
Proof.
  unfold assemble.
  repeat first
    [ apply match_composites_keeps; reflexivity
    | apply filter_tags_step_keeps; reflexivity
    | apply check_missing_keeps; reflexivity
    | apply print_collected_keeps; reflexivity
    | apply keeps_bind; [|intros ?]
    | apply keeps_gets
    | apply keeps_ret
    | progress keeps_auto ].
Qed.

(** The description of the target record is the shortened [notes]. *)
Lemma mapped_description (md : SourceRecord) target st :
  extract_bluecloud_metadata md = Done (ReturnsTarget target) st ->
  Target.description target = shorten_description (md_notes md).
Proof.
  unfold extract_bluecloud_metadata, run. intros H.
  apply bind_Done in H as (? & st1 & Hc & Ha).
  rewrite <- (collect_description md _ _ _ Hc).
  rewrite <- (assemble_keeps_description _ _ _ Ha).
  unfold assemble in Ha.
  repeat (apply bind_Done in Ha; destruct Ha as (? & ? & ? & Ha)).
  inversion Ha; subst; clear Ha.
  repeat match goal with
         | H : gets _ _ = Done _ _ |- _ => inversion H; subst; clear H
         end.
  reflexivity.
Qed.

(** After the filter step, [tags] holds the filtered list. *)
Lemma filter_tags_step_tags st a st' :
  filter_tags_step st = Done a st' ->
  tags st'
  = filter_tags (targetUsersNames st) (category_names st) (domain_names st)
      (tags st).
Proof.
  unfold filter_tags_step. intros H.
  do 4 (apply bind_Done in H;
        destruct H as (? & ? & Hg & H); inversion Hg; subst; clear Hg).
  apply bind_Done in H as (? & st1 & Hw & H).
  apply bind_Done in H as (? & st2 & Hg & H). inversion Hg; subst; clear Hg.
  rewrite (check_tags_keeps tags (fun _ _ => eq_refl) _ _ _ _ H).
  unfold filter_tags. unfold when in Hw.
  destruct (negb _) in Hw |- *.
  - apply bind_Done in Hw as (? & ? & Hl & Hm).
    inversion Hl; subst; clear Hl. inversion Hm; subst. reflexivity.
  - inversion Hw; subst. reflexivity.
Qed.

(** C3.  A description longer than 1000 characters is mapped to one of exactly
    1000 characters that ends with the suffix [add]; a description of at most
    1000 characters is mapped to itself; and the description of the target
    record of any call that returns is this mapped description of [notes]. *)
Theorem description_shortened_or_kept (description : string) :
  (1000 < String.length description ->
     String.length (shorten_description description) = 1000
     /\ exists kept, shorten_description description = kept ++ add)
  /\ (String.length description <= 1000 ->
        shorten_description description = description)
  /\ (forall md target st,
        md_notes md = description ->
        extract_bluecloud_metadata md = Done (ReturnsTarget target) st ->
        Target.description target = shorten_description description).
Proof.
  unfold shorten_description at 1 2 3 4. split; [|split].
  - intros H.
    destruct (Nat.ltb_spec 1000 (String.length description)) as [_|Hle]; [|lia].
    split.
    + rewrite length_append, length_slice_to; [reflexivity|].
      change (String.length add) with 58. lia.
    + eexists. reflexivity.
  - intros H.
    destruct (Nat.ltb_spec 1000 (String.length description)) as [Hlt|_];
      [lia | reflexivity].
  - intros md target st <- Hrun. exact (mapped_description md target st Hrun).
Qed.

Lemma description_shortened_or_kept_witness :
  (String.length (shorten_description long_description) = 1000
   /\ exists kept, shorten_description long_description = kept ++ add)
  /\ shorten_description "Some notes" = "Some notes"
  /\ (exists target st,
        extract_bluecloud_metadata record_with_long_notes
        = Done (ReturnsTarget target) st
        /\ Target.description target = shorten_description long_description).
Proof.
  split; [|split].
  - apply (proj1 (description_shortened_or_kept long_description)).
    vm_compute. repeat constructor.
  - apply (proj1 (proj2 (description_shortened_or_kept "Some notes"))).
    vm_compute. repeat constructor.
  - eexists. eexists. split; [vm_compute; reflexivity|].
    eapply (proj2 (proj2 (description_shortened_or_kept long_description))
              record_with_long_notes); [reflexivity|].
    vm_compute. reflexivity.
Defined.

(** * Further properties of the mapping *)

(** ** The validators *)

(** X1.  The four accumulating validators write nothing to the logger and
    append exactly one diagnostic when they answer False, none when they
    answer True; [check_is_in_cv] never appends a diagnostic: it writes one
    log record when it answers False, none when it answers True. *)
Theorem validators_report_exactly_on_failure
    (val name : string) (mandatory : bool) (max_len : option nat)
    (cv : list string) (cv_name : string) (e : Eff) :
  let accumulating (r : bool * Eff) :=
    log (snd r) = log e
    /\ if fst r then messages (snd r) = messages e
       else exists m, messages (snd r) = (messages e ++ [m])%list in
  accumulating (check_is_string val name mandatory max_len e)
  /\ accumulating (check_is_url val name mandatory e)
  /\ accumulating (check_is_email val name mandatory e)
  /\ accumulating (check_is_date val name mandatory e)
  /\ let r := check_is_in_cv val name mandatory cv cv_name e in
     messages (snd r) = messages e
     /\ if fst r then log (snd r) = log e
        else exists entry, log (snd r) = (log e ++ [entry])%list.
Proof.
  cbv zeta. unfold check_is_string, check_is_url, check_is_email, check_is_date,
    check_is_in_cv.
  destruct (String.length val =? 0)%nat, mandatory,
    (PyStr.contains "@" val), (PyStr.startswith val "http"),
    (strptime_Ymd val), (py_in val cv);
    (destruct max_len as [n|];
     [destruct (n <? String.length val)%nat|]);
    simpl; repeat split; try reflexivity; eexists; reflexivity.
Qed.

Lemma length_zero_empty (s : string) :
  (String.length s =? 0)%nat = true -> s = EmptyString.
Proof. destruct s; [reflexivity | discriminate]. Qed.

(** X2.  The verdict of [check_is_email] is exactly whether the value
    contains an at sign: the mandatory flag changes the message only, so an
    empty optional address is rejected, with one diagnostic. *)
Theorem email_verdict_ignores_mandatory
    (val name : string) (mandatory : bool) (e : Eff) :
  fst (check_is_email val name mandatory e) = PyStr.contains "@" val
  /\ exists m,
       check_is_email EmptyString name false e = (false, append_msg m e).
Proof.
  split; [|eexists; reflexivity].
  unfold check_is_email.
  destruct (String.length val =? 0)%nat eqn:E; simpl.
  - apply length_zero_empty in E. subst val. destruct mandatory; reflexivity.
  - destruct (PyStr.contains "@" val); reflexivity.
Qed.

(** ** Splitting loses nothing *)

Lemma append_assoc_string (a b c : string) : (a ++ b) ++ c = a ++ (b ++ c).
Proof. induction a as [|x a IH]; simpl; [reflexivity | now rewrite IH]. Qed.

Lemma prefix_append (p s : string) :
  String.prefix p s = true -> exists rest, s = p ++ rest.
Proof.
  revert s. induction p as [|c p IH]; intros s H.
  - exists s. reflexivity.
  - destruct s as [|d s]; simpl in H; [discriminate H|].
    destruct (ascii_dec c d) as [->|]; [|discriminate H].
    destruct (IH s H) as [rest ->]. exists rest. reflexivity.
Qed.

Lemma split_go_skip (sep a rest cur : string) :
  PyStr.split_go sep (String.length a) cur (a ++ rest)
  = PyStr.split_go sep 0 cur rest.
Proof. induction a as [|c a IH]; simpl; [reflexivity | exact IH]. Qed.

Lemma split_go_not_nil (sep : string) (s : string) :
  forall skip cur, PyStr.split_go sep skip cur s <> [].
Proof.
  induction s as [|c s IH]; intros skip cur; cbn [PyStr.split_go];
    [discriminate|].
  destruct skip; [|apply IH].
  destruct (String.prefix sep (String c s)); [discriminate | apply IH].
Qed.

Lemma concat_cons (sep x : string) (l : list string) :
  l <> [] -> String.concat sep (x :: l) = x ++ sep ++ String.concat sep l.
Proof. destruct l; [congruence | reflexivity]. Qed.

(** Joining the pieces of a split with the separator gives the string back. *)
Lemma join_split_go (sep : string) :
  sep <> EmptyString ->
  forall n s cur,
    String.length s <= n ->
    String.concat sep (PyStr.split_go sep 0 cur s) = cur ++ s.
Proof.
  intros Hsep n. induction n as [|n IH]; intros s cur Hn.
  - destruct s; [|simpl in Hn; lia]. simpl. now rewrite append_empty_r.
  - destruct s as [|c s]; [simpl; now rewrite append_empty_r|].
    cbn [PyStr.split_go].
    destruct (String.prefix sep (String c s)) eqn:Hp.
    + destruct (prefix_append _ _ Hp) as [rest Hrest].
      destruct sep as [|d sep']; [congruence|].
      simpl in Hrest. inversion Hrest; subst.
      match goal with
      | |- context [String.length ?x - 1] =>
          replace (String.length x - 1) with (String.length sep')
            by (simpl; lia)
      end.
      rewrite split_go_skip, concat_cons by apply split_go_not_nil.
      rewrite IH.
      * reflexivity.
      * simpl in Hn. rewrite length_append in Hn. lia.
    + rewrite IH by (simpl in Hn; lia). apply append_snoc.
Qed.

Lemma join_split (s sep : string) :
  sep <> EmptyString -> String.concat sep (PyStr.split s sep) = s.
Proof.
  intros Hsep. unfold PyStr.split.
  now rewrite (join_split_go sep Hsep (String.length s) s EmptyString).
Qed.

(** X3.  The name splitter loses no character of the name: the two names it
    returns are the two sides of the only ', ' of the stripped value, or its
    words around the last space (two or three words), or the last name is the
    whole value as given (one word, or more than three), or the value is
    empty. *)
Theorem name_splitter_keeps_every_character (val name : string) (e : Eff) :
  let first := fst (fst (get_name_from_val val name e)) in
  let last := snd (fst (get_name_from_val val name e)) in
  last ++ ", " ++ first = PyStr.strip val
  \/ first ++ " " ++ last = PyStr.strip val
  \/ (first = EmptyString /\ last = val).
Proof.
  cbv zeta. unfold get_name_from_val.
  destruct (PyStr.contains ", " val).
  - pose proof (join_split (PyStr.strip val) ", ") as Hc.
    destruct (PyStr.split (PyStr.strip val) ", ") as [|a [|b [|c l]]];
      try (left; simpl; rewrite <- Hc by discriminate; reflexivity).
    all: pose proof (join_split (PyStr.strip val) " ") as Hs;
      destruct (PyStr.split (PyStr.strip val) " ") as [|x [|y [|z [|w l']]]];
      simpl;
      try (right; left; rewrite <- Hs by discriminate; simpl;
           rewrite ?append_assoc_string; reflexivity);
      try (right; right; split; reflexivity).
    all: destruct (String.length val =? 0)%nat eqn:E; simpl;
      try (right; right; split; reflexivity);
      apply length_zero_empty in E; subst val; right; right; split; reflexivity.
  - pose proof (join_split (PyStr.strip val) " ") as Hs.
    destruct (PyStr.split (PyStr.strip val) " ") as [|x [|y [|z [|w l']]]];
      simpl;
      try (right; left; rewrite <- Hs by discriminate; simpl;
           rewrite ?append_assoc_string; reflexivity);
      try (right; right; split; reflexivity).
    destruct (String.length val =? 0)%nat eqn:E; simpl;
      try (right; right; split; reflexivity).
    apply length_zero_empty in E; subst val; right; right; split; reflexivity.
Qed.

(** ** Records the engine maps without an exception *)

Section Total.

Lemma total_ret {A} (a : A) : total (ret a).
Proof. intros st. eexists. eexists. reflexivity. Qed.

Lemma total_bind {A B} (m : M A) (k : A -> M B) :
  total m -> (forall a, total (k a)) -> total (bind m k).
Proof.
  intros Hm Hk st. destruct (Hm st) as (a & st1 & H1).
  destruct (Hk a st1) as (b & st2 & H2).
  exists b, st2. now rewrite (bind_Done_l _ _ _ _ _ H1).
Qed.

Lemma total_gets {A} (f : Locals -> A) : total (gets f).
Proof. intros st. eexists. eexists. reflexivity. Qed.

Lemma total_modify (f : Locals -> Locals) : total (modify f).
Proof. intros st. eexists. eexists. reflexivity. Qed.

Lemma total_liftE {A} (f : Eff -> A * Eff) : total (liftE f).
Proof.
  intros st. unfold liftE. destruct (f (eff st)). eexists. eexists. reflexivity.
Qed.

Lemma total_when (b : bool) (m : M unit) : total m -> total (when b m).
Proof. destruct b; [auto | intros _; apply total_ret]. Qed.

Lemma total_if_eqb {A} (k s : string) (a b : M A) :
  (k = s -> total a) -> (k <> s -> total b) ->
  total (if String.eqb k s then a else b).
Proof. destruct (String.eqb_spec k s); auto. Qed.

End Total.

Ltac total_step :=
  lazymatch goal with
  | |- total (bind _ _) => apply total_bind; [|intros ?]
  | |- total (ret _) => apply total_ret
  | |- total (gets _) => apply total_gets
  | |- total (modify _) => apply total_modify
  | |- total (say _) => apply total_modify
  | |- total (logm _ _) => apply total_modify
  | |- total (trace _ _) => apply total_modify
  | |- total (liftE _) => apply total_liftE
  | |- total (check _) => unfold check
  | |- total (when _ _) => apply total_when
  | |- total (if ?b then _ else _) => destruct b
  | |- total (match ?x with _ => _ end) => destruct x
  end.

Ltac total_auto := cbv zeta; repeat total_step.

Lemma handle_extra_total (key value : string) :
  existsb (String.eqb key) may_raise_keys = false ->
  total (handle_extra key value).
Proof.
  intros Hkey. unfold handle_extra.
  repeat lazymatch goal with
    | |- total (if String.eqb _ _ then _ else _) =>
        apply total_if_eqb;
        [ intros Heq;
          first [ exfalso; rewrite Heq in Hkey; vm_compute in Hkey;
                  discriminate Hkey
                | unfold_handlers; total_auto ]
        | intros _ ]
    end.
  apply total_ret.
Qed.

Lemma iterate_extras_total (extras : list (string * string)) :
  (forall key, In key (map fst extras) ->
               existsb (String.eqb key) may_raise_keys = false) ->
  total (iterate_extras extras).
Proof.
  induction extras as [|[key value] rest IH]; intros Hall; simpl.
  - apply total_ret.
  - apply total_bind; [apply total_modify|intros _].
    apply total_bind; [apply handle_extra_total, Hall; now left|intros _].
    apply IH. intros k Hin. apply Hall. now right.
Qed.

Lemma collect_tags_total (l : list string) : total (collect_tags l).
Proof. induction l; simpl; total_auto. assumption. Qed.

Lemma check_tags_total (l : list string) : total (check_tags l).
Proof. induction l; simpl; total_auto. assumption. Qed.

Lemma filter_tags_step_total : total filter_tags_step.
Proof. unfold filter_tags_step. total_auto; apply check_tags_total. Qed.

Lemma iterate_extras_last {X} (proj : Locals -> X) (g : string -> X)
    (field : string) :
  (forall it st, proj (set_item it st) = proj st) ->
  (forall key value, key <> field -> keeps proj (handle_extra key value)) ->
  (forall value st a st',
      handle_extra field value st = Done a st' -> proj st' = g value) ->
  forall extras st a st',
    iterate_extras extras st = Done a st' ->
    proj st' = last_assigned g field extras (proj st).
Proof.
  intros Hitem Hother Hfield extras.
  induction extras as [|[key value] rest IH]; intros st a st' H; simpl in H.
  - now inversion H.
  - apply bind_Done in H as (? & st1 & H1 & H).
    apply bind_Done in H as (? & st2 & H2 & H).
    inversion H1; subst st1. clear H1.
    rewrite (IH _ _ _ H). unfold last_assigned. simpl. f_equal.
    destruct (String.eqb_spec key field) as [->|Hne].
    + now rewrite (Hfield _ _ _ _ H2).
    + rewrite (Hother _ _ Hne _ _ _ H2). apply Hitem.
Qed.

Lemma last_assigned_stays_bound {X} (g : string -> X) (field : string)
    (extras : list (string * string)) (x : X) :
  exists y, last_assigned (fun v => Some (g v)) field extras (Some x) = Some y.
Proof.
  revert x. induction extras as [|[k v] rest IH]; intros x.
  - exists x. reflexivity.
  - unfold last_assigned. simpl. destruct (k =? field); apply IH.
Qed.

Lemma last_assigned_bound {X} (g : string -> X) (field : string)
    (extras : list (string * string)) (before : option X) :
  In field (map fst extras) ->
  exists y, last_assigned (fun v => Some (g v)) field extras before = Some y.
Proof.
  revert before. induction extras as [|[k v] rest IH]; intros before Hin.
  - contradiction.
  - unfold last_assigned. simpl.
    destruct (String.eqb_spec k field) as [->|Hne].
    + apply last_assigned_stays_bound.
    + apply IH. destruct Hin as [Heq|Hin]; [contradiction|exact Hin].
Qed.

Lemma handle_extra_keeps_publiccontact_name (key value : string) :
  key <> "ContactInformation:Public Contact Name" ->
  keeps publiccontact_name (handle_extra key value).
Proof. intros Hkey. keeps_dispatch Hkey. Qed.

Lemma handle_extra_keeps_subdomain_ids (key value : string) :
  key <> "ClassificationInformation:Scientific Subdomain" ->
  keeps subdomain_ids (handle_extra key value).
Proof. intros Hkey. keeps_dispatch Hkey. Qed.

Lemma handle_extra_keeps_subcategory_ids (key value : string) :
  key <> "ClassificationInformation:Subcategory" ->
  keeps subcategory_ids (handle_extra key value).
Proof. intros Hkey. keeps_dispatch Hkey. Qed.

Lemma maincontact_name_after_loop extras st a st' :
  iterate_extras extras st = Done a st' ->
  maincontact_name st'
  = last_assigned (fun v => Some (PyStr.strip v))
      "ContactInformation:Main Contact Name" extras (maincontact_name st).
Proof.
  apply (iterate_extras_last maincontact_name).
  - reflexivity.
  - apply handle_extra_keeps_maincontact_name.
  - intros value s b s' H.
    change (extras_Main_Contact_Name value s = Done b s') in H.
    unfold extras_Main_Contact_Name, bind, modify, trace in H.
    inversion H. reflexivity.
Qed.

Lemma publiccontact_name_after_loop extras st a st' :
  iterate_extras extras st = Done a st' ->
  publiccontact_name st'
  = last_assigned (fun v => Some (PyStr.strip v))
      "ContactInformation:Public Contact Name" extras (publiccontact_name st).
Proof.
  apply (iterate_extras_last publiccontact_name).
  - reflexivity.
  - apply handle_extra_keeps_publiccontact_name.
  - intros value s b s' H.
    change (extras_Public_Contact_Name value s = Done b s') in H.
    unfold extras_Public_Contact_Name, bind, modify, trace in H.
    inversion H. reflexivity.
Qed.

Lemma construct_contacts_runs st mn pn :
  maincontact_name st = Some mn -> publiccontact_name st = Some pn ->
  exists st', construct_contacts st = Done tt st'
              /\ domain_ids st' = domain_ids st
              /\ subdomain_ids st' = subdomain_ids st
              /\ category_ids st' = category_ids st
              /\ subcategory_ids st' = subcategory_ids st.
Proof.
  intros Hm Hp.
  unfold construct_contacts, check, bind, read_local, liftE, modify, ret.
  rewrite Hm.
  destruct (get_name_from_val mn "maincontact_name" (eff st)) as [[f l] e1].
  cbn. rewrite Hp.
  match goal with
  | |- context [get_name_from_val pn ?n ?e] =>
      destruct (get_name_from_val pn n e) as [[pf pl] e2]
  end.
  cbn.
  repeat match goal with
         | |- context [check_is_string ?a ?b ?c ?d ?e] =>
             destruct (check_is_string a b c d e); cbn
         end.
  eexists. repeat split; reflexivity.
Qed.

Lemma match_composites_without_children (axis : Axis) (mapping : dict)
    (parent_ids : list string) st :
  exists st', match_composites axis mapping parent_ids [] st = Done [] st'.
Proof.
  unfold match_composites. unfold bind at 1, logm at 1, modify at 1.
  unfold bind at 1, logm at 1, modify at 1.
  unfold bind at 1. cbn [match_children ret fst snd].
  match goal with
  | |- exists _, bind _ _ ?s = _ =>
      destruct (report_unused_total axis parent_ids [] s) as (s1 & H1 & _)
  end.
  rewrite (bind_Done_l _ _ _ _ _ H1).
  cbn [trace_composites]. unfold bind, ret. eexists. reflexivity.
Qed.

Lemma not_may_raise (extras : list (string * string)) (risky : string) :
  (forall key, In key (map fst extras) ->
               existsb (String.eqb key) may_raise_keys = false) ->
  existsb (String.eqb risky) may_raise_keys = true ->
  forall key value, In (key, value) extras -> key <> risky.
Proof.
  intros Hall Hr key value Hin ->.
  rewrite Hall in Hr; [discriminate|].
  change risky with (fst (risky, value)). now apply in_map.
Qed.

Lemma extract_direct_runs (md : SourceRecord) st :
  dict_get ABBREVIATIONS (md_name md) <> None ->
  exists st', extract_direct md st = Done tt st'.
Proof.
  intros Hname.
  assert (T : total (extract_direct md)).
  { unfold extract_direct, lookup.
    destruct (dict_get ABBREVIATIONS (md_name md)); [|congruence].
    total_auto. apply collect_tags_total. }
  destruct (T st) as ([] & st' & H). now exists st'.
Qed.

Lemma extract_direct_unknown (md : SourceRecord) st :
  dict_get ABBREVIATIONS (md_name md) = None ->
  extract_direct md st = Raised (KeyError (md_name md)).
Proof.
  intros Hname. unfold extract_direct, bind, modify, lookup.
  now rewrite Hname.
Qed.

Lemma construct_useCases_passes st :
  use_case_url st <> "www.ausecase.org" ->
  exists st', construct_useCases st = Done tt st'.
Proof.
  intros Hurl. apply String.eqb_neq in Hurl. unfold construct_useCases.
  unfold bind at 1, gets at 1. rewrite Hurl.
  unfold bind, gets, ret, modify, trace.
  destruct (is_empty (use_case_url st) && is_empty (use_case_name st));
    eexists; reflexivity.
Qed.

Lemma construct_multimedia_keeps_names_and_children :
  keeps (fun st => (maincontact_name st, publiccontact_name st,
                    subdomain_ids st, subcategory_ids st, use_case_url st))
        construct_multimedia.
Proof. unfold construct_multimedia. keeps_auto. Qed.

Lemma construct_useCases_keeps_names_and_children :
  keeps (fun st => (maincontact_name st, publiccontact_name st,
                    subdomain_ids st, subcategory_ids st))
        construct_useCases.
Proof. unfold construct_useCases. keeps_auto. Qed.

Lemma collect_without_children (md : SourceRecord) st :
  (forall key, In key (map fst (md_extras md)) ->
               existsb (String.eqb key) may_raise_keys = false) ->
  collect md fresh = Done tt st ->
  subdomain_ids st = [] /\ subcategory_ids st = [].
Proof.
  intros Hkeys H.
  assert (K1 : keeps subdomain_ids (collect md)).
  { unfold collect. apply keeps_bind; [|intros _].
    - apply extract_direct_keeps; reflexivity.
    - apply iterate_extras_keeps; try reflexivity.
      intros key value Hin. apply handle_extra_keeps_subdomain_ids.
      now apply (not_may_raise (md_extras md)
                   "ClassificationInformation:Scientific Subdomain"
                   Hkeys eq_refl key value). }
  assert (K2 : keeps subcategory_ids (collect md)).
  { unfold collect. apply keeps_bind; [|intros _].
    - apply extract_direct_keeps; reflexivity.
    - apply iterate_extras_keeps; try reflexivity.
      intros key value Hin. apply handle_extra_keeps_subcategory_ids.
      now apply (not_may_raise (md_extras md)
                   "ClassificationInformation:Subcategory"
                   Hkeys eq_refl key value). }
  split; [exact (K1 _ _ _ H) | exact (K2 _ _ _ H)].
Qed.

Lemma collect_names (md : SourceRecord) st :
  collect md fresh = Done tt st ->
  maincontact_name st
  = last_assigned (fun v => Some (PyStr.strip v))
      "ContactInformation:Main Contact Name" (md_extras md) None
  /\ publiccontact_name st
     = last_assigned (fun v => Some (PyStr.strip v))
         "ContactInformation:Public Contact Name" (md_extras md) None.
Proof.
  intros H. unfold collect in H.
  apply bind_Done in H as ([] & st0 & Hd & Hl).
  assert (Hm : maincontact_name st0 = None).
  { apply (extract_direct_keeps maincontact_name md) in Hd; auto. }
  assert (Hp : publiccontact_name st0 = None).
  { apply (extract_direct_keeps publiccontact_name md) in Hd; auto. }
  split.
  - rewrite (maincontact_name_after_loop _ _ _ _ Hl), Hm. reflexivity.
  - rewrite (publiccontact_name_after_loop _ _ _ _ Hl), Hp. reflexivity.
Qed.

Lemma assemble_after_contacts st :
  subdomain_ids st = [] -> subcategory_ids st = [] ->
  exists target st',
    (dom <- gets domain_ids ;;
     subdom <- gets subdomain_ids ;;
     composite_domains <- match_composites Domains CV_DOM_MAPPING dom subdom ;;
     cat <- gets category_ids ;;
     subcat <- gets subcategory_ids ;;
     composite_categories
       <- match_composites Categories CV_CAT_MAPPING cat subcat ;;
     filter_tags_step ;;
     missing_mandatory_items
       <- check_missing composite_domains composite_categories ;;
     print_collected ;;
     st <- gets (fun st => st) ;;
     ret (ReturnsTarget (build_target st composite_domains composite_categories)))
      st
    = Done (ReturnsTarget target) st'.
Proof.
  intros Hsub Hcat.
  unfold bind at 1, gets at 1. unfold bind at 1, gets at 1. rewrite Hsub.
  destruct (match_composites_without_children Domains CV_DOM_MAPPING
              (domain_ids st) st) as (s1 & H1).
  rewrite (bind_Done_l _ _ _ _ _ H1).
  assert (Hcat1 : subcategory_ids s1 = []).
  { rewrite (match_composites_keeps subcategory_ids (fun _ _ => eq_refl)
               _ _ _ _ _ _ _ H1). exact Hcat. }
  unfold bind at 1, gets at 1. unfold bind at 1, gets at 1. rewrite Hcat1.
  destruct (match_composites_without_children Categories CV_CAT_MAPPING
              (category_ids s1) s1) as (s2 & H2).
  rewrite (bind_Done_l _ _ _ _ _ H2).
  destruct (filter_tags_step_total s2) as ([] & s3 & H3).
  rewrite (bind_Done_l _ _ _ _ _ H3).
  destruct (check_missing_spec [] [] s3) as (l & s4 & H4 & _).
  rewrite (bind_Done_l _ _ _ _ _ H4).
  destruct (print_collected_spec s4) as (s5 & H5 & _).
  rewrite (bind_Done_l _ _ _ _ _ H5).
  unfold bind, gets, ret. eexists. eexists. reflexivity.
Qed.

Lemma last_assigned_unbound {X} (g : string -> X) (field : string)
    (extras : list (string * string)) (before : X) :
  ~ In field (map fst extras) ->
  last_assigned g field extras before = before.
Proof.
  revert before. induction extras as [|[k v] rest IH]; intros before Hno.
  - reflexivity.
  - unfold last_assigned. simpl.
    destruct (String.eqb_spec k field) as [->|Hne].
    + exfalso. apply Hno. now left.
    + apply IH. intros Hin. apply Hno. now right.
Qed.

Lemma construct_contacts_Done st a st' :
  construct_contacts st = Done a st' ->
  maincontact_name st <> None /\ publiccontact_name st <> None.
Proof.
  unfold construct_contacts, bind, read_local, liftE, modify.
  destruct (maincontact_name st) as [mn|]; [|discriminate].
  destruct (get_name_from_val mn "maincontact_name" (eff st)) as [[f l] e1].
  cbn. destruct (publiccontact_name st); [|discriminate].
  intros _. split; discriminate.
Qed.

Lemma run_Done_names (md : SourceRecord) r st :
  run md fresh = Done r st ->
  In "ContactInformation:Main Contact Name" (map fst (md_extras md))
  /\ In "ContactInformation:Public Contact Name" (map fst (md_extras md)).
Proof.
  intros H. unfold run, assemble in H.
  apply bind_Done in H as ([] & s0 & Hc & H).
  apply bind_Done in H as ([] & s1 & Hm & H).
  apply bind_Done in H as ([] & s2 & Hu & H).
  apply bind_Done in H as ([] & s3 & Hk & _).
  destruct (collect_names md s0 Hc) as (Hmain & Hpub).
  pose proof (construct_multimedia_keeps_names_and_children _ _ _ Hm) as K1.
  pose proof (construct_useCases_keeps_names_and_children _ _ _ Hu) as K2.
  cbv beta in K1, K2. inversion K1 as [[E1 E2 E3 E4 E5]].
  inversion K2 as [[F1 F2 F3 F4]].
  destruct (construct_contacts_Done _ _ _ Hk) as (Nm & Np).
  rewrite F1, E1, Hmain in Nm. rewrite F2, E2, Hpub in Np.
  split.
  - destruct (in_dec string_dec "ContactInformation:Main Contact Name"
                (map fst (md_extras md))) as [Hin|Hno]; [exact Hin|].
    now rewrite (last_assigned_unbound _ _ _ _ Hno) in Nm.
  - destruct (in_dec string_dec "ContactInformation:Public Contact Name"
                (map fst (md_extras md))) as [Hin|Hno]; [exact Hin|].
    now rewrite (last_assigned_unbound _ _ _ _ Hno) in Np.
Qed.

Lemma run_Done_no_placeholder (md : SourceRecord) r st :
  run md fresh = Done r st -> placeholder_in_effect md = false.
Proof.
  intros H. destruct (placeholder_in_effect md) eqn:Hp; [exfalso|reflexivity].
  unfold run, assemble in H.
  apply bind_Done in H as ([] & s0 & Hc & H).
  destruct (collect_Done md s0 Hc) as (Hm & Hu & Hitem).
  assert (Hne : md_extras md <> []).
  { intros E. unfold placeholder_in_effect in Hp. rewrite E in Hp.
    discriminate Hp. }
  destruct (Hitem Hne) as [it Hit].
  destruct (String.eqb_spec (multimedia_url s0) "www.mymedia.org") as [Em|Em].
  - rewrite (bind_Raised_l _ _ _ _ (construct_multimedia_placeholder s0 it Em Hit))
      in H. discriminate H.
  - destruct (construct_multimedia_passes s0 Em) as (s1 & Hrun & Hu1 & Hit1 & _).
    rewrite (bind_Done_l _ _ _ _ _ Hrun) in H.
    assert (Eu : use_case_url s1 = "www.ausecase.org").
    { unfold placeholder_in_effect in Hp. rewrite <- Hm, <- Hu in Hp.
      apply String.eqb_neq in Em. rewrite Em in Hp. simpl in Hp.
      apply String.eqb_eq in Hp. congruence. }
    assert (Hi : item s1 = Some it) by congruence.
    rewrite (bind_Raised_l _ _ _ _ (construct_useCases_placeholder s1 it Eu Hi))
      in H. discriminate H.
Qed.

Lemma run_Done_known_name (md : SourceRecord) r st :
  run md fresh = Done r st -> dict_get ABBREVIATIONS (md_name md) <> None.
Proof.
  intros H Hname. unfold run, collect in H.
  rewrite (bind_Raised_l _ _ _ _
             (bind_Raised_l _ _ _ _ (extract_direct_unknown md fresh Hname))) in H.
  discriminate H.
Qed.

Lemma run_completes (md : SourceRecord) :
  (forall key, In key (map fst (md_extras md)) ->
               existsb (String.eqb key) may_raise_keys = false) ->
  dict_get ABBREVIATIONS (md_name md) <> None ->
  In "ContactInformation:Main Contact Name" (map fst (md_extras md)) ->
  In "ContactInformation:Public Contact Name" (map fst (md_extras md)) ->
  placeholder_in_effect md = false ->
  exists target st, run md fresh = Done (ReturnsTarget target) st.
Proof.
  intros Hkeys Hname Hmain Hpub Hp.
  destruct (extract_direct_runs md fresh Hname) as (s & Hd).
  destruct (iterate_extras_total _ Hkeys s) as ([] & s0 & Hl).
  assert (Hc : collect md fresh = Done tt s0).
  { unfold collect. now rewrite (bind_Done_l _ _ _ _ _ Hd). }
  destruct (collect_Done md s0 Hc) as (Hm & Hu & _).
  destruct (collect_names md s0 Hc) as (Hmn & Hpn).
  destruct (collect_without_children md s0 Hkeys Hc) as (Hsub & Hcat).
  unfold placeholder_in_effect in Hp. apply orb_false_elim in Hp as (Pm & Pu).
  rewrite <- Hm in Pm. rewrite <- Hu in Pu.
  apply String.eqb_neq in Pm, Pu.
  destruct (construct_multimedia_passes s0 Pm) as (s1 & H1 & _).
  pose proof (construct_multimedia_keeps_names_and_children _ _ _ H1) as K1.
  cbv beta in K1. inversion K1 as [[E1 E2 E3 E4 E5]].
  rewrite <- E5 in Pu.
  destruct (construct_useCases_passes s1 Pu) as (s2 & H2).
  pose proof (construct_useCases_keeps_names_and_children _ _ _ H2) as K2.
  cbv beta in K2. inversion K2 as [[F1 F2 F3 F4]].
  destruct (last_assigned_bound PyStr.strip _ (md_extras md) None Hmain)
    as (mn & Bm).
  destruct (last_assigned_bound PyStr.strip _ (md_extras md) None Hpub)
    as (pn & Bp).
  destruct (construct_contacts_runs s2 mn pn) as (s3 & H3 & _ & G2 & _ & G4).
  { congruence. }
  { congruence. }
  destruct (assemble_after_contacts s3) as (target & s4 & H4).
  { congruence. }
  { congruence. }
  exists target, s4. unfold run, assemble.
  rewrite (bind_Done_l _ _ _ _ _ Hc), (bind_Done_l _ _ _ _ _ H1),
    (bind_Done_l _ _ _ _ _ H2), (bind_Done_l _ _ _ _ _ H3).
  exact H4.
Qed.

(** X4.  For a record whose extras use none of the keys whose handlers can
    raise, the mapping returns a target record exactly when the service name
    has an abbreviation, the extras name a main contact and a public contact,
    and no placeholder URL is in effect: every other field of such a record
    is validated with diagnostics only. *)
Theorem mapped_exactly_when (md : SourceRecord) :
  (forall key, In key (map fst (md_extras md)) ->
               existsb (String.eqb key) may_raise_keys = false) ->
  (exists target st,
      extract_bluecloud_metadata md = Done (ReturnsTarget target) st)
  <-> (dict_get ABBREVIATIONS (md_name md) <> None
       /\ In "ContactInformation:Main Contact Name" (map fst (md_extras md))
       /\ In "ContactInformation:Public Contact Name" (map fst (md_extras md))
       /\ placeholder_in_effect md = false).
Proof.
  intros Hkeys. unfold extract_bluecloud_metadata. split.
  - intros (target & st & H).
    split; [exact (run_Done_known_name md _ _ H)|].
    destruct (run_Done_names md _ _ H) as (Hm & Hp).
    split; [exact Hm|]. split; [exact Hp|].
    exact (run_Done_no_placeholder md _ _ H).
  - intros (Hname & Hm & Hp & Hph). now apply run_completes.
Qed.

Lemma mapped_exactly_when_witness :
  (forall key, In key (map fst (md_extras record_mapped)) ->
               existsb (String.eqb key) may_raise_keys = false)
  /\ exists target st,
       extract_bluecloud_metadata record_mapped = Done (ReturnsTarget target) st.
Proof.
  assert (H : forall key, In key (map fst (md_extras record_mapped)) ->
                          existsb (String.eqb key) may_raise_keys = false).
  { intros key Hin. simpl in Hin.
    destruct Hin as [<-|[<-|[<-|[]]]]; reflexivity. }
  split; [exact H|].
  apply (proj2 (mapped_exactly_when record_mapped H)).
  split; [discriminate|]. split; [simpl; tauto|]. split; [simpl; tauto|].
  reflexivity.
Defined.

(** ** What reaches the target record *)

Lemma iterate_extras_appends {X} (proj : Locals -> list X) (g : string -> X)
    (field : string) :
  (forall it st, proj (set_item it st) = proj st) ->
  (forall key value, key <> field -> keeps proj (handle_extra key value)) ->
  (forall value st a st',
      handle_extra field value st = Done a st' ->
      proj st' = (proj st ++ [g value])%list) ->
  forall extras st a st',
    iterate_extras extras st = Done a st' ->
    proj st' = (proj st ++ map g (values_of field extras))%list.
Proof.
  intros Hitem Hother Hfield extras.
  induction extras as [|[key value] rest IH]; intros st a st' H; simpl in H.
  - inversion H. unfold values_of. simpl. now rewrite app_nil_r.
  - apply bind_Done in H as (? & st1 & H1 & H).
    apply bind_Done in H as (? & st2 & H2 & H).
    inversion H1; subst st1. clear H1.
    rewrite (IH _ _ _ H). unfold values_of. simpl.
    destruct (String.eqb_spec key field) as [->|Hne].
    + rewrite (Hfield _ _ _ _ H2), Hitem. simpl.
      now rewrite <- app_assoc.
    + rewrite (Hother _ _ Hne _ _ _ H2). now rewrite Hitem.
Qed.

Lemma collect_tags_appends (l : list string) st a st' :
  collect_tags l st = Done a st' -> tags st' = (tags st ++ l)%list.
Proof.
  revert st. induction l as [|t rest IH]; intros st H; simpl in H.
  - inversion H. now rewrite app_nil_r.
  - apply bind_Done in H as ([] & s1 & E1 & H).
    apply bind_Done in H as ([] & s2 & E2 & H).
    apply bind_Done in H as ([] & s3 & H3 & H).
    unfold modify in E1, E2. injection E1 as <-. injection E2 as <-.
    rewrite (IH _ H).
    assert (K : keeps tags (check (check_is_string t "tags" false (Some 50))))
      by keeps_auto.
    rewrite (K _ _ _ H3). simpl. now rewrite <- app_assoc.
Qed.

Lemma handle_extra_keeps_tags (key value : string) :
  keeps tags (handle_extra key value).
Proof. keeps_dispatch_all. Qed.

Lemma handle_extra_keeps_targetUsersNames (key value : string) :
  key <> "ClassificationInformation:Target User" ->
  keeps targetUsersNames (handle_extra key value).
Proof. intros Hkey. keeps_dispatch Hkey. Qed.

Lemma handle_extra_keeps_category_names (key value : string) :
  key <> "ClassificationInformation:Category" ->
  keeps category_names (handle_extra key value).
Proof. intros Hkey. keeps_dispatch Hkey. Qed.

Lemma handle_extra_keeps_domain_names (key value : string) :
  key <> "ClassificationInformation:Scientific Domain" ->
  keeps domain_names (handle_extra key value).
Proof. intros Hkey. keeps_dispatch Hkey. Qed.

(** The statements of a handler that follow an assignment keep [proj]. *)
Ltac rest_keeps proj H :=
  match type of H with
  | ?m ?s = Done _ _ =>
      let K := fresh "K" in
      assert (K : keeps proj m) by keeps_auto;
      rewrite (K _ _ _ H)
  end.

Lemma domain_names_after_loop extras st a st' :
  iterate_extras extras st = Done a st' ->
  domain_names st'
  = (domain_names st
     ++ map PyStr.strip
          (values_of "ClassificationInformation:Scientific Domain" extras))%list.
Proof.
  apply (iterate_extras_appends domain_names).
  - reflexivity.
  - apply handle_extra_keeps_domain_names.
  - intros value s b s' H.
    change (extras_Scientific_Domain value s = Done b s') in H.
    unfold extras_Scientific_Domain in H.
    apply bind_Done in H as (? & s1 & H1 & H). inversion H1; subst s1; clear H1.
    rest_keeps domain_names H. reflexivity.
Qed.

Lemma category_names_after_loop extras st a st' :
  iterate_extras extras st = Done a st' ->
  category_names st'
  = (category_names st
     ++ map PyStr.strip
          (values_of "ClassificationInformation:Category" extras))%list.
Proof.
  apply (iterate_extras_appends category_names).
  - reflexivity.
  - apply handle_extra_keeps_category_names.
  - intros value s b s' H.
    change (extras_Category value s = Done b s') in H.
    unfold extras_Category in H. cbv zeta in H.
    apply bind_Done in H as (? & s1 & H1 & H). inversion H1; subst s1; clear H1.
    rest_keeps category_names H. reflexivity.
Qed.

Lemma targetUsersNames_after_loop extras st a st' :
  iterate_extras extras st = Done a st' ->
  targetUsersNames st'
  = (targetUsersNames st
     ++ map target_user_name
          (values_of "ClassificationInformation:Target User" extras))%list.
Proof.
  apply (iterate_extras_appends targetUsersNames).
  - reflexivity.
  - apply handle_extra_keeps_targetUsersNames.
  - intros value s b s' H.
    change (extras_Target_User value s = Done b s') in H.
    unfold extras_Target_User in H. cbv zeta in H.
    apply bind_Done in H as (vb & s1 & H1 & H).
    assert (E1 : vb = target_user_name value
                 /\ targetUsersNames s1 = targetUsersNames s).
    { unfold target_user_name.
      destruct (PyStr.strip value =? "Researcher groups").
      - apply bind_Done in H1 as (? & s0 & H0 & H1).
        inversion H0; subst s0; clear H0. inversion H1; subst. auto.
      - inversion H1; subst. auto. }
    destruct E1 as (-> & E1).
    apply bind_Done in H as (ve & s2 & H2 & H).
    assert (E2 : s2 = s1).
    { unfold lookup in H2. destruct (dict_get _ _); inversion H2; reflexivity. }
    subst s2.
    apply bind_Done in H as (? & s3 & H3 & H). inversion H3; subst s3; clear H3.
    rest_keeps targetUsersNames H. simpl. now rewrite E1.
Qed.

Lemma assemble_Done_target s0 r st :
  assemble s0 = Done r st ->
  exists composite_domains composite_categories,
    r = ReturnsTarget (build_target st composite_domains composite_categories).
Proof.
  unfold assemble. intros Ha.
  repeat (apply bind_Done in Ha; destruct Ha as (? & ? & ? & Ha)).
  inversion Ha; subst; clear Ha.
  repeat match goal with
         | H : gets _ _ = Done _ _ |- _ => inversion H; subst; clear H
         end.
  eexists. eexists. reflexivity.
Qed.

Lemma assemble_tags s0 r st :
  assemble s0 = Done r st ->
  tags st
  = filter_tags (targetUsersNames s0) (category_names s0) (domain_names s0)
      (tags s0).
Proof.
  unfold assemble. intros H.
  set (P := fun s => (tags s, targetUsersNames s, category_names s,
                      domain_names s)).
  assert (Km : keeps P construct_multimedia)
    by (unfold construct_multimedia; keeps_auto).
  assert (Ku : keeps P construct_useCases)
    by (unfold construct_useCases; keeps_auto).
  assert (Kc : keeps P construct_contacts)
    by (unfold construct_contacts; keeps_auto).
  apply bind_Done in H as (? & s1 & H1 & H). apply Km in H1.
  apply bind_Done in H as (? & s2 & H2 & H). apply Ku in H2.
  apply bind_Done in H as (? & s3 & H3 & H). apply Kc in H3.
  apply bind_Done in H as (dom & ? & G1 & H). inversion G1; subst; clear G1.
  apply bind_Done in H as (sub & ? & G2 & H). inversion G2; subst; clear G2.
  apply bind_Done in H as (cd & s4 & H4 & H).
  apply (match_composites_keeps P (fun _ _ => eq_refl)) in H4.
  apply bind_Done in H as (cat & ? & G3 & H). inversion G3; subst; clear G3.
  apply bind_Done in H as (subcat & ? & G4 & H). inversion G4; subst; clear G4.
  apply bind_Done in H as (cc & s5 & H5 & H).
  apply (match_composites_keeps P (fun _ _ => eq_refl)) in H5.
  apply bind_Done in H as (? & s6 & H6 & H).
  apply filter_tags_step_tags in H6.
  apply bind_Done in H as (? & s7 & H7 & H).
  apply (check_missing_keeps tags (fun _ _ => eq_refl)) in H7.
  apply bind_Done in H as (? & s8 & H8 & H).
  apply (print_collected_keeps tags (fun _ _ => eq_refl)) in H8.
  apply bind_Done in H as (? & s9 & G5 & H). inversion G5; subst; clear G5.
  inversion H; subst; clear H.
  assert (E : P s5 = P s0) by congruence.
  unfold P in E. inversion E as [[E1 E2 E3 E4]].
  rewrite H8, H7, H6. congruence.
Qed.

Lemma collect_tags_and_names (md : SourceRecord) st :
  collect md fresh = Done tt st ->
  tags st = md_tags md
  /\ targetUsersNames st
     = map target_user_name
         (values_of "ClassificationInformation:Target User" (md_extras md))
  /\ category_names st
     = map PyStr.strip
         (values_of "ClassificationInformation:Category" (md_extras md))
  /\ domain_names st
     = map PyStr.strip
         (values_of "ClassificationInformation:Scientific Domain" (md_extras md)).
Proof.
  intros H. unfold collect in H.
  apply bind_Done in H as ([] & s0 & Hd & Hl).
  assert (Ht : tags s0 = md_tags md).
  { unfold extract_direct in Hd.
    repeat (apply bind_Done in Hd; destruct Hd as (? & ? & ? & Hd)).
    apply collect_tags_appends in Hd. rewrite Hd.
    repeat match goal with
           | H : ?m ?s = Done _ _ |- _ =>
               let K := fresh "K" in
               assert (K : keeps tags m)
                 by (unfold lookup; keeps_auto);
               rewrite (K _ _ _ H); clear K H
           end.
    reflexivity. }
  assert (Hu : targetUsersNames s0 = []).
  { apply (extract_direct_keeps targetUsersNames md) in Hd; auto. }
  assert (Hc : category_names s0 = []).
  { apply (extract_direct_keeps category_names md) in Hd; auto. }
  assert (Hn : domain_names s0 = []).
  { apply (extract_direct_keeps domain_names md) in Hd; auto. }
  split; [|split; [|split]].
  - rewrite <- Ht. apply (iterate_extras_keeps tags) in Hl; try reflexivity; auto.
    intros key value _. apply handle_extra_keeps_tags.
  - rewrite (targetUsersNames_after_loop _ _ _ _ Hl), Hu. reflexivity.
  - rewrite (category_names_after_loop _ _ _ _ Hl), Hc. reflexivity.
  - rewrite (domain_names_after_loop _ _ _ _ Hl), Hn. reflexivity.
Qed.

(** X5.  The tags of a returned target record are the tags of the source
    record, in their order, without those that start with 'Access Mode' or
    'Access Type' and without those equal to a display name that the extras
    give for a target user, a category or a scientific domain (the stripped
    value; 'Researcher groups' counts as 'Research Groups'). *)
Theorem target_tags_are_the_filtered_source_tags
    (md : SourceRecord) (target : Target.t) (st : Locals) :
  extract_bluecloud_metadata md = Done (ReturnsTarget target) st ->
  Target.tags target
  = filter
      (fun tag =>
         negb (PyStr.startswith tag "Access Mode"
               || PyStr.startswith tag "Access Type"
               || py_in tag
                    (map target_user_name
                       (values_of "ClassificationInformation:Target User"
                          (md_extras md)))
               || py_in tag
                    (map PyStr.strip
                       (values_of "ClassificationInformation:Category"
                          (md_extras md)))
               || py_in tag
                    (map PyStr.strip
                       (values_of "ClassificationInformation:Scientific Domain"
                          (md_extras md)))))
      (md_tags md).
Proof.
  unfold extract_bluecloud_metadata, run. intros H.
  apply bind_Done in H as ([] & s0 & Hc & Ha).
  destruct (assemble_Done_target _ _ _ Ha) as (cd & cc & E).
  injection E as ->. cbn [Target.tags build_target].
  rewrite (assemble_tags _ _ _ Ha), filter_tags_is_filter.
  destruct (collect_tags_and_names md s0 Hc) as (-> & -> & -> & ->).
  apply filter_ext. intros tag. unfold tag_removed. f_equal.
  repeat match goal with |- context [py_in tag ?l] => destruct (py_in tag l) end;
    destruct (PyStr.startswith tag "Access Mode"),
      (PyStr.startswith tag "Access Type"); reflexivity.
Qed.

Lemma target_tags_are_the_filtered_source_tags_witness :
  exists target st,
    extract_bluecloud_metadata record_with_repeated_fields
    = Done (ReturnsTarget target) st
    /\ Target.tags target = ["ocean"; "regimes"].
Proof.
  eexists. eexists. split; [vm_compute; reflexivity|].
  etransitivity.
  - eapply (target_tags_are_the_filtered_source_tags record_with_repeated_fields).
    vm_compute. reflexivity.
  - vm_compute. reflexivity.
Defined.

Ltac assemble_keeps :=
  unfold assemble;
  repeat first
    [ apply match_composites_keeps; reflexivity
    | apply filter_tags_step_keeps; reflexivity
    | apply check_missing_keeps; reflexivity
    | apply print_collected_keeps; reflexivity
    | apply keeps_bind; [|intros ?]
    | apply keeps_gets
    | apply keeps_ret
    | progress keeps_auto ].

Lemma string_field_assigns (proj : Locals -> string)
    (assign : string -> Locals -> Locals) (name : string) (mandatory : bool)
    (max_len : nat) :
  (forall v st, proj (assign v st) = v) ->
  (forall e st, proj (set_eff e st) = proj st) ->
  forall value st a st',
    string_field assign name mandatory max_len value st = Done a st' ->
    proj st' = PyStr.strip value.
Proof.
  intros Hassign Heff value st a st' H. unfold string_field in H.
  apply bind_Done in H as (? & st1 & H1 & H).
  inversion H1; subst st1. clear H1.
  assert (K : keeps proj
                (check (check_is_string (PyStr.strip value) name mandatory
                          (Some max_len)) ;;
                 trace (LStr (PyStr.strip value)) name)).
  { apply keeps_bind; [|intros _; apply keeps_modify; intros; apply Heff].
    unfold check. apply keeps_bind; [|intros _; apply keeps_ret].
    apply keeps_liftE. exact Heff. }
  rewrite (K _ _ _ H). apply Hassign.
Qed.

Lemma handle_extra_keeps_webpage (key value : string) :
  key <> "BasicInformation:Webpage" -> keeps webpage (handle_extra key value).
Proof. intros Hkey. keeps_dispatch Hkey. Qed.

Lemma handle_extra_keeps_tagline (key value : string) :
  key <> "MarketingInformation:Tagline" -> keeps tagline (handle_extra key value).
Proof. intros Hkey. keeps_dispatch Hkey. Qed.

Lemma handle_extra_keeps_logo (key value : string) :
  key <> "MarketingInformation:Logo" -> keeps logo (handle_extra key value).
Proof. intros Hkey. keeps_dispatch Hkey. Qed.

Lemma collect_texts (md : SourceRecord) st :
  collect md fresh = Done tt st ->
  webpage st = effective_value "BasicInformation:Webpage" (md_extras md) EmptyString
  /\ tagline st
     = effective_value "MarketingInformation:Tagline" (md_extras md) EmptyString
  /\ logo st = effective_value "MarketingInformation:Logo" (md_extras md) EmptyString.
Proof.
  intros H. unfold collect in H.
  apply bind_Done in H as ([] & s0 & Hd & Hl).
  assert (Hw : webpage s0 = EmptyString).
  { apply (extract_direct_keeps webpage md) in Hd; auto. }
  assert (Ht : tagline s0 = EmptyString).
  { apply (extract_direct_keeps tagline md) in Hd; auto. }
  assert (Hg : logo s0 = EmptyString).
  { apply (extract_direct_keeps logo md) in Hd; auto. }
  split; [|split].
  - rewrite (iterate_extras_effective webpage "BasicInformation:Webpage"
             (fun _ _ => eq_refl) handle_extra_keeps_webpage
             (url_field_assigns webpage set_webpage "webpage" true
                (fun _ _ => eq_refl) (fun _ _ => eq_refl)) _ _ _ _ Hl).
    congruence.
  - rewrite (iterate_extras_effective tagline "MarketingInformation:Tagline"
             (fun _ _ => eq_refl) handle_extra_keeps_tagline
             (string_field_assigns tagline set_tagline "tagline" true 100
                (fun _ _ => eq_refl) (fun _ _ => eq_refl)) _ _ _ _ Hl).
    congruence.
  - rewrite (iterate_extras_effective logo "MarketingInformation:Logo"
             (fun _ _ => eq_refl) handle_extra_keeps_logo
             (url_field_assigns logo set_logo "logo" true
                (fun _ _ => eq_refl) (fun _ _ => eq_refl)) _ _ _ _ Hl).
    congruence.
Qed.

Lemma assemble_keeps_texts :
  keeps (fun st => (webpage st, tagline st, logo st)) assemble.
Proof. assemble_keeps. Qed.

(** X6.  The webpage, the tagline and the logo of a returned target record
    are each the stripped value of the last entry of the extras with the
    field's key, and the empty string when there is none: a later entry
    overwrites an earlier one, and a value whose validation fails reaches
    the target all the same. *)
Theorem target_texts_are_the_last_entries
    (md : SourceRecord) (target : Target.t) (st : Locals) :
  extract_bluecloud_metadata md = Done (ReturnsTarget target) st ->
  Target.webpage target
  = effective_value "BasicInformation:Webpage" (md_extras md) EmptyString
  /\ Target.tagline target
     = effective_value "MarketingInformation:Tagline" (md_extras md) EmptyString
  /\ Target.logo target
     = effective_value "MarketingInformation:Logo" (md_extras md) EmptyString.
Proof.
  unfold extract_bluecloud_metadata, run. intros H.
  apply bind_Done in H as ([] & s0 & Hc & Ha).
  destruct (assemble_Done_target _ _ _ Ha) as (cd & cc & E).
  injection E as ->. cbn [Target.webpage Target.tagline Target.logo build_target].
  pose proof (assemble_keeps_texts _ _ _ Ha) as K. cbv beta in K.
  inversion K as [[E1 E2 E3]]. rewrite E1, E2, E3.
  exact (collect_texts md s0 Hc).
Qed.

Lemma target_texts_are_the_last_entries_witness :
  exists target st,
    extract_bluecloud_metadata record_with_repeated_fields
    = Done (ReturnsTarget target) st
    /\ Target.webpage target = "ocean.example.org"
    /\ Target.tagline target = "Regimes of the ocean"
    /\ Target.logo target = EmptyString.
Proof.
  eexists. eexists. split; [vm_compute; reflexivity|].
  eapply (target_texts_are_the_last_entries record_with_repeated_fields).
  vm_compute. reflexivity.
Defined.

Lemma cv_list_field_appends (cv : dict) (proj : Locals -> list string)
    (assign : list string -> Locals -> Locals) (name : string) :
  (forall l st, proj (assign l st) = l) ->
  (forall e st, proj (set_eff e st) = proj st) ->
  forall value st a st',
    cv_list_field cv proj assign name value st = Done a st' ->
    map Some (proj st')
    = (map Some (proj st)
       ++ [dict_get cv (PyStr.lower (PyStr.strip value))])%list.
Proof.
  intros Hassign Heff value st a st' H.
  unfold cv_list_field, bind, lookup in H.
  destruct (dict_get cv (PyStr.lower (PyStr.strip value))) as [id|];
    [|discriminate H].
  unfold ret, modify, trace in H. inversion H; subst.
  rewrite Heff, Hassign, map_app. reflexivity.
Qed.

Lemma handle_extra_keeps_accessTypes (key value : string) :
  key <> "ClassificationInformation:Access Type" ->
  keeps accessTypes (handle_extra key value).
Proof. intros Hkey. keeps_dispatch Hkey. Qed.

Lemma handle_extra_keeps_accessModes (key value : string) :
  key <> "ClassificationInformation:Access Mode" ->
  keeps accessModes (handle_extra key value).
Proof. intros Hkey. keeps_dispatch Hkey. Qed.

Lemma handle_extra_keeps_fundingBodies (key value : string) :
  key <> "AttributionInformation:Funding Body" ->
  keeps fundingBodies (handle_extra key value).
Proof. intros Hkey. keeps_dispatch Hkey. Qed.

Lemma handle_extra_keeps_fundingPrograms (key value : string) :
  key <> "AttributionInformation:Funding Program" ->
  keeps fundingPrograms (handle_extra key value).
Proof. intros Hkey. keeps_dispatch Hkey. Qed.

Section VocabularyLists.

Variables (cv : dict) (proj : Locals -> list string)
          (assign : list string -> Locals -> Locals) (name field : string).
Hypothesis proj_assign : forall l st, proj (assign l st) = l.
Hypothesis proj_set_eff : forall e st, proj (set_eff e st) = proj st.
Hypothesis proj_set_item : forall it st, proj (set_item it st) = proj st.
Hypothesis proj_fresh : proj fresh = [].
Hypothesis others_keep :
  forall key value, key <> field -> keeps proj (handle_extra key value).
Hypothesis field_handler :
  forall value, handle_extra field value = cv_list_field cv proj assign name value.
Hypothesis extract_direct_keeps_proj :
  forall md, keeps proj (extract_direct md).

Lemma collect_vocabulary_list (md : SourceRecord) st :
  collect md fresh = Done tt st ->
  map Some (proj st)
  = map (fun v => dict_get cv (PyStr.lower (PyStr.strip v)))
        (values_of field (md_extras md)).
Proof.
  intros H. unfold collect in H.
  apply bind_Done in H as ([] & s0 & Hd & Hl).
  assert (H0 : proj s0 = []).
  { rewrite (extract_direct_keeps_proj md _ _ _ Hd). exact proj_fresh. }
  assert (K : forall key value,
             key <> field ->
             keeps (fun s => map Some (proj s)) (handle_extra key value)).
  { intros key value Hne s b s' Hs. f_equal.
    exact (others_keep key value Hne s b s' Hs). }
  rewrite (iterate_extras_appends (fun s => map Some (proj s))
             (fun v => dict_get cv (PyStr.lower (PyStr.strip v))) field
             (fun it s => f_equal (map Some) (proj_set_item it s)) K
             (fun value s b s' Hs =>
                cv_list_field_appends cv proj assign name proj_assign
                  proj_set_eff value s b s'
                  (eq_ind _ (fun m => m s = Done b s') Hs _ (field_handler value)))
             _ _ _ _ Hl).
  now rewrite H0.
Qed.

End VocabularyLists.

Lemma assemble_keeps_vocabulary_lists :
  keeps (fun st => (accessTypes st, accessModes st, fundingBodies st,
                    fundingPrograms st)) assemble.
Proof. assemble_keeps. Qed.

(** X7.  The access types, access modes, funding bodies and funding programs
    of a returned target record hold one id for each entry of the extras with
    the field's key, in the order of the extras and with repetitions: the id
    that the vocabulary gives to the stripped value in lower case, every such
    value being in the vocabulary. *)
Theorem target_vocabulary_lists_follow_the_extras
    (md : SourceRecord) (target : Target.t) (st : Locals) :
  extract_bluecloud_metadata md = Done (ReturnsTarget target) st ->
  let ids (cv : dict) (key : string) :=
    map (fun v => dict_get cv (PyStr.lower (PyStr.strip v)))
        (values_of key (md_extras md)) in
  map Some (Target.accessTypes target)
  = ids ACCESS_TYPES "ClassificationInformation:Access Type"
  /\ map Some (Target.accessModes target)
     = ids ACCESS_MODES "ClassificationInformation:Access Mode"
  /\ map Some (Target.fundingBody target)
     = ids FUNDING_BODIES "AttributionInformation:Funding Body"
  /\ map Some (Target.fundingPrograms target)
     = ids FUNDING_PROGRAMS "AttributionInformation:Funding Program".
Proof.
  unfold extract_bluecloud_metadata, run. intros H.
  apply bind_Done in H as ([] & s0 & Hc & Ha).
  destruct (assemble_Done_target _ _ _ Ha) as (cd & cc & E).
  injection E as ->.
  cbn [Target.accessTypes Target.accessModes Target.fundingBody
       Target.fundingPrograms build_target].
  pose proof (assemble_keeps_vocabulary_lists _ _ _ Ha) as K. cbv beta in K.
  inversion K as [[E1 E2 E3 E4]]. rewrite E1, E2, E3, E4. cbv zeta.
  split; [|split; [|split]].
  - apply (collect_vocabulary_list ACCESS_TYPES accessTypes set_accessTypes
             "accessTypes" "ClassificationInformation:Access Type");
      try reflexivity; auto using handle_extra_keeps_accessTypes.
    intros m. apply extract_direct_keeps; reflexivity.
  - apply (collect_vocabulary_list ACCESS_MODES accessModes set_accessModes
             "accessModes" "ClassificationInformation:Access Mode");
      try reflexivity; auto using handle_extra_keeps_accessModes.
    intros m. apply extract_direct_keeps; reflexivity.
  - apply (collect_vocabulary_list FUNDING_BODIES fundingBodies set_fundingBodies
             "fundingBody" "AttributionInformation:Funding Body");
      try reflexivity; auto using handle_extra_keeps_fundingBodies.
    intros m. apply extract_direct_keeps; reflexivity.
  - apply (collect_vocabulary_list FUNDING_PROGRAMS fundingPrograms
             set_fundingPrograms "fundingProgram"
             "AttributionInformation:Funding Program");
      try reflexivity; auto using handle_extra_keeps_fundingPrograms.
    intros m. apply extract_direct_keeps; reflexivity.
Qed.

Lemma target_vocabulary_lists_follow_the_extras_witness :
  exists target st,
    extract_bluecloud_metadata record_with_repeated_fields
    = Done (ReturnsTarget target) st
    /\ map Some (Target.accessModes target)
       = [Some "access_mode-paid"; Some "access_mode-free"].
Proof.
  eexists. eexists. split; [vm_compute; reflexivity|].
  etransitivity.
  - eapply (target_vocabulary_lists_follow_the_extras
              record_with_repeated_fields).
    vm_compute. reflexivity.
  - vm_compute. reflexivity.
Defined.

(** ** Records that are never mapped *)

Lemma dict_get_None (d : dict) (k : string) :
  ~ In k (map fst d) -> dict_get d k = None.
Proof.
  induction d as [|[k' v] d IH]; intros Hno; simpl.
  - reflexivity.
  - destruct (String.eqb_spec k k') as [->|Hne].
    + exfalso. apply Hno. now left.
    + apply IH. intros Hin. apply Hno. now right.
Qed.

(** X8.  A record whose service name is not one of the names of the
    abbreviation table is never mapped, whatever else it holds: the call
    raises the KeyError of that name before a tag or an extra is read. *)
Theorem service_name_must_be_known (md : SourceRecord) :
  ~ In (md_name md) (map fst ABBREVIATIONS) ->
  extract_bluecloud_metadata md = Raised (KeyError (md_name md)).
Proof.
  intros Hno. unfold extract_bluecloud_metadata, run, collect.
  apply bind_Raised_l, bind_Raised_l, extract_direct_unknown.
  now apply dict_get_None.
Qed.

Lemma service_name_must_be_known_witness :
  extract_bluecloud_metadata record_with_unknown_name
  = Raised (KeyError "a_new_service").
Proof.
  apply (service_name_must_be_known record_with_unknown_name).
  simpl. intros H.
  repeat (destruct H as [H|H]; [discriminate H|]). exact H.
Defined.

Lemma construct_contacts_public_unbound st mn :
  maincontact_name st = Some mn -> publiccontact_name st = None ->
  forall A (k : unit -> M A),
    bind construct_contacts k st = Raised (UnboundLocalError "publiccontact_name").
Proof.
  intros Hm Hp A k. unfold construct_contacts, bind, read_local, liftE, modify.
  rewrite Hm.
  destruct (get_name_from_val mn "maincontact_name" (eff st)) as [[f l] e1].
  cbn. now rewrite Hp.
Qed.

(** X9.  A record whose extras have no 'ContactInformation:Public Contact
    Name' entry is never mapped: the call raises, and when the record names a
    main contact and the statements before the construction of the contacts
    complete, the exception is the unbound local [publiccontact_name]. *)
Theorem public_contact_name_required (md : SourceRecord) :
  ~ In "ContactInformation:Public Contact Name" (map fst (md_extras md)) ->
  exists e,
    extract_bluecloud_metadata md = Raised e
    /\ (forall st,
          before_contacts md fresh = Done tt st ->
          In "ContactInformation:Main Contact Name" (map fst (md_extras md)) ->
          e = UnboundLocalError "publiccontact_name").
Proof.
  intros Hno. unfold extract_bluecloud_metadata.
  destruct (run md fresh) as [e|r st] eqn:R.
  2:{ exfalso. apply Hno. exact (proj2 (run_Done_names md r st R)). }
  exists e. split; [reflexivity|]. intros st Hb Hmain.
  unfold before_contacts in Hb.
  apply bind_Done in Hb as ([] & s0 & Hc & Hb).
  apply bind_Done in Hb as ([] & s1 & H1 & H2).
  destruct (collect_names md s0 Hc) as (Hmn & Hpn).
  rewrite (last_assigned_unbound _ _ _ _ Hno) in Hpn.
  destruct (last_assigned_bound PyStr.strip _ (md_extras md) None Hmain)
    as (mn & Bm).
  pose proof (construct_multimedia_keeps_names_and_children _ _ _ H1) as K1.
  pose proof (construct_useCases_keeps_names_and_children _ _ _ H2) as K2.
  cbv beta in K1, K2. inversion K1 as [[E1 E2 E3 E4 E5]].
  inversion K2 as [[F1 F2 F3 F4]].
  unfold run, assemble in R.
  rewrite (bind_Done_l _ _ _ _ _ Hc), (bind_Done_l _ _ _ _ _ H1),
    (bind_Done_l _ _ _ _ _ H2) in R.
  rewrite (construct_contacts_public_unbound st mn) in R by congruence.
  congruence.
Qed.

Lemma public_contact_name_required_witness :
  exists e,
    extract_bluecloud_metadata record_without_public_contact = Raised e
    /\ (forall st,
          before_contacts record_without_public_contact fresh = Done tt st ->
          In "ContactInformation:Main Contact Name"
             (map fst (md_extras record_without_public_contact)) ->
          e = UnboundLocalError "publiccontact_name").
Proof.
  apply (public_contact_name_required record_without_public_contact).
  simpl. intros [H|[]]. discriminate H.
Defined.

(** ** The composite matchers pair ids of the record *)

Lemma lookup_Done (cv : dict) (key : string) st v st' :
  lookup cv key st = Done v st' -> dict_get cv key = Some v /\ st' = st.
Proof.
  unfold lookup. destruct (dict_get cv key); intros H; inversion H; auto.
Qed.

Lemma index_Done (l : list string) (i : nat) st v st' :
  index l i st = Done v st' -> In v l /\ st' = st.
Proof.
  unfold index. destruct (nth_error l i) eqn:E; intros H; inversion H; subst.
  split; [|reflexivity]. eapply nth_error_In. exact E.
Qed.

Lemma match_children_pairs (axis : Axis) (mapping : dict)
    (parent_ids child_ids : list string) (todo : list string) :
  forall composites used st r st',
    match_children axis mapping parent_ids child_ids todo composites used st
    = Done r st' ->
    incl todo child_ids ->
    Forall (fun c => In (main_id c) parent_ids /\ In (sub_id c) child_ids)
           composites ->
    Forall (fun c => In (main_id c) parent_ids /\ In (sub_id c) child_ids)
           (fst r)
    /\ List.length (fst r) <= List.length composites + List.length todo.
Proof.
  induction todo as [|sub rest IH]; intros composites used st r st' H Hincl Hall.
  - inversion H; subst. simpl. split; [exact Hall | lia].
  - cbn [match_children] in H.
    assert (Hsub : In sub child_ids) by (apply Hincl; now left).
    assert (Hrest : incl rest child_ids)
      by (intros x Hx; apply Hincl; now right).
    apply bind_Done in H as (main & s1 & H1 & H).
    destruct (py_in main parent_ids) eqn:Hin.
    + apply bind_Done in H as (? & s2 & _ & H).
      apply IH in H; [|exact Hrest|].
      * destruct H as (HQ & Hlen). split; [exact HQ|].
        rewrite length_app in Hlen. simpl in *. lia.
      * apply Forall_app. split; [exact Hall|]. constructor; [|constructor].
        simpl. split; [now apply py_in_In | exact Hsub].
    + apply bind_Done in H as (? & s2 & _ & H).
      apply bind_Done in H as (? & s3 & _ & H).
      destruct ((List.length parent_ids =? 1) && (List.length child_ids =? 1))%nat.
      * apply bind_Done in H as (p & s4 & Hp & H).
        apply bind_Done in H as (c & s5 & Hc & H).
        apply index_Done in Hp as (Hp & _). apply index_Done in Hc as (Hc & _).
        apply IH in H; [|exact Hrest|].
        -- destruct H as (HQ & Hlen). split; [exact HQ|].
           rewrite length_app in Hlen. simpl in *. lia.
        -- apply Forall_app. split; [exact Hall|]. constructor; [|constructor].
           simpl. split; assumption.
      * apply IH in H; [|exact Hrest|exact Hall].
        destruct H as (HQ & Hlen). split; [exact HQ|]. simpl. lia.
Qed.

Lemma match_composites_pairs (axis : Axis) (mapping : dict)
    (parent_ids child_ids : list string) (st st' : Locals)
    (composites : list Composite) :
  match_composites axis mapping parent_ids child_ids st = Done composites st' ->
  Forall (fun c => In (main_id c) parent_ids /\ In (sub_id c) child_ids)
         composites
  /\ List.length composites <= List.length child_ids.
Proof.
  unfold match_composites. intros H.
  apply bind_Done in H as (? & s1 & _ & H).
  apply bind_Done in H as (? & s2 & _ & H).
  apply bind_Done in H as (r & s3 & Hr & H).
  apply bind_Done in H as (? & s4 & _ & H).
  apply bind_Done in H as (? & s5 & _ & H).
  inversion H; subst; clear H.
  apply match_children_pairs in Hr; [exact Hr | apply incl_refl | constructor].
Qed.

(** X10.  Every composite that a matcher returns pairs one of the parent ids
    it was given with one of the child ids it was given, and it returns at
    most one composite for each child id. *)
Theorem composites_pair_ids_of_the_record (axis : Axis) (mapping : dict)
    (parent_ids child_ids : list string) (st st' : Locals)
    (composites : list Composite) :
  match_composites axis mapping parent_ids child_ids st = Done composites st' ->
  Forall (fun c => In (main_id c) parent_ids /\ In (sub_id c) child_ids)
         composites
  /\ List.length composites <= List.length child_ids.
Proof. apply match_composites_pairs. Qed.

Lemma composites_pair_ids_of_the_record_witness :
  exists composites st',
    match_composites Domains CV_DOM_MAPPING [generic_domain]
      [other_natural_sciences] fresh = Done composites st'
    /\ Forall (fun c => In (main_id c) [generic_domain]
                        /\ In (sub_id c) [other_natural_sciences]) composites
    /\ List.length composites <= 1.
Proof.
  eexists. eexists. split; [vm_compute; reflexivity|].
  eapply (composites_pair_ids_of_the_record Domains CV_DOM_MAPPING
            [generic_domain] [other_natural_sciences] fresh).
  vm_compute. reflexivity.
Defined.

(** ** What the report of missing mandatory fields can name *)

Lemma dict_get_value (d : dict) (k v : string) :
  dict_get d k = Some v -> In v (map snd d).
Proof.
  induction d as [|[k' v'] d IH]; simpl; [discriminate|].
  destruct (k =? k'); intros H; [inversion H; now left | right; auto].
Qed.

Lemma table_ids_not_blank (cv : dict) :
  forallb (fun v => negb (blank v)) (map snd cv) = true ->
  forall k v, dict_get cv k = Some v -> blank v = false.
Proof.
  intros Hall k v H. rewrite forallb_forall in Hall.
  apply negb_true_iff, Hall. eapply dict_get_value. exact H.
Qed.

Lemma iterate_extras_invariant {X} (proj : Locals -> X) (P : X -> Prop)
    (field : string) :
  (forall it st, proj (set_item it st) = proj st) ->
  (forall key value, key <> field -> keeps proj (handle_extra key value)) ->
  (forall value st a st',
      handle_extra field value st = Done a st' -> P (proj st) -> P (proj st')) ->
  forall extras st a st',
    iterate_extras extras st = Done a st' -> P (proj st) -> P (proj st').
Proof.
  intros Hitem Hother Hfield extras.
  induction extras as [|[key value] rest IH]; intros st a st' H HP; simpl in H.
  - now inversion H; subst.
  - apply bind_Done in H as (? & st1 & H1 & H).
    apply bind_Done in H as (? & st2 & H2 & H).
    inversion H1; subst st1. clear H1.
    apply (IH _ _ _ H).
    destruct (String.eqb_spec key field) as [->|Hne].
    + apply (Hfield _ _ _ _ H2). now rewrite Hitem.
    + rewrite (Hother _ _ Hne _ _ _ H2). now rewrite Hitem.
Qed.

Lemma handle_extra_keeps_domain_ids (key value : string) :
  key <> "ClassificationInformation:Scientific Domain" ->
  keeps domain_ids (handle_extra key value).
Proof. intros Hkey. keeps_dispatch Hkey. Qed.

Lemma handle_extra_keeps_category_ids (key value : string) :
  key <> "ClassificationInformation:Category" ->
  keeps category_ids (handle_extra key value).
Proof. intros Hkey. keeps_dispatch Hkey. Qed.

Lemma handle_extra_keeps_geographicalAvailabilities (key value : string) :
  key <> "AvailabilityInformation:Geographical Availability" ->
  keeps geographicalAvailabilities (handle_extra key value).
Proof. intros Hkey. keeps_dispatch Hkey. Qed.

Lemma handle_extra_keeps_languageAvailabilities (key value : string) :
  key <> "AvailabilityInformation:Language Availability" ->
  keeps languageAvailabilities (handle_extra key value).
Proof. intros Hkey. keeps_dispatch Hkey. Qed.

Lemma handle_extra_keeps_abbreviation (key value : string) :
  keeps abbreviation (handle_extra key value).
Proof. keeps_dispatch_all. Qed.

(** A handler that looks an id up in a table and appends it keeps every
    property [Q] that the ids of the table have. *)
Lemma appended_id_of_table (cv : dict) (Q : string -> Prop)
    (key : string) (l : list string) (id : string) :
  (forall k v, dict_get cv k = Some v -> Q v) ->
  dict_get cv key = Some id ->
  Forall Q l -> Forall Q (l ++ [id]).
Proof.
  intros Hcv Hget Hall. apply Forall_app. split; [exact Hall|].
  constructor; [|constructor]. exact (Hcv key id Hget).
Qed.

(** The statements of a handler before an assignment keep [proj]. *)
Ltac front_keeps proj H :=
  match type of H with
  | ?m ?s = Done _ ?s1 =>
      let K := fresh "K" in
      assert (K : proj s1 = proj s)
        by (apply (fun (k : keeps proj m) => k _ _ _ H); keeps_auto)
  end.

Lemma domain_handler_ids (Q : string -> Prop) :
  (forall k v, dict_get CV_DOM k = Some v -> Q v) ->
  forall value st a st',
  extras_Scientific_Domain value st = Done a st' ->
  Forall Q (domain_ids st) -> Forall Q (domain_ids st').
Proof.
  unfold extras_Scientific_Domain. cbv zeta. intros HQ value st a st' H HP.
  apply bind_Done in H as (? & s1 & H1 & H). front_keeps domain_ids H1.
  apply bind_Done in H as (id & s2 & H2 & H).
  apply lookup_Done in H2 as (Hid & ->).
  apply bind_Done in H as (? & s3 & H3 & H). inversion H3; subst s3; clear H3.
  rest_keeps domain_ids H. simpl. rewrite K.
  now apply (appended_id_of_table CV_DOM Q _ _ _ HQ Hid).
Qed.

Lemma subdomain_handler_ids (Q : string -> Prop) :
  (forall k v, dict_get CV_SUBDOM k = Some v -> Q v) ->
  forall value st a st',
  extras_Scientific_Subdomain value st = Done a st' ->
  Forall Q (subdomain_ids st) -> Forall Q (subdomain_ids st').
Proof.
  unfold extras_Scientific_Subdomain. cbv zeta. intros HQ value st a st' H HP.
  apply bind_Done in H as (? & s1 & H1 & H). front_keeps subdomain_ids H1.
  apply bind_Done in H as (? & s2 & H2 & H).
  apply index_Done in H2 as (_ & ->).
  apply bind_Done in H as (id & s3 & H3 & H).
  apply lookup_Done in H3 as (Hid & ->).
  apply bind_Done in H as (? & s4 & H4 & H). inversion H4; subst s4; clear H4.
  rest_keeps subdomain_ids H. simpl. rewrite K.
  now apply (appended_id_of_table CV_SUBDOM Q _ _ _ HQ Hid).
Qed.

Lemma category_handler_ids (Q : string -> Prop) :
  (forall k v, dict_get CV_CAT k = Some v -> Q v) ->
  forall value st a st',
  extras_Category value st = Done a st' ->
  Forall Q (category_ids st) -> Forall Q (category_ids st').
Proof.
  unfold extras_Category. cbv zeta. intros HQ value st a st' H HP.
  apply bind_Done in H as (? & s1 & H1 & H). front_keeps category_ids H1.
  apply bind_Done in H as (? & s2 & H2 & H). front_keeps category_ids H2.
  apply bind_Done in H as (? & s3 & H3 & H). front_keeps category_ids H3.
  apply bind_Done in H as (id & s4 & H4 & H).
  apply lookup_Done in H4 as (Hid & ->).
  apply bind_Done in H as (? & s5 & H5 & H). inversion H5; subst s5; clear H5.
  rest_keeps category_ids H. simpl. rewrite K1, K0, K.
  now apply (appended_id_of_table CV_CAT Q _ _ _ HQ Hid).
Qed.

Lemma subcategory_handler_ids (Q : string -> Prop) :
  (forall k v, dict_get CV_SUBCAT k = Some v -> Q v) ->
  forall value st a st',
  extras_Subcategory value st = Done a st' ->
  Forall Q (subcategory_ids st) -> Forall Q (subcategory_ids st').
Proof.
  unfold extras_Subcategory. cbv zeta. intros HQ value st a st' H HP.
  apply bind_Done in H as (? & s1 & H1 & H). front_keeps subcategory_ids H1.
  apply bind_Done in H as (? & s2 & H2 & H). front_keeps subcategory_ids H2.
  apply bind_Done in H as (? & s3 & H3 & H). front_keeps subcategory_ids H3.
  apply bind_Done in H as (? & s4 & H4 & H).
  apply index_Done in H4 as (_ & ->).
  apply bind_Done in H as (id & s5 & H5 & H).
  apply lookup_Done in H5 as (Hid & ->).
  apply bind_Done in H as (? & s6 & H6 & H). inversion H6; subst s6; clear H6.
  rest_keeps subcategory_ids H. simpl. rewrite K1, K0, K.
  now apply (appended_id_of_table CV_SUBCAT Q _ _ _ HQ Hid).
Qed.

Lemma availability_field_not_empty (proj : Locals -> list string)
    (assign : list string -> Locals -> Locals) (name : string) (empty : Msg) :
  (forall l st, proj (assign l st) = l) ->
  (forall e st, proj (set_eff e st) = proj st) ->
  forall value st a st',
    availability_field proj assign name empty value st = Done a st' ->
    Forall (fun x => is_empty x = false) (proj st) ->
    Forall (fun x => is_empty x = false) (proj st').
Proof.
  intros Hassign Heff value st a st' H HP. unfold availability_field in H.
  apply bind_Done in H as ([vb code] & s1 & H1 & H).
  assert (E : s1 = st).
  { unfold unpack2 in H1.
    destruct (PyStr.split (PyStr.strip value) " (") as [|x [|y [|z l]]];
      inversion H1; reflexivity. }
  subst s1.
  destruct (0 <? String.length (PyStr.rstrip_chars (Ascii.eqb ")") code))%nat
    eqn:Hlen.
  - unfold bind, modify, trace in H. inversion H; subst.
    rewrite Heff, Hassign. apply Forall_app. split; [exact HP|].
    constructor; [|constructor]. unfold is_empty.
    apply Nat.ltb_lt in Hlen. apply Nat.eqb_neq. lia.
  - unfold say, modify in H. inversion H; subst. now rewrite Heff.
Qed.

Lemma extract_direct_abbreviation (md : SourceRecord) st a st' :
  extract_direct md st = Done a st' -> blank (abbreviation st') = false.
Proof.
  unfold extract_direct. intros H.
  apply bind_Done in H as (? & s1 & _ & H).
  apply bind_Done in H as (? & s2 & _ & H).
  apply bind_Done in H as (? & s3 & _ & H).
  apply bind_Done in H as (abbrev & s4 & H4 & H).
  apply lookup_Done in H4 as (Hab & _).
  apply bind_Done in H as (? & s5 & H5 & H). inversion H5; subst s5; clear H5.
  match type of H with
  | ?m ?s = Done _ _ =>
      assert (K : keeps abbreviation m)
        by (keeps_auto; apply collect_tags_keeps; reflexivity);
      rewrite (K _ _ _ H)
  end.
  simpl. exact (table_ids_not_blank ABBREVIATIONS eq_refl _ _ Hab).
Qed.

Lemma collect_mandatory (md : SourceRecord) st :
  collect md fresh = Done tt st ->
  blank (abbreviation st) = false
  /\ Forall (fun x => blank x = false) (domain_ids st)
  /\ Forall (fun x => blank x = false) (subdomain_ids st)
  /\ Forall (fun x => blank x = false) (category_ids st)
  /\ Forall (fun x => blank x = false) (subcategory_ids st)
  /\ Forall (fun x => is_empty x = false) (geographicalAvailabilities st)
  /\ Forall (fun x => is_empty x = false) (languageAvailabilities st).
Proof.
  intros H. unfold collect in H.
  apply bind_Done in H as ([] & s0 & Hd & Hl).
  assert (E : (domain_ids s0, subdomain_ids s0, category_ids s0,
               subcategory_ids s0, geographicalAvailabilities s0,
               languageAvailabilities s0)
              = ([], [], [], [], [], [])).
  { apply (extract_direct_keeps
             (fun s => (domain_ids s, subdomain_ids s, category_ids s,
                        subcategory_ids s, geographicalAvailabilities s,
                        languageAvailabilities s)) md) in Hd; auto. }
  injection E as E1 E2 E3 E4 E5 E6.
  split; [|repeat split].
  - rewrite (iterate_extras_keeps abbreviation (fun _ _ => eq_refl)
               (md_extras md)
               (fun key value _ => handle_extra_keeps_abbreviation key value)
               _ _ _ Hl).
    exact (extract_direct_abbreviation md _ _ _ Hd).
  - apply (iterate_extras_invariant domain_ids _
             "ClassificationInformation:Scientific Domain"
             (fun _ _ => eq_refl) handle_extra_keeps_domain_ids
             (domain_handler_ids _ (table_ids_not_blank CV_DOM eq_refl))
             _ _ _ _ Hl).
    rewrite E1. constructor.
  - apply (iterate_extras_invariant subdomain_ids _
             "ClassificationInformation:Scientific Subdomain"
             (fun _ _ => eq_refl) handle_extra_keeps_subdomain_ids
             (subdomain_handler_ids _ (table_ids_not_blank CV_SUBDOM eq_refl))
             _ _ _ _ Hl).
    rewrite E2. constructor.
  - apply (iterate_extras_invariant category_ids _
             "ClassificationInformation:Category"
             (fun _ _ => eq_refl) handle_extra_keeps_category_ids
             (category_handler_ids _ (table_ids_not_blank CV_CAT eq_refl))
             _ _ _ _ Hl).
    rewrite E3. constructor.
  - apply (iterate_extras_invariant subcategory_ids _
             "ClassificationInformation:Subcategory"
             (fun _ _ => eq_refl) handle_extra_keeps_subcategory_ids
             (subcategory_handler_ids _ (table_ids_not_blank CV_SUBCAT eq_refl))
             _ _ _ _ Hl).
    rewrite E4. constructor.
  - apply (iterate_extras_invariant geographicalAvailabilities _
             "AvailabilityInformation:Geographical Availability"
             (fun _ _ => eq_refl) handle_extra_keeps_geographicalAvailabilities
             (availability_field_not_empty geographicalAvailabilities
                set_geographicalAvailabilities "geographicalAvailabilities"
                GeographicalAvailabilityEmpty (fun _ _ => eq_refl)
                (fun _ _ => eq_refl)) _ _ _ _ Hl).
    rewrite E5. constructor.
  - apply (iterate_extras_invariant languageAvailabilities _
             "AvailabilityInformation:Language Availability"
             (fun _ _ => eq_refl) handle_extra_keeps_languageAvailabilities
             (availability_field_not_empty languageAvailabilities
                set_languageAvailabilities "languageAvailabilities"
                LanguageAvailabilityEmpty (fun _ _ => eq_refl)
                (fun _ _ => eq_refl)) _ _ _ _ Hl).
    rewrite E6. constructor.
Qed.

Lemma assemble_composites s0 r st :
  assemble s0 = Done r st ->
  exists composite_domains composite_categories,
    r = ReturnsTarget (build_target st composite_domains composite_categories)
    /\ Forall (fun c => In (main_id c) (domain_ids s0)
                        /\ In (sub_id c) (subdomain_ids s0)) composite_domains
    /\ Forall (fun c => In (main_id c) (category_ids s0)
                        /\ In (sub_id c) (subcategory_ids s0))
              composite_categories.
Proof.
  unfold assemble. intros H.
  set (P := fun s => (domain_ids s, subdomain_ids s, category_ids s,
                      subcategory_ids s)).
  assert (Km : keeps P construct_multimedia)
    by (unfold construct_multimedia; keeps_auto).
  assert (Ku : keeps P construct_useCases)
    by (unfold construct_useCases; keeps_auto).
  assert (Kc : keeps P construct_contacts)
    by (unfold construct_contacts; keeps_auto).
  apply bind_Done in H as (? & s1 & H1 & H). apply Km in H1.
  apply bind_Done in H as (? & s2 & H2 & H). apply Ku in H2.
  apply bind_Done in H as (? & s3 & H3 & H). apply Kc in H3.
  apply bind_Done in H as (dom & ? & G1 & H). inversion G1; subst; clear G1.
  apply bind_Done in H as (sub & ? & G2 & H). inversion G2; subst; clear G2.
  apply bind_Done in H as (cd & s4 & H4 & H).
  pose proof (match_composites_keeps P (fun _ _ => eq_refl) _ _ _ _ _ _ _ H4)
    as K4.
  apply match_composites_pairs in H4 as (Qd & _).
  apply bind_Done in H as (cat & ? & G3 & H). inversion G3; subst; clear G3.
  apply bind_Done in H as (subcat & ? & G4 & H). inversion G4; subst; clear G4.
  apply bind_Done in H as (cc & s5 & H5 & H).
  apply match_composites_pairs in H5 as (Qc & _).
  apply bind_Done in H as (? & s6 & _ & H).
  apply bind_Done in H as (? & s7 & _ & H).
  apply bind_Done in H as (? & s8 & _ & H).
  apply bind_Done in H as (? & s9 & G5 & H). inversion G5; subst; clear G5.
  inversion H; subst; clear H.
  exists cd, cc. split; [reflexivity|].
  match type of Qd with
  | Forall _ _ =>
      match type of K4 with
      | P ?s4 = P ?s3 =>
          assert (Ea : P s4 = P s0) by congruence;
          assert (Eb : P s3 = P s0) by congruence
      end
  end.
  unfold P in Ea, Eb.
  injection Ea as A1 A2 A3 A4. injection Eb as B1 B2 B3 B4.
  rewrite <- B1, <- B2, <- A3, <- A4. split; assumption.
Qed.

Lemma missing_composites_none (main_name sub_name : string)
    (parents children : list string) (l : list Composite) :
  Forall (fun x => blank x = false) parents ->
  Forall (fun x => blank x = false) children ->
  Forall (fun c => In (main_id c) parents /\ In (sub_id c) children) l ->
  missing_composites main_name sub_name l = [].
Proof.
  intros Hp Hc Hl. rewrite Forall_forall in Hp, Hc.
  unfold missing_composites.
  induction Hl as [|c l (Hm & Hs) _ IH]; simpl; [reflexivity|].
  rewrite (Hp _ Hm), (Hc _ Hs), IH. reflexivity.
Qed.

Lemma missing_items_none (name : string) (l : list string) :
  Forall (fun x => is_empty x = false) l -> missing_items name l = [].
Proof.
  unfold missing_items.
  induction 1 as [|x l Hx _ IH]; simpl; [reflexivity|].
  now rewrite Hx, IH.
Qed.

Lemma assemble_keeps_mandatory :
  keeps (fun st => (abbreviation st, geographicalAvailabilities st,
                    languageAvailabilities st)) assemble.
Proof. assemble_keeps. Qed.

(** X11.  For a returned record, the list of missing mandatory fields (the
    one written to the logger) can name only [eosc_name],
    [resourceOrganisation], [webpage], [description], [tagline], [logo] and
    [targetUsers].  The abbreviation, the scientific domains and categories
    and the two availabilities are never reported missing, not even when the
    record has none: their ids come from the tables and are never blank, and
    the loops over them find nothing to report in an empty list. *)
Theorem missing_report_names_seven_fields
    (md : SourceRecord) (target : Target.t) (st : Locals) :
  extract_bluecloud_metadata md = Done (ReturnsTarget target) st ->
  exists composite_domains composite_categories,
    target = build_target st composite_domains composite_categories
    /\ incl (missing_mandatory st composite_domains composite_categories)
            ["eosc_name"; "resourceOrganisation"; "webpage"; "description";
             "tagline"; "logo"; "targetUsers"].
Proof.
  unfold extract_bluecloud_metadata, run. intros H.
  apply bind_Done in H as ([] & s0 & Hc & Ha).
  destruct (collect_mandatory md s0 Hc)
    as (Hab & Hd & Hsd & Hcat & Hsc & Hg & Hl).
  destruct (assemble_composites _ _ _ Ha) as (cd & cc & E & Qd & Qc).
  injection E as ->. exists cd, cc. split; [reflexivity|].
  pose proof (assemble_keeps_mandatory _ _ _ Ha) as K. cbv beta in K.
  inversion K as [[K1 K2 K3]].
  unfold missing_mandatory. rewrite K1, K2, K3, Hab.
  rewrite (missing_composites_none _ _ _ _ cd Hd Hsd Qd).
  rewrite (missing_composites_none _ _ _ _ cc Hcat Hsc Qc).
  rewrite (missing_items_none _ _ Hg), (missing_items_none _ _ Hl).
  intros x Hx. simpl in Hx. rewrite !in_app_iff in Hx. unfold missing_if in Hx.
  repeat match type of Hx with
         | context [if ?b then _ else _] => destruct b
         end;
    simpl in *; intuition auto.
Qed.

Lemma missing_report_names_seven_fields_witness :
  exists target st,
    extract_bluecloud_metadata record_mapped = Done (ReturnsTarget target) st
    /\ Target.geographicalAvailabilities target = []
    /\ exists composite_domains composite_categories,
         target = build_target st composite_domains composite_categories
         /\ incl (missing_mandatory st composite_domains composite_categories)
                 ["eosc_name"; "resourceOrganisation"; "webpage"; "description";
                  "tagline"; "logo"; "targetUsers"].
Proof.
  eexists. eexists. split; [vm_compute; reflexivity|].
  split; [reflexivity|].
  apply (missing_report_names_seven_fields record_mapped).
  vm_compute. reflexivity.
Defined.

(** * The primary-key file *)

Section PrimaryKeyFile.

Import KeyFile.

(** ** Reading and splitting *)

Lemma all_chars_app (p : ascii -> bool) (a b : string) :
  all_chars p (a ++ b) = all_chars p a && all_chars p b.
Proof.
  induction a as [|c a IH]; simpl; [reflexivity|].
  now rewrite IH, andb_assoc.
Qed.

Lemma all_chars_impl (p q : ascii -> bool) (s : string) :
  (forall c, p c = true -> q c = true) ->
  all_chars p s = true -> all_chars q s = true.
Proof.
  intros Hpq. induction s as [|c s IH]; simpl; [reflexivity|].
  rewrite !andb_true_iff. intros (Hc & Hs). split; auto.
Qed.

Lemma plain_no_CR (s : string) : plain s = true -> no_CR s = true.
Proof.
  apply all_chars_impl. intros c. unfold plain_char.
  rewrite !andb_true_iff. tauto.
Qed.

Lemma plain_no_LF (s : string) :
  plain s = true -> all_chars (fun c => negb (is_LF c)) s = true.
Proof.
  apply all_chars_impl. intros c. unfold plain_char.
  rewrite !andb_true_iff. tauto.
Qed.

Lemma plain_no_semicolon (s : string) :
  plain s = true -> all_chars (fun c => negb (Ascii.eqb c ";")) s = true.
Proof.
  apply all_chars_impl. intros c. unfold plain_char.
  rewrite !andb_true_iff. tauto.
Qed.

Lemma read_text_suffix (a y : string) :
  exists p, read_text (a ++ y) = p ++ read_text y.
Proof.
  induction a as [|c a IH].
  - exists EmptyString. reflexivity.
  - destruct IH as (p & IH). cbn [append read_text].
    destruct (is_CR c).
    + destruct a as [|d a]; cbn [append] in *.
      * destruct y as [|d y].
        -- exists LF. reflexivity.
        -- destruct (is_LF d).
           ++ exists EmptyString. reflexivity.
           ++ exists LF. reflexivity.
      * destruct (is_LF d).
        -- exists p. exact IH.
        -- exists (String (ascii_of_nat 10) p). cbn [append]. now rewrite IH.
    + exists (String c p). cbn [append]. now rewrite IH.
Qed.

Lemma read_text_no_CR_app (x y : string) :
  no_CR x = true -> read_text (x ++ y) = x ++ read_text y.
Proof.
  unfold no_CR. induction x as [|c x IH]; cbn [append all_chars]; [reflexivity|].
  rewrite andb_true_iff, negb_true_iff. intros (Hc & Hx).
  cbn [read_text]. rewrite Hc, (IH Hx). reflexivity.
Qed.

Lemma read_text_no_CR (x : string) : no_CR x = true -> read_text x = x.
Proof.
  intros H. rewrite <- (append_empty_r x) at 1.
  rewrite (read_text_no_CR_app x EmptyString H). apply append_empty_r.
Qed.

Lemma complete_cons (c d : ascii) (s : string) :
  complete (String c (String d s)) = complete (String d s).
Proof. reflexivity. Qed.

Lemma is_LF_not_CR (c : ascii) : is_LF c = true -> is_CR c = false.
Proof.
  unfold is_LF, is_CR. intros H. apply Ascii.eqb_eq in H. subst c. reflexivity.
Qed.

Lemma read_text_complete_app (a y : string) :
  complete a = true -> read_text (a ++ y) = read_text a ++ read_text y.
Proof.
  induction a as [|c a IH]; [reflexivity|].
  destruct a as [|d a].
  - cbn [complete]. intros Hc. cbn [append read_text].
    rewrite (is_LF_not_CR c Hc). reflexivity.
  - rewrite complete_cons. intros Hc. specialize (IH Hc).
    change (String c (String d a) ++ y) with (String c (String d a ++ y)).
    cbn [read_text]. cbn [append] in *.
    destruct (is_CR c); [destruct (is_LF d)|]; cbn [append]; now rewrite IH.
Qed.

Lemma complete_snoc (r : string) : complete (r ++ LF) = true.
Proof.
  induction r as [|c r IH]; [reflexivity|].
  destruct r as [|d r]; [reflexivity|]. exact IH.
Qed.

Lemma complete_ends (a : string) :
  complete a = true -> a = EmptyString \/ exists r, a = r ++ LF.
Proof.
  induction a as [|c a IH]; [now left|].
  destruct a as [|d a].
  - cbn [complete]. intros Hc. apply Ascii.eqb_eq in Hc. subst c.
    right. exists EmptyString. reflexivity.
  - rewrite complete_cons. intros Hc.
    destruct (IH Hc) as [E|(r & E)]; [discriminate E|].
    right. exists (String c r). cbn [append]. now rewrite E.
Qed.

Lemma read_text_complete (a : string) :
  complete a = true -> complete (read_text a) = true.
Proof.
  intros Hc. destruct (complete_ends a Hc) as [->|(r & ->)]; [reflexivity|].
  destruct (read_text_suffix r LF) as (p & ->). apply complete_snoc.
Qed.

Lemma lines_go_complete_app (a y cur : string) :
  complete a = true -> a <> EmptyString ->
  lines_go cur (a ++ y) = (lines_go cur a ++ lines y)%list.
Proof.
  revert cur. induction a as [|c a IH]; intros cur Hc Hne; [congruence|].
  destruct a as [|d a].
  - cbn [complete] in Hc. cbn [append lines_go]. rewrite Hc. reflexivity.
  - rewrite complete_cons in Hc.
    change (String c (String d a) ++ y) with (String c (String d a ++ y)).
    cbn [lines_go]. destruct (is_LF c).
    + rewrite (IH _ Hc) by discriminate. reflexivity.
    + apply IH; [exact Hc | discriminate].
Qed.

Lemma lines_complete_app (a y : string) :
  complete a = true -> lines (a ++ y) = (lines a ++ lines y)%list.
Proof.
  intros Hc. destruct a as [|c a]; [reflexivity|].
  apply lines_go_complete_app; [exact Hc | discriminate].
Qed.

Lemma lines_go_prefix (p t cur : string) :
  all_chars (fun c => negb (is_LF c)) p = true ->
  lines_go cur (p ++ t) = lines_go (cur ++ p) t.
Proof.
  revert cur. induction p as [|c p IH]; intros cur Hp.
  - now rewrite append_empty_r.
  - cbn [all_chars] in Hp. apply andb_true_iff in Hp as (Hc & Hp).
    apply negb_true_iff in Hc. cbn [append lines_go]. rewrite Hc.
    rewrite (IH _ Hp), append_assoc_string. reflexivity.
Qed.

Lemma lines_go_first (t cur : string) :
  cur <> EmptyString ->
  exists tail rest, lines_go cur t = (cur ++ tail) :: rest.
Proof.
  revert cur. induction t as [|c t IH]; intros cur Hne.
  - exists EmptyString, []. cbn [lines_go].
    destruct cur; [congruence|]. now rewrite append_empty_r.
  - cbn [lines_go]. destruct (is_LF c).
    + exists LF. eexists. reflexivity.
    + destruct (IH (cur ++ String c EmptyString)) as (tail & rest & E).
      { destruct cur; discriminate. }
      exists (String c tail), rest. rewrite E, append_assoc_string.
      reflexivity.
Qed.

Lemma find_id_app (blue_id : string) (l1 l2 : list string) :
  find_id blue_id (l1 ++ l2)
  = match find_id blue_id l1 with
    | inr None => find_id blue_id l2
    | r => r
    end.
Proof.
  induction l1 as [|line l1 IH]; [reflexivity|].
  cbn [app find_id].
  destruct (nth_error (PyStr.split line ";") 2) as [third|]; [|reflexivity].
  destruct (third =? blue_id); [|exact IH].
  destruct (nth_error (PyStr.split line ";") 3); reflexivity.
Qed.

Lemma split_go_field (a rest cur : string) :
  all_chars (fun c => negb (Ascii.eqb c ";")) a = true ->
  PyStr.split_go ";" 0 cur (a ++ ";" ++ rest)
  = (cur ++ a) :: PyStr.split_go ";" 0 EmptyString rest.
Proof.
  revert cur. induction a as [|c a IH]; intros cur Ha.
  - rewrite append_empty_r. cbn. destruct rest; reflexivity.
  - cbn [all_chars] in Ha. apply andb_true_iff in Ha as (Hc & Ha).
    apply negb_true_iff in Hc.
    change (String c a ++ ";" ++ rest) with (String c (a ++ ";" ++ rest)).
    cbn [PyStr.split_go]. 
    assert (P : String.prefix ";" (String c (a ++ ";" ++ rest)) = false).
    { cbn [String.prefix]. destruct (Ascii.ascii_dec ";" c) as [E|E];
        [|reflexivity].
      subst c. discriminate Hc. }
    rewrite P, (IH _ Ha), append_assoc_string. reflexivity.
Qed.

Lemma split_field (a rest : string) :
  all_chars (fun c => negb (Ascii.eqb c ";")) a = true ->
  PyStr.split (a ++ ";" ++ rest) ";" = a :: PyStr.split rest ";".
Proof. intros Ha. unfold PyStr.split. now rewrite split_go_field. Qed.

Lemma contains_prefix_app (x q : string) : String.prefix x (x ++ q) = true.
Proof.
  induction x as [|c x IH]; [destruct q; reflexivity|].
  cbn [append String.prefix].
  destruct (Ascii.ascii_dec c c); [exact IH | congruence].
Qed.

Lemma contains_of_prefix (x s : string) :
  String.prefix x s = true -> PyStr.contains x s = true.
Proof. intros H. destruct s; cbn [PyStr.contains]; now rewrite H. Qed.

Lemma contains_app (x p q : string) : PyStr.contains x (p ++ x ++ q) = true.
Proof.
  induction p as [|c p IH].
  - cbn [append]. apply contains_of_prefix, contains_prefix_app.
  - cbn [append PyStr.contains]. rewrite IH. apply orb_true_r.
Qed.

Lemma lines_first (p t : string) :
  all_chars (fun c => negb (is_LF c)) p = true -> p <> EmptyString ->
  exists tail rest, lines (p ++ t) = (p ++ tail) :: rest.
Proof.
  intros Hp Hne. unfold lines. rewrite (lines_go_prefix p t EmptyString Hp).
  apply lines_go_first. exact Hne.
Qed.

Lemma row_fields (now service_name blue_id eosc_id tail : string) :
  plain now = true -> plain service_name = true -> plain blue_id = true ->
  plain eosc_id = true ->
  PyStr.split (now ++ ";" ++ service_name ++ ";" ++ blue_id ++ ";" ++ eosc_id
               ++ ";" ++ tail) ";"
  = now :: service_name :: blue_id :: eosc_id :: PyStr.split tail ";".
Proof.
  intros Hn Hs Hb He.
  rewrite (split_field now _ (plain_no_semicolon _ Hn)).
  rewrite (split_field service_name _ (plain_no_semicolon _ Hs)).
  rewrite (split_field blue_id _ (plain_no_semicolon _ Hb)).
  rewrite (split_field eosc_id _ (plain_no_semicolon _ He)).
  reflexivity.
Qed.

Lemma row_start_all (q : ascii -> bool)
    (now service_name blue_id eosc_id : string) :
  (forall c, plain_char c = true -> q c = true) -> q ";"%char = true ->
  plain now = true -> plain service_name = true -> plain blue_id = true ->
  plain eosc_id = true ->
  all_chars q (now ++ ";" ++ service_name ++ ";" ++ blue_id ++ ";" ++ eosc_id
               ++ ";") = true.
Proof.
  intros Hq Hsemi Hn Hs Hb He.
  rewrite !all_chars_app.
  rewrite (all_chars_impl plain_char q now Hq Hn),
    (all_chars_impl plain_char q service_name Hq Hs),
    (all_chars_impl plain_char q blue_id Hq Hb),
    (all_chars_impl plain_char q eosc_id Hq He).
  cbn [all_chars]. rewrite Hsemi. reflexivity.
Qed.

Lemma row_start_plain (now service_name blue_id eosc_id : string) :
  plain now = true -> plain service_name = true -> plain blue_id = true ->
  plain eosc_id = true ->
  let start := now ++ ";" ++ service_name ++ ";" ++ blue_id ++ ";" ++ eosc_id
               ++ ";" in
  no_CR start = true
  /\ all_chars (fun c => negb (is_LF c)) start = true
  /\ start <> EmptyString.
Proof.
  intros Hn Hs Hb He start. subst start. split; [|split].
  - apply row_start_all; auto.
    intros c. unfold plain_char. rewrite !andb_true_iff. tauto.
  - apply row_start_all; auto.
    intros c. unfold plain_char. rewrite !andb_true_iff. tauto.
  - destruct now; discriminate.
Qed.

(** X12.  On a file that is absent or whose last line is complete, in which
    no line (nor the header) is for the Blue-Cloud id and which does not
    contain the entry yet, [write_id_to_file] followed by
    [get_eosc_id_from_file] gives back the EOSC id, stripped: the fields
    before the title must be free of semicolons and line breaks, the title
    may hold anything. *)
Theorem written_id_is_found
    (blue_id service_name eosc_id eosc_title now : string) (f : file) :
  plain now = true -> plain service_name = true -> plain blue_id = true ->
  plain eosc_id = true ->
  complete (content f) = true ->
  get_eosc_id_from_file blue_id (Some (content f)) = inr None ->
  PyStr.contains (entry blue_id service_name eosc_id eosc_title)
                 (read_text (content f)) = false ->
  get_eosc_id_from_file blue_id
    (snd (write_id_to_file blue_id service_name (Some eosc_id) eosc_title now f))
  = inr (Some (PyStr.strip eosc_id)).
Proof.
  intros Hn Hs Hb He Hc Hnone Hnew.
  unfold write_id_to_file. fold (content f). rewrite Hnew. cbn [snd].
  unfold get_eosc_id_from_file in *.
  rewrite (read_text_complete_app _ _ Hc).
  rewrite (lines_complete_app _ _ (read_text_complete _ Hc)).
  rewrite find_id_app, Hnone.
  destruct (row_start_plain now service_name blue_id eosc_id Hn Hs Hb He)
    as (Hcr & Hlf & Hne).
  set (start := now ++ ";" ++ service_name ++ ";" ++ blue_id ++ ";" ++ eosc_id
                ++ ";") in *.
  assert (E : now ++ ";" ++ entry blue_id service_name eosc_id eosc_title ++ LF
              = start ++ eosc_title ++ LF).
  { unfold entry, start. now rewrite !append_assoc_string. }
  rewrite E, (read_text_no_CR_app start _ Hcr).
  destruct (lines_first start (read_text (eosc_title ++ LF)) Hlf Hne)
    as (tail & rest & ->).
  cbn [find_id].
  assert (F : start ++ tail
              = now ++ ";" ++ service_name ++ ";" ++ blue_id ++ ";" ++ eosc_id
                ++ ";" ++ tail).
  { unfold start. now rewrite !append_assoc_string. }
  rewrite F, (row_fields now service_name blue_id eosc_id tail Hn Hs Hb He).
  cbn [nth_error]. now rewrite String.eqb_refl.
Qed.

Lemma written_id_is_found_witness :
  get_eosc_id_from_file "e5422ae1-4de6-4220-82f0-9869f2768ed3"
    (snd (write_id_to_file "e5422ae1-4de6-4220-82f0-9869f2768ed3"
            "phytoplankton_eovs" (Some "blue-cloud.phytoplankton_eovs")
            "Phytoplankton EOVs" "2022-06-13_17:31:09" None))
  = inr (Some "blue-cloud.phytoplankton_eovs").
Proof.
  apply (written_id_is_found "e5422ae1-4de6-4220-82f0-9869f2768ed3"
           "phytoplankton_eovs" "blue-cloud.phytoplankton_eovs"
           "Phytoplankton EOVs" "2022-06-13_17:31:09" None);
    reflexivity.
Defined.

(** X13.  Writing the same entry a second time changes nothing, whatever the
    file held before and whatever the two time stamps are, provided the
    entry holds no carriage return. *)
Theorem write_id_twice_writes_once
    (blue_id service_name eosc_id eosc_title now now' : string) (f : file) :
  no_CR (entry blue_id service_name eosc_id eosc_title) = true ->
  let f1 := snd (write_id_to_file blue_id service_name (Some eosc_id)
                   eosc_title now f) in
  write_id_to_file blue_id service_name (Some eosc_id) eosc_title now' f1
  = (ReturnsNone, f1).
Proof.
  intros Hcr. cbv zeta. unfold write_id_to_file. fold (content f).
  set (line := entry blue_id service_name eosc_id eosc_title) in *.
  destruct (PyStr.contains line (read_text (content f))) eqn:E; cbn [snd].
  - now rewrite E.
  - assert (C : PyStr.contains line
                  (read_text (content f ++ now ++ ";" ++ line ++ LF)) = true).
    { replace (content f ++ now ++ ";" ++ line ++ LF)
        with ((content f ++ now ++ ";") ++ line ++ LF)
        by now rewrite !append_assoc_string.
      destruct (read_text_suffix (content f ++ now ++ ";") (line ++ LF))
        as (p & ->).
      rewrite (read_text_no_CR_app line LF Hcr). apply contains_app. }
    now rewrite C.
Qed.

Lemma write_id_twice_writes_once_witness :
  let f1 := snd (write_id_to_file "e5422ae1" "phytoplankton_eovs"
                   (Some "blue-cloud.phytoplankton_eovs") "Phytoplankton EOVs"
                   "2022-06-13_17:31:09" None) in
  write_id_to_file "e5422ae1" "phytoplankton_eovs"
    (Some "blue-cloud.phytoplankton_eovs") "Phytoplankton EOVs"
    "2022-06-14_08:00:00" f1
  = (ReturnsNone, f1).
Proof.
  apply (write_id_twice_writes_once "e5422ae1" "phytoplankton_eovs"
           "blue-cloud.phytoplankton_eovs" "Phytoplankton EOVs"
           "2022-06-13_17:31:09" "2022-06-14_08:00:00" None).
  reflexivity.
Defined.

Lemma write_id_keeps_complete
    (blue_id service_name : string) (eosc_id : option string)
    (eosc_title now : string) (f : file) :
  complete (content f) = true ->
  complete (content (snd (write_id_to_file blue_id service_name eosc_id
                            eosc_title now f))) = true.
Proof.
  intros Hc. unfold write_id_to_file. fold (content f).
  destruct eosc_id as [eosc_id|]; [|exact Hc].
  destruct (PyStr.contains _ _); cbn [snd content]; [exact Hc|].
  replace (content f ++ now ++ ";" ++ entry blue_id service_name eosc_id
             eosc_title ++ LF)
    with ((content f ++ now ++ ";" ++ entry blue_id service_name eosc_id
             eosc_title) ++ LF)
    by now rewrite !append_assoc_string.
  apply complete_snoc.
Qed.

(** X14.  An id that the file already gives for a Blue-Cloud id is never
    replaced: on a file whose last line is complete, whatever
    [write_id_to_file] is asked to write (a new EOSC id for the same
    Blue-Cloud id included), [get_eosc_id_from_file] answers as before, be it
    an id or the IndexError of a malformed line; and the last line of the
    file stays complete. *)
Theorem stored_id_is_never_replaced
    (raw blue_id : string) (r : exn + option string)
    (blue_id' service_name' : string) (eosc_id' : option string)
    (eosc_title' now' : string) :
  complete raw = true ->
  get_eosc_id_from_file blue_id (Some raw) = r -> r <> inr None ->
  let f' := snd (write_id_to_file blue_id' service_name' eosc_id' eosc_title'
                   now' (Some raw)) in
  get_eosc_id_from_file blue_id f' = r /\ complete (content f') = true.
Proof.
  intros Hc Hr Hsome f'. split.
  2:{ apply (write_id_keeps_complete _ _ _ _ _ (Some raw)). exact Hc. }
  subst f'. unfold write_id_to_file. cbn [content].
  destruct eosc_id' as [eosc_id'|]; [|exact Hr].
  destruct (PyStr.contains _ _); cbn [snd]; [exact Hr|].
  unfold get_eosc_id_from_file in *.
  rewrite (read_text_complete_app _ _ Hc).
  rewrite (lines_complete_app _ _ (read_text_complete _ Hc)).
  rewrite find_id_app, Hr.
  destruct r as [e|[v|]]; [reflexivity | reflexivity | congruence].
Qed.

Lemma stored_id_is_never_replaced_witness :
  let raw := "2022-06-13_17:31:09;phytoplankton_eovs;e5422ae1;blue-cloud.old;Phytoplankton EOVs" ++ LF in
  let f' := snd (write_id_to_file "e5422ae1" "phytoplankton_eovs"
                   (Some "blue-cloud.new") "Phytoplankton EOVs"
                   "2022-06-14_08:00:00" (Some raw)) in
  get_eosc_id_from_file "e5422ae1" f' = inr (Some "blue-cloud.old")
  /\ complete (content f') = true.
Proof.
  apply (stored_id_is_never_replaced
           ("2022-06-13_17:31:09;phytoplankton_eovs;e5422ae1;blue-cloud.old;Phytoplankton EOVs" ++ LF)
           "e5422ae1" (inr (Some "blue-cloud.old")) "e5422ae1"
           "phytoplankton_eovs" (Some "blue-cloud.new") "Phytoplankton EOVs"
           "2022-06-14_08:00:00");
    [reflexivity | reflexivity | discriminate].
Defined.

End PrimaryKeyFile.

(** * The EOSC catalogue client *)

Section EoscClient.

Import Eosc.
Local Open Scope eosc_scope.
Local Open Scope list_scope.

Lemma ends_impl {A} (out : Outcome A) (P P' : State -> Prop) (Q Q' : A -> Prop) :
  (forall st, P st -> P' st) -> (forall a, Q a -> Q' a) ->
  ends out P Q -> ends out P' Q'.
Proof. destruct out; simpl; intuition. Qed.

Lemma ends_bind {A B} (m : M A) (k : A -> M B) st
    (P P' : State -> Prop) (Q : A -> Prop) (Q' : B -> Prop) :
  ends (m st) P Q ->
  (forall st', P st' -> P' st') ->
  (forall a st', P st' -> Q a -> ends (k a st') P' Q') ->
  ends (bind m k st) P' Q'.
Proof.
  unfold bind. destruct (m st) as [a st'|e st'|]; simpl; intuition.
Qed.

(** [get_new_access_token] sends the token request and nothing else, and
    leaves the key file alone. *)
Lemma get_new_access_token_sends (w : World) st :
  ends (get_new_access_token w st)
       (fun st' => sent st' = sent st ++ [token_request w]
                   /\ key_file st' = key_file st)
       (fun _ => True).
Proof.
  unfold get_new_access_token, bind, send.
  destruct (server w (sent st) (token_request w)) as [|resp]; [simpl; auto|].
  destruct (status_code resp =? 200)%nat; [|simpl; auto].
  unfold json_of. destruct (json resp) as [body|]; [|simpl; auto].
  unfold ret, liftE.
  destruct (subscript body "access_token") as [e|tok]; [simpl; auto|].
  unfold ret. destruct tok; simpl; auto.
Qed.

(** The loop from the first request on. *)
Lemma request_loop_sends (w : World) (fuel : nat) (q : Request) st :
  2 <= fuel ->
  ends (request_loop w fuel 0 q st)
       (fun st' =>
          (exists trace,
              In trace [[q]; [q; token_request w]; [q; token_request w; q]]
              /\ sent st' = sent st ++ trace)
          /\ key_file st' = key_file st)
       (fun resp => status_code resp = 200 \/ status_code resp = 201).
Proof.
  intros Hfuel. destruct fuel as [|[|fuel]]; try lia.
  cbn [request_loop]. unfold bind at 1. unfold send at 1.
  destruct (server w (sent st) q) as [|resp1] eqn:S1.
  { simpl. split; [|reflexivity]. exists [q]. split; [now left | reflexivity]. }
  destruct ((status_code resp1 =? 200) || (status_code resp1 =? 201))%nat eqn:C1.
  { simpl. split; [split; [|reflexivity]|].
    - exists [q]. split; [now left | reflexivity].
    - apply orb_true_iff in C1 as [C|C]; apply Nat.eqb_eq in C; auto. }
  cbn [Nat.add Nat.leb].
  eapply ends_bind; [apply get_new_access_token_sends | |].
  { cbn. intros s1 (Gs & Gk). split; [|exact Gk].
    exists [q; token_request w]. split; [right; now left|].
    rewrite Gs. now rewrite <- app_assoc. }
  cbn. intros _ s1 (Gs & Gk) _.
  unfold bind at 1. unfold send at 1.
  assert (T : exists trace,
             In trace [[q]; [q; token_request w]; [q; token_request w; q]]
             /\ sent s1 ++ [q] = sent st ++ trace).
  { exists [q; token_request w; q]. split; [right; right; now left|].
    rewrite Gs. now rewrite <- !app_assoc. }
  destruct (server w (sent s1) q) as [|resp2] eqn:S2; [simpl; auto|].
  destruct ((status_code resp2 =? 200) || (status_code resp2 =? 201))%nat eqn:C2.
  - simpl. split; [auto|].
    apply orb_true_iff in C2 as [C|C]; apply Nat.eqb_eq in C; auto.
  - simpl. auto.
Qed.

Lemma make_authorized_request_sends (w : World) (fuel : nat)
    (url http_verb : string) (headers : dict) (data : Payload) st :
  2 <= fuel ->
  ends (make_authorized_request w fuel url http_verb headers data st)
       (fun st' =>
          (exists token trace,
              let q := mkRequest http_verb url
                         (set_header "Authorization"
                            ("Bearer " ++ str w token)%string headers) data in
              In trace [[token_request w];
                        [q]; [q; token_request w]; [q; token_request w; q];
                        [token_request w; q];
                        [token_request w; q; token_request w];
                        [token_request w; q; token_request w; q]]
              /\ sent st' = sent st ++ trace
              /\ (EOSC_ACCESS_TOKEN st <> JNull -> token = EOSC_ACCESS_TOKEN st))
          /\ key_file st' = key_file st)
       (fun resp => status_code resp = 200 \/ status_code resp = 201).
Proof.
  intros Hfuel. unfold make_authorized_request.
  unfold bind at 1, gets at 1.
  destruct (EOSC_ACCESS_TOKEN st) eqn:Tok.
  1:{ (* the global is None: a token is fetched first *)
      eapply (ends_bind _ _ _
                (fun st' => sent st' = sent st ++ [token_request w]
                            /\ key_file st' = key_file st)
                _ (fun _ : unit => True)).
      - eapply (ends_bind _ _ _ _ _ (fun _ => True));
          [apply get_new_access_token_sends | |].
        + intros s (Gs & Gk). exact (conj Gs Gk).
        + intros _ s (Gs & Gk) _. simpl. exact (conj (conj Gs Gk) I).
      - cbn. intros s1 (Gs & Gk). split; [|exact Gk].
        exists JNull, [token_request w].
        split; [now left | split; [exact Gs | congruence]].
      - cbn. intros _ s1 (Gs & Gk) _.
        eapply ends_impl; [| |apply request_loop_sends; exact Hfuel].
        + cbn. intros s2 ((trace & Hin & Hs) & Hk). split; [|congruence].
          exists (EOSC_ACCESS_TOKEN s1), (token_request w :: trace).
          split; [|split].
          * cbn in Hin. destruct Hin as [<-|[<-|[<-|[]]]]; cbn;
              repeat (first [left; reflexivity | right]).
          * rewrite Hs, Gs. now rewrite <- app_assoc.
          * congruence.
        + auto. }
  all: unfold bind at 1, ret at 1; unfold bind at 1, gets at 1;
    (eapply ends_impl; [| |apply request_loop_sends; exact Hfuel]);
    [ cbn; intros s2 ((trace & Hin & Hs) & Hk); split; [|exact Hk];
      exists (EOSC_ACCESS_TOKEN st), trace;
      split; [|split; [exact Hs | intros _; congruence]];
      cbn in Hin; destruct Hin as [<-|[<-|[<-|[]]]]; cbn;
      repeat (first [left; reflexivity | right])
    | auto ].
Qed.

(** X15.  [make_authorized_request] sends the request at most twice, and the
    second time it sends the very same request: the Authorization header is
    built once, from the token held before the first attempt, and is not
    rebuilt from the token that is fetched between the two attempts.  A
    token is requested at most twice (once when none is held, once before
    the retry); a response is handed back only with status 200 or 201, and
    the loop comes to an end on two units of fuel. *)
Theorem retry_repeats_the_first_request (w : World) (fuel : nat)
    (url http_verb : string) (headers : dict) (data : Payload) (st : State) :
  2 <= fuel ->
  ends (make_authorized_request w fuel url http_verb headers data st)
       (fun st' =>
          exists token trace,
            let q := mkRequest http_verb url
                       (set_header "Authorization"
                          ("Bearer " ++ str w token)%string headers) data in
            In trace [[token_request w];
                      [q]; [q; token_request w]; [q; token_request w; q];
                      [token_request w; q];
                      [token_request w; q; token_request w];
                      [token_request w; q; token_request w; q]]
            /\ sent st' = sent st ++ trace
            /\ (EOSC_ACCESS_TOKEN st <> JNull -> token = EOSC_ACCESS_TOKEN st))
       (fun resp => status_code resp = 200 \/ status_code resp = 201).
Proof.
  intros Hfuel.
  eapply ends_impl;
    [| |apply make_authorized_request_sends; exact Hfuel]; cbv beta.
  - intros st' (H & _). exact H.
  - auto.
Qed.

Lemma retry_repeats_the_first_request_witness :
  let q := mkRequest "PUT" "https://api.eosc-portal.eu/resource"
             [("Accept", "application/json");
              ("Content-Type", "application/json");
              ("Authorization", "Bearer old")] NoData in
  make_authorized_request refusing_world 2 "https://api.eosc-portal.eu/resource"
    "PUT" json_headers NoData (mkState (JStr "old") [] None)
  = Raises (RuntimeError_tried 2)
      (mkState (JStr "new") [q; token_request refusing_world; q] None)
  /\ ends (make_authorized_request refusing_world 2
             "https://api.eosc-portal.eu/resource" "PUT" json_headers NoData
             (mkState (JStr "old") [] None))
          (fun st' =>
             exists token trace,
               let q := mkRequest "PUT" "https://api.eosc-portal.eu/resource"
                          (set_header "Authorization"
                             ("Bearer " ++ str refusing_world token)%string
                             json_headers) NoData in
               In trace [[token_request refusing_world];
                         [q]; [q; token_request refusing_world];
                         [q; token_request refusing_world; q];
                         [token_request refusing_world; q];
                         [token_request refusing_world; q;
                          token_request refusing_world];
                         [token_request refusing_world; q;
                          token_request refusing_world; q]]
               /\ sent st' = [] ++ trace
               /\ (JStr "old" <> JNull -> token = JStr "old"))
          (fun resp => status_code resp = 200 \/ status_code resp = 201).
Proof.
  split; [reflexivity|].
  apply (retry_repeats_the_first_request refusing_world 2
           "https://api.eosc-portal.eu/resource" "PUT" json_headers NoData
           (mkState (JStr "old") [] None)).
  lia.
Defined.

Lemma create_resource_raises (w : World) (fuel : nat) (baseurl_eosc : string)
    (service_metadata : Payload) (blue_id : string) st :
  2 <= fuel ->
  ends (create_resource w fuel baseurl_eosc service_metadata blue_id st)
       (fun st' => key_file st' = key_file st) (fun _ => False).
Proof.
  intros Hfuel. unfold create_resource.
  eapply ends_bind; [apply make_authorized_request_sends; exact Hfuel | |].
  - cbv beta. intros st' (_ & Hk). exact Hk.
  - cbv beta. intros resp st' (_ & Hk) _.
    destruct (status_code resp =? 201)%nat; simpl; exact Hk.
Qed.

(** X16.  [create_resource] never hands back an id: every call ends with an
    exception.  When the catalogue created the resource (the request came
    back with status 201) the exception is the NameError of [name], and
    when it answered 200 it is the ValueError of a failed post. *)
Theorem create_resource_never_returns (w : World) (fuel : nat)
    (baseurl_eosc : string) (service_metadata : Payload) (blue_id : string)
    (st : State) :
  2 <= fuel ->
  exists e st',
    create_resource w fuel baseurl_eosc service_metadata blue_id st
    = Raises e st'
    /\ forall resp st1,
         make_authorized_request w fuel
           (PyStr.rstrip_chars (Ascii.eqb "/") baseurl_eosc ++ "/resource")%string
           "POST" json_headers service_metadata st = Returns resp st1 ->
         st' = st1
         /\ ((status_code resp = 201 /\ e = NameError "name")
             \/ (status_code resp = 200 /\ e = ValueError_post 200)).
Proof.
  intros Hfuel.
  pose proof (make_authorized_request_sends w fuel
                (PyStr.rstrip_chars (Ascii.eqb "/") baseurl_eosc ++ "/resource")%string
                "POST" json_headers service_metadata st Hfuel) as Hm.
  unfold create_resource, bind.
  destruct (make_authorized_request w fuel _ "POST" json_headers
              service_metadata st) as [resp st1|e st1|] eqn:E.
  - destruct Hm as (_ & [C|C]); rewrite C; cbn.
    + eexists. eexists. split; [reflexivity|].
      intros resp' st1' Eq. inversion Eq; subst. split; [reflexivity|].
      right. auto.
    + eexists. eexists. split; [reflexivity|].
      intros resp' st1' Eq. inversion Eq; subst. split; [reflexivity|].
      left. auto.
  - exists e, st1. split; [reflexivity|]. intros resp st2 Eq. discriminate Eq.
  - destruct Hm.
Qed.

Lemma create_resource_never_returns_witness :
  create_resource creating_world 2 "https://api.eosc-portal.eu/" NoData
    "e5422ae1" initial_state
  = Raises (NameError "name")
      (mkState (JStr "new")
         [token_request creating_world;
          mkRequest "POST" "https://api.eosc-portal.eu/resource"
            [("Accept", "application/json");
             ("Content-Type", "application/json");
             ("Authorization", "Bearer new")] NoData]
         None)
  /\ exists e st',
       create_resource creating_world 2 "https://api.eosc-portal.eu/" NoData
         "e5422ae1" initial_state = Raises e st'
       /\ forall resp st1,
            make_authorized_request creating_world 2
              (PyStr.rstrip_chars (Ascii.eqb "/") "https://api.eosc-portal.eu/"
               ++ "/resource")%string
              "POST" json_headers NoData initial_state = Returns resp st1 ->
            st' = st1
            /\ ((status_code resp = 201 /\ e = NameError "name")
                \/ (status_code resp = 200 /\ e = ValueError_post 200)).
Proof.
  split; [reflexivity|].
  apply (create_resource_never_returns creating_world 2
           "https://api.eosc-portal.eu/" NoData "e5422ae1" initial_state).
  lia.
Defined.

Lemma send_keeps_key_file (w : World) (q : Request) st kf :
  key_file st = kf ->
  ends (send w q st) (fun st' => key_file st' = kf) (fun _ => True).
Proof. unfold send. destruct (server w (sent st) q); simpl; auto. Qed.

Lemma liftE_keeps_key_file {A} (r : error + A) st kf :
  key_file st = kf ->
  ends (liftE r st) (fun st' => key_file st' = kf) (fun _ => True).
Proof. destruct r; simpl; auto. Qed.

Lemma json_of_keeps_key_file (resp : Response) st kf :
  key_file st = kf ->
  ends (json_of resp st) (fun st' => key_file st' = kf) (fun _ => True).
Proof. unfold json_of. destruct (json resp); simpl; auto. Qed.

Ltac key_file_step kf :=
  eapply (ends_bind _ _ _ (fun s => key_file s = kf) _ (fun _ => True));
  [ first [ apply send_keeps_key_file; assumption
          | apply json_of_keeps_key_file; assumption
          | apply liftE_keeps_key_file; assumption ]
  | auto
  | cbv beta; intros ? ? ? _ ].

Lemma does_resource_exist_by_id_keeps (w : World) (baseurl_eosc eosc_id : string)
    st kf :
  key_file st = kf ->
  ends (does_resource_exist_by_id w baseurl_eosc eosc_id st)
       (fun st' => key_file st' = kf) (fun _ => True).
Proof.
  intros H. unfold does_resource_exist_by_id.
  key_file_step kf. key_file_step kf.
  destruct (status_code _ =? 200)%nat; [simpl; auto|].
  destruct (status_code _ =? 404)%nat; simpl; auto.
Qed.

Lemma does_resource_exist_by_name_keeps (w : World)
    (baseurl_eosc name resourceOrganisation : string) st kf :
  key_file st = kf ->
  ends (does_resource_exist_by_name w baseurl_eosc name resourceOrganisation st)
       (fun st' => key_file st' = kf) (fun _ => True).
Proof.
  intros H. unfold does_resource_exist_by_name.
  key_file_step kf.
  destruct (status_code _ =? 500)%nat.
  - key_file_step kf. key_file_step kf. simpl. auto.
  - do 5 key_file_step kf. apply liftE_keeps_key_file. assumption.
Qed.

Lemma update_resource_keeps (w : World) (fuel : nat) (baseurl_eosc : string)
    (service_metadata : Payload) st :
  2 <= fuel ->
  ends (update_resource w fuel baseurl_eosc service_metadata st)
       (fun st' => key_file st' = key_file st) (fun _ => True).
Proof.
  intros Hfuel. unfold update_resource.
  eapply ends_bind; [apply make_authorized_request_sends; exact Hfuel | |].
  - cbv beta. intros st' (_ & Hk). exact Hk.
  - cbv beta. intros resp st' (_ & Hk) _.
    destruct (negb (status_code resp =? 201)%nat); simpl; auto.
Qed.

(** X17.  [update_or_create_at_eosc] never writes the primary-key file and
    never hands back an id: the branch that would record the id of a new
    resource starts with [create_resource], which always raises.  Every
    call ends, with [None] or with an exception, and the file is as it
    was. *)
Theorem update_or_create_never_records_an_id (w : World) (fuel : nat)
    (service_name baseurl_eosc : string) (eosc_service_metadata : Target.t)
    (dry_run : bool) (st : State) :
  2 <= fuel ->
  ends (update_or_create_at_eosc w fuel service_name baseurl_eosc
          eosc_service_metadata dry_run st)
       (fun st' => key_file st' = key_file st)
       (fun r => r = None).
Proof.
  intros Hfuel. unfold update_or_create_at_eosc.
  unfold bind at 1. unfold read_key_file at 1.
  destruct (KeyFile.get_eosc_id_from_file _ (key_file st)) as [e|eosc_id];
    [simpl; reflexivity|].
  destruct dry_run; [simpl; auto|].
  eapply (ends_bind _ _ _ (fun st' => key_file st' = key_file st) _
            (fun _ => True)).
  - destruct eosc_id as [id|];
      [apply does_resource_exist_by_id_keeps
      |apply does_resource_exist_by_name_keeps]; reflexivity.
  - auto.
  - intros does_exists s1 H1 _. destruct does_exists.
    + eapply (ends_bind _ _ _ (fun st' => key_file st' = key_file s1) _
                (fun _ => True)).
      * apply update_resource_keeps. exact Hfuel.
      * intros s2 H2. congruence.
      * intros _ s2 H2 _. simpl. split; [congruence | reflexivity].
    + eapply (ends_bind _ _ _ (fun st' => key_file st' = key_file s1) _
                (fun _ => False)).
      * apply create_resource_raises. exact Hfuel.
      * intros s2 H2. congruence.
      * intros new_id s2 _ [].
Qed.

Lemma update_or_create_never_records_an_id_witness :
  update_or_create_at_eosc creating_world 2 "oceanpatterns"
    "https://api.eosc-portal.eu"
    (build_target fresh [] []) false initial_state
  = Raises (NameError "name")
      (mkState (JStr "new")
         [mkRequest "GET" "https://api.eosc-portal.eu/resource/all?query=oceanpatterns"
            [("Accept", "application/json")] NoData;
          token_request creating_world;
          mkRequest "POST" "https://api.eosc-portal.eu/resource"
            [("Accept", "application/json");
             ("Content-Type", "application/json");
             ("Authorization", "Bearer new")]
            (Metadata (build_target fresh [] []) None)]
         None)
  /\ ends (update_or_create_at_eosc creating_world 2 "oceanpatterns"
             "https://api.eosc-portal.eu" (build_target fresh [] []) false
             initial_state)
          (fun st' => key_file st' = key_file initial_state)
          (fun r => r = None).
Proof.
  split; [reflexivity|].
  apply (update_or_create_never_records_an_id creating_world 2 "oceanpatterns"
           "https://api.eosc-portal.eu" (build_target fresh [] []) false
           initial_state).
  lia.
Defined.

End EoscClient.

(** * The mapping engine after the extras loop *)

Lemma match_children_runs (axis : Axis) (mapping : dict)
    (parent_ids child_ids : list string) (todo : list string) :
  Forall (fun sub => dict_get mapping sub <> None) todo ->
  forall composites used st,
    exists r st',
      match_children axis mapping parent_ids child_ids todo composites used st
      = Done r st'.
Proof.
  induction 1 as [|sub rest Hsub _ IH]; intros composites used st.
  - eexists. eexists. reflexivity.
  - cbn [match_children]. unfold bind at 1, lookup at 1.
    destruct (dict_get mapping sub) as [main|]; [|congruence].
    unfold ret at 1. destruct (py_in main parent_ids).
    + unfold bind at 1, logm at 1, modify at 1. apply IH.
    + unfold bind at 1, logm at 1, modify at 1.
      unfold bind at 1, logm at 1, modify at 1.
      destruct ((List.length parent_ids =? 1) && (List.length child_ids =? 1))%nat
        eqn:Hone; [|apply IH].
      apply andb_true_iff in Hone as (Hp & Hc).
      apply Nat.eqb_eq in Hp, Hc.
      destruct parent_ids as [|p [|? ?]]; try discriminate Hp.
      destruct child_ids as [|c [|? ?]]; try discriminate Hc.
      unfold bind at 1, index at 1. cbn [nth_error]. unfold ret at 1.
      unfold bind at 1, index at 1. cbn [nth_error]. unfold ret at 1.
      apply IH.
Qed.

Lemma match_composites_runs (axis : Axis) (mapping : dict)
    (parent_ids child_ids : list string) st :
  Forall (fun sub => dict_get mapping sub <> None) child_ids ->
  exists l st', match_composites axis mapping parent_ids child_ids st = Done l st'.
Proof.
  intros Hall. unfold match_composites.
  unfold bind at 1, logm at 1, modify at 1.
  unfold bind at 1, logm at 1, modify at 1.
  match goal with
  | |- exists _ _, bind _ _ ?s = _ =>
      destruct (match_children_runs axis mapping parent_ids child_ids child_ids
                  Hall [] [] s) as (r & s1 & H1)
  end.
  rewrite (bind_Done_l _ _ _ _ _ H1).
  destruct (report_unused_total axis parent_ids (snd r) s1) as (s2 & H2 & _).
  rewrite (bind_Done_l _ _ _ _ _ H2).
  destruct (trace_composites_total axis (fst r) s2) as (s3 & H3 & _).
  rewrite (bind_Done_l _ _ _ _ _ H3).
  eexists. eexists. reflexivity.
Qed.

Lemma covers_lookup (mapping children : dict) :
  covers mapping children = true ->
  forall k v, dict_get children k = Some v -> dict_get mapping v <> None.
Proof.
  intros Hc k v Hget. unfold covers in Hc. rewrite forallb_forall in Hc.
  assert (Hin : exists k', In (k', v) children).
  { clear Hc. induction children as [|[k' v'] rest IH]; simpl in Hget;
      [discriminate|].
    destruct (k =? k').
    - inversion Hget; subst. exists k'. now left.
    - destruct (IH Hget) as (k'' & Hin). exists k''. now right. }
  destruct Hin as (k' & Hin). specialize (Hc _ Hin). simpl in Hc.
  destruct (dict_get mapping v); [discriminate | discriminate Hc].
Qed.

Lemma collect_children_have_parents (md : SourceRecord) st :
  collect md fresh = Done tt st ->
  Forall (fun sub => dict_get CV_DOM_MAPPING sub <> None) (subdomain_ids st)
  /\ Forall (fun sub => dict_get CV_CAT_MAPPING sub <> None) (subcategory_ids st).
Proof.
  intros H. unfold collect in H.
  apply bind_Done in H as ([] & s0 & Hd & Hl).
  assert (E : (subdomain_ids s0, subcategory_ids s0) = ([], [])).
  { apply (extract_direct_keeps
             (fun s => (subdomain_ids s, subcategory_ids s)) md) in Hd; auto. }
  injection E as E1 E2.
  destruct parent_tables_cover_vocabularies as (Cd & Cc).
  split.
  - apply (iterate_extras_invariant subdomain_ids _
             "ClassificationInformation:Scientific Subdomain"
             (fun _ _ => eq_refl) handle_extra_keeps_subdomain_ids
             (subdomain_handler_ids _ (covers_lookup _ _ Cd))
             _ _ _ _ Hl).
    rewrite E1. constructor.
  - apply (iterate_extras_invariant subcategory_ids _
             "ClassificationInformation:Subcategory"
             (fun _ _ => eq_refl) handle_extra_keeps_subcategory_ids
             (subcategory_handler_ids _ (covers_lookup _ _ Cc))
             _ _ _ _ Hl).
    rewrite E2. constructor.
Qed.

Lemma assemble_after_contacts_runs st :
  Forall (fun sub => dict_get CV_DOM_MAPPING sub <> None) (subdomain_ids st) ->
  Forall (fun sub => dict_get CV_CAT_MAPPING sub <> None) (subcategory_ids st) ->
  exists target st',
    (dom <- gets domain_ids ;;
     subdom <- gets subdomain_ids ;;
     composite_domains <- match_composites Domains CV_DOM_MAPPING dom subdom ;;
     cat <- gets category_ids ;;
     subcat <- gets subcategory_ids ;;
     composite_categories
       <- match_composites Categories CV_CAT_MAPPING cat subcat ;;
     filter_tags_step ;;
     missing_mandatory_items
       <- check_missing composite_domains composite_categories ;;
     print_collected ;;
     st <- gets (fun st => st) ;;
     ret (ReturnsTarget (build_target st composite_domains composite_categories)))
      st
    = Done (ReturnsTarget target) st'.
Proof.
  intros Hsub Hcat.
  unfold bind at 1, gets at 1. unfold bind at 1, gets at 1.
  destruct (match_composites_runs Domains CV_DOM_MAPPING (domain_ids st)
              (subdomain_ids st) st Hsub) as (cd & s1 & H1).
  rewrite (bind_Done_l _ _ _ _ _ H1).
  assert (Hcat1 : subcategory_ids s1 = subcategory_ids st).
  { exact (match_composites_keeps subcategory_ids (fun _ _ => eq_refl)
             _ _ _ _ _ _ _ H1). }
  unfold bind at 1, gets at 1. unfold bind at 1, gets at 1.
  rewrite <- Hcat1 in Hcat.
  destruct (match_composites_runs Categories CV_CAT_MAPPING (category_ids s1)
              (subcategory_ids s1) s1 Hcat) as (cc & s2 & H2).
  rewrite (bind_Done_l _ _ _ _ _ H2).
  destruct (filter_tags_step_total s2) as ([] & s3 & H3).
  rewrite (bind_Done_l _ _ _ _ _ H3).
  destruct (check_missing_spec cd cc s3) as (l & s4 & H4 & _).
  rewrite (bind_Done_l _ _ _ _ _ H4).
  destruct (print_collected_spec s4) as (s5 & H5 & _).
  rewrite (bind_Done_l _ _ _ _ _ H5).
  unfold bind, gets, ret. eexists. eexists. reflexivity.
Qed.

(** X18.  Once the statements up to the end of the extras loop have
    completed, only three things stop the mapping: a missing main contact
    name, a missing public contact name, and a placeholder URL in effect.
    In particular the composite matchers never raise: every subdomain and
    subcategory id that the handlers can produce has a parent in the
    tables. *)
Theorem after_the_loop_only_names_and_placeholders_stop
    (md : SourceRecord) (s0 : Locals) :
  collect md fresh = Done tt s0 ->
  (exists target st,
      extract_bluecloud_metadata md = Done (ReturnsTarget target) st)
  <-> (In "ContactInformation:Main Contact Name" (map fst (md_extras md))
       /\ In "ContactInformation:Public Contact Name" (map fst (md_extras md))
       /\ placeholder_in_effect md = false).
Proof.
  intros Hc. unfold extract_bluecloud_metadata. split.
  - intros (target & st & H).
    destruct (run_Done_names md _ _ H) as (Hm & Hp).
    split; [exact Hm|]. split; [exact Hp|].
    exact (run_Done_no_placeholder md _ _ H).
  - intros (Hmain & Hpub & Hp).
    destruct (collect_Done md s0 Hc) as (Hm & Hu & _).
    destruct (collect_names md s0 Hc) as (Hmn & Hpn).
    destruct (collect_children_have_parents md s0 Hc) as (Hsub & Hcat).
    unfold placeholder_in_effect in Hp. apply orb_false_elim in Hp as (Pm & Pu).
    rewrite <- Hm in Pm. rewrite <- Hu in Pu.
    apply String.eqb_neq in Pm, Pu.
    destruct (construct_multimedia_passes s0 Pm) as (s1 & H1 & _).
    pose proof (construct_multimedia_keeps_names_and_children _ _ _ H1) as K1.
    cbv beta in K1. injection K1 as E1 E2 E3 E4 E5.
    rewrite <- E5 in Pu.
    destruct (construct_useCases_passes s1 Pu) as (s2 & H2).
    pose proof (construct_useCases_keeps_names_and_children _ _ _ H2) as K2.
    cbv beta in K2. injection K2 as F1 F2 F3 F4.
    destruct (last_assigned_bound PyStr.strip _ (md_extras md) None Hmain)
      as (mn & Bm).
    destruct (last_assigned_bound PyStr.strip _ (md_extras md) None Hpub)
      as (pn & Bp).
    destruct (construct_contacts_runs s2 mn pn) as (s3 & H3 & _ & G2 & _ & G4).
    { congruence. }
    { congruence. }
    destruct (assemble_after_contacts_runs s3) as (target & s4 & H4).
    { rewrite G2, F3, E3. exact Hsub. }
    { rewrite G4, F4, E4. exact Hcat. }
    exists target, s4. unfold run, assemble.
    rewrite (bind_Done_l _ _ _ _ _ Hc), (bind_Done_l _ _ _ _ _ H1),
      (bind_Done_l _ _ _ _ _ H2), (bind_Done_l _ _ _ _ _ H3).
    exact H4.
Qed.

Lemma after_the_loop_only_names_and_placeholders_stop_witness :
  (exists target st,
      extract_bluecloud_metadata record_with_mismatching_subdomain
      = Done (ReturnsTarget target) st)
  <-> (In "ContactInformation:Main Contact Name"
          (map fst (md_extras record_with_mismatching_subdomain))
       /\ In "ContactInformation:Public Contact Name"
             (map fst (md_extras record_with_mismatching_subdomain))
       /\ placeholder_in_effect record_with_mismatching_subdomain = false).
Proof.
  eapply (after_the_loop_only_names_and_placeholders_stop
            record_with_mismatching_subdomain).
  vm_compute. reflexivity.
Defined.

(** * The vocabulary retrieval *)

Section VocabularyRetrieval.

Import CvRetrieve.

Lemma dict_get_set (d : dict) (k v k' : string) :
  dict_get (dict_set k v d) k'
  = if k' =? k then Some v else dict_get d k'.
Proof.
  induction d as [|[k0 v0] d IH]; cbn [dict_set dict_get].
  - destruct (k' =? k); reflexivity.
  - destruct (String.eqb_spec k0 k) as [->|Hne]; cbn [dict_get].
    + destruct (k' =? k); reflexivity.
    + rewrite IH. destruct (String.eqb_spec k' k0) as [->|Hne'].
      * apply String.eqb_neq in Hne. now rewrite Hne.
      * reflexivity.
Qed.

Lemma dict_set_entries (d : dict) (k v : string) (kv : string * string) :
  In kv (dict_set k v d) -> snd kv = v \/ In kv d.
Proof.
  induction d as [|[k0 v0] d IH]; cbn [dict_set].
  - intros [<-|[]]. now left.
  - destruct (k0 =? k); intros [<-|Hin].
    + now left.
    + right. now right.
    + right. now left.
    + destruct (IH Hin) as [E|Hin']; [now left | right; now right].
Qed.

Lemma sub_loop_covers (CV_main : dict) (items : list Item) :
  forall st st',
    sub_loop CV_main items st = inr st' ->
    Forall (fun kv => dict_get (CV_mapping st) (snd kv) <> None) (CV_sub st) ->
    Forall (fun kv => dict_get (CV_mapping st') (snd kv) <> None) (CV_sub st').
Proof.
  induction items as [|item rest IH]; intros st st' H Hinv.
  - inversion H; subst. exact Hinv.
  - cbn [sub_loop] in H. destruct (parentId item) as [parentid|];
      [|exact (IH _ _ H Hinv)].
    cbv zeta in H.
    destruct (find_key CV_main parentid (PyStr.lower (name item)) (key st))
      as [k0|]; [|discriminate H].
    apply (IH _ _ H). cbn [CV_sub CV_mapping].
    rewrite Forall_forall in Hinv |- *. intros kv Hin.
    rewrite dict_get_set.
    destruct (String.eqb_spec (snd kv) (id item)) as [E|Hne]; [discriminate|].
    apply dict_set_entries in Hin as [E|Hin]; [congruence|].
    exact (Hinv kv Hin).
Qed.

(** X19.  The tables that [get_values_and_subvalues2] hands back fit the
    composite matchers of the mapping: every id in the table of sub-values
    is a key of the table of parents, so that a matcher run with this table
    on such child ids never raises, whatever the parent ids are. *)
Theorem retrieved_tables_fit_the_matchers
    (api_super : string) (main_items sub_items : list Item) (t : Tables) :
  get_values_and_subvalues2 api_super main_items sub_items = inr t ->
  covers (mapping t) (sub t) = true
  /\ forall (axis : Axis) (parent_ids child_ids : list string) (st : Locals),
       Forall (fun c => In c (map snd (sub t))) child_ids ->
       exists composites st',
         match_composites axis (mapping t) parent_ids child_ids st
         = Done composites st'.
Proof.
  unfold get_values_and_subvalues2. intros H.
  destruct (sub_loop (get_cv_values main_items) sub_items
              (mkSubState None [] [])) as [e|s] eqn:E; [discriminate H|].
  inversion H; subst t; clear H. cbn [sub mapping].
  assert (C : Forall (fun kv => dict_get (CV_mapping s) (snd kv) <> None)
                     (CV_sub s)).
  { apply (sub_loop_covers _ _ _ _ E). constructor. }
  rewrite Forall_forall in C. split.
  - unfold covers. apply forallb_forall. intros kv Hin.
    specialize (C kv Hin). destruct (dict_get (CV_mapping s) (snd kv));
      [reflexivity | congruence].
  - intros axis parent_ids child_ids st Hall.
    apply match_composites_runs.
    rewrite Forall_forall in Hall |- *. intros c Hc.
    specialize (Hall c Hc). apply in_map_iff in Hall as (kv & <- & Hin).
    exact (C kv Hin).
Qed.

Lemma retrieved_tables_fit_the_matchers_witness :
  exists t,
    get_values_and_subvalues2 "SCIENTIFIC_DOMAIN" sample_domains
      (firstn 2 sample_subdomains) = inr t
    /\ covers (mapping t) (sub t) = true
    /\ forall (axis : Axis) (parent_ids child_ids : list string) (st : Locals),
         Forall (fun c => In c (map snd (sub t))) child_ids ->
         exists composites st',
           match_composites axis (mapping t) parent_ids child_ids st
           = Done composites st'.
Proof.
  eexists. split; [reflexivity|].
  eapply (retrieved_tables_fit_the_matchers "SCIENTIFIC_DOMAIN" sample_domains
            (firstn 2 sample_subdomains)).
  reflexivity.
Defined.

Lemma sub_loop_app (CV_main : dict) (a b : list Item) (st : SubState) :
  sub_loop CV_main (a ++ b) st
  = match sub_loop CV_main a st with
    | inl e => inl e
    | inr st' => sub_loop CV_main b st'
    end.
Proof.
  revert st. induction a as [|item a IH]; intros st; [reflexivity|].
  cbn [app sub_loop]. destruct (parentId item) as [p|]; [|apply IH].
  cbv zeta. destruct (find_key _ _ _ _); [apply IH | reflexivity].
Qed.

Lemma find_key_unknown (CV_main : dict) (parentid subname : string)
    (key : option string) :
  ~ In parentid (map snd CV_main) ->
  find_key CV_main parentid subname key = key.
Proof.
  unfold find_key. revert key.
  induction CV_main as [|[n i] d IH]; intros key Hno; [reflexivity|].
  cbn [fold_left snd]. destruct (String.eqb_spec i parentid) as [->|Hne].
  - exfalso. apply Hno. now left.
  - apply IH. intros Hin. apply Hno. now right.
Qed.

Lemma dict_set_key (d : dict) (k v : string) : In k (map fst (dict_set k v d)).
Proof.
  induction d as [|[k0 v0] d IH]; cbn [dict_set]; [now left|].
  destruct (String.eqb_spec k0 k) as [->|Hne]; [now left | right; exact IH].
Qed.

Lemma dict_set_length (d : dict) (k v : string) :
  In k (map fst d) -> List.length (dict_set k v d) = List.length d.
Proof.
  induction d as [|[k0 v0] d IH]; cbn [dict_set map fst]; [intros []|].
  destruct (String.eqb_spec k0 k) as [->|Hne]; [reflexivity|].
  intros [E|Hin]; [congruence|]. cbn [List.length]. now rewrite IH.
Qed.

Lemma sub_loop_key_filed (CV_main : dict) (items : list Item) :
  forall st st',
    sub_loop CV_main items st = inr st' ->
    (forall k, key st = Some k -> In k (map fst (CV_sub st))) ->
    forall k, key st' = Some k -> In k (map fst (CV_sub st')).
Proof.
  induction items as [|item rest IH]; intros st st' H Hinv.
  - inversion H; subst. exact Hinv.
  - cbn [sub_loop] in H. destruct (parentId item) as [parentid|];
      [|exact (IH _ _ H Hinv)].
    cbv zeta in H.
    destruct (find_key CV_main parentid (PyStr.lower (name item)) (key st))
      as [k0|]; [|discriminate H].
    apply (IH _ _ H). cbn [key CV_sub]. intros k Hk. inversion Hk; subst.
    apply dict_set_key.
Qed.

(** X20.  A sub-value whose parent id is the id of no main value is filed
    under the key of the sub-value before it: the loop keeps the key it
    built last, so the new id replaces what that key held (the table of
    sub-values does not grow), while the table of parents records the
    unknown parent.  When no key has been built yet, the call raises the
    unbound local [key]. *)
Theorem unknown_parent_reuses_the_last_key
    (api_super : string) (main_items before : list Item) (item : Item)
    (parentid : string) :
  parentId item = Some parentid ->
  ~ In parentid (map snd (get_cv_values main_items)) ->
  match sub_loop (get_cv_values main_items) before (mkSubState None [] []) with
  | inl e =>
      get_values_and_subvalues2 api_super main_items (before ++ [item]) = inl e
  | inr st =>
      match key st with
      | None =>
          get_values_and_subvalues2 api_super main_items (before ++ [item])
          = inl (UnboundLocalError "key")
      | Some k =>
          exists t,
            get_values_and_subvalues2 api_super main_items (before ++ [item])
            = inr t
            /\ dict_get (sub t) k = Some (id item)
            /\ dict_get (mapping t) (id item) = Some parentid
            /\ List.length (sub t) = List.length (CV_sub st)
      end
  end.
Proof.
  intros Hp Hno. unfold get_values_and_subvalues2.
  rewrite sub_loop_app.
  destruct (sub_loop (get_cv_values main_items) before (mkSubState None [] []))
    as [e|st] eqn:E; [reflexivity|].
  cbn [sub_loop]. rewrite Hp. cbv zeta.
  rewrite (find_key_unknown _ _ _ _ Hno).
  destruct (key st) as [k|] eqn:K; [|reflexivity].
  eexists. split; [reflexivity|]. cbn [sub mapping CV_sub CV_mapping].
  rewrite !dict_get_set, !String.eqb_refl. repeat split.
  apply dict_set_length.
  apply (sub_loop_key_filed _ _ _ _ E); [discriminate | exact K].
Qed.

Lemma unknown_parent_reuses_the_last_key_witness :
  exists t,
    get_values_and_subvalues2 "SCIENTIFIC_DOMAIN" sample_domains
      sample_subdomains = inr t
    /\ sub t
       = [("generic.generic", "scientific_subdomain-generic-generic");
          ("natural sciences.earth sciences",
           "scientific_subdomain-humanities-arts")]
    /\ dict_get (mapping t) "scientific_subdomain-humanities-arts"
       = Some "scientific_domain-humanities".
Proof.
  pose proof (unknown_parent_reuses_the_last_key "SCIENTIFIC_DOMAIN"
                sample_domains (firstn 2 sample_subdomains)
                (mkItem "scientific_subdomain-humanities-arts" "Arts"
                   (Some "scientific_domain-humanities"))
                "scientific_domain-humanities" eq_refl) as H.
  cbv beta iota in H.
  assert (Hno : ~ In "scientific_domain-humanities"
                     (map snd (get_cv_values sample_domains))).
  { cbn. intros [E|[E|[]]]; discriminate E. }
  specialize (H Hno). cbn in H. destruct H as (t & Ht & _ & Hm & _).
  exists t. split; [exact Ht|]. split; [|exact Hm].
  cbn in Ht. inversion Ht. reflexivity.
Defined.

Lemma find_append {A} (p : A -> bool) (l1 l2 : list A) :
  find p (l1 ++ l2)
  = match find p l1 with
    | Some x => Some x
    | None => find p l2
    end.
Proof.
  induction l1 as [|x l1 IH]; [reflexivity|].
  cbn [app find]. destruct (p x); [reflexivity | exact IH].
Qed.

Lemma fold_dict_set_lookup (items : list Item) (d : dict) (k : string) :
  dict_get (fold_left (fun values item =>
                         dict_set (PyStr.lower (name item)) (id item) values)
                      items d) k
  = match find (fun item => PyStr.lower (name item) =? k) (rev items) with
    | Some item => Some (id item)
    | None => dict_get d k
    end.
Proof.
  revert d. induction items as [|item rest IH]; intros d; [reflexivity|].
  cbn [fold_left rev]. rewrite IH, find_append.
  destruct (find _ (rev rest)) as [hit|]; [reflexivity|].
  cbn [find]. rewrite dict_get_set, (String.eqb_sym k).
  destruct (PyStr.lower (name item) =? k); reflexivity.
Qed.

(** X21.  Looking a name up in the table of [get_cv_values] gives the id of
    the last item of the response whose name, in lower case, is that name,
    and nothing when there is none: names that differ in case only share
    one entry, which the later item takes over. *)
Theorem cv_values_give_the_last_item_of_a_name (items : list Item) (k : string) :
  dict_get (get_cv_values items) k
  = option_map id (find (fun item => PyStr.lower (name item) =? k) (rev items)).
Proof.
  unfold get_cv_values. rewrite fold_dict_set_lookup.
  destruct (find _ (rev items)); reflexivity.
Qed.

End VocabularyRetrieval.
